(** * Environmental scenario simulators: FloodSim, ThermalSim, WindSim

    A shallow embedding of the three simulators of [src/modules] and the
    properties of their scenario computations.

    Number model.  Python floats are read as exact numbers.  The flood
    hydrology only adds, multiplies, divides, compares and truncates, so
    it is embedded over [Q] and runs inside Rocq.  Where the source calls
    [np.sqrt], [np.log], [np.exp], [np.cos] or draws from [np.random],
    the value is a real number ([R]); a rational enters such an
    expression through [Q2R].  Rounding error, [nan] and [inf] are
    outside the model.

    Effects.  [np.random] is one global generator: its state is threaded
    through a state monad, and the wall clock read by [datetime.now()]
    is a field of the world.  Console output ([print]) is not modelled. *)

From Stdlib Require Import ZArith QArith Qround Qreals Reals Psatz.
From Stdlib Require Import String List Bool.
Import ListNotations.

(** ** Python built-ins on exact rationals *)

Module PyQ.
Local Open Scope Q_scope.

(** [a < b] and [a <= b] as Python truth values. *)
Definition ltb (a b : Q) : bool := if Qlt_le_dec a b then true else false.
Definition leb (a b : Q) : bool := if Qlt_le_dec b a then false else true.

(** [max(a, b)] keeps its first argument unless the second is larger;
    [min(a, b)] keeps it unless the second is smaller. *)
Definition max (a b : Q) : Q := if ltb a b then b else a.
Definition min (a b : Q) : Q := if ltb b a then b else a.

(** [int(x)]: truncation towards zero. *)
Definition int (x : Q) : Z := Z.quot (Qnum x) (Zpos (Qden x)).

(** Nearest integer, ties to the even one. *)
Definition round_half_even (x : Q) : Z :=
  let f := Qfloor x in
  match Qcompare (x - inject_Z f) (1 # 2) with
  | Lt => f
  | Gt => (f + 1)%Z
  | Eq => if Z.even f then f else (f + 1)%Z
  end.

Definition pow10 (n : nat) : Q := inject_Z (10 ^ Z.of_nat n).

(** [round(x, ndigits)]. *)
Definition round (x : Q) (ndigits : nat) : Q :=
  inject_Z (round_half_even (x * pow10 ndigits)) / pow10 ndigits.
End PyQ.

(** ** Python and numpy built-ins on reals *)

Module PyR.
Local Open Scope R_scope.

Definition ltb (a b : R) : bool := if Rlt_dec a b then true else false.
Definition leb (a b : R) : bool := if Rle_dec a b then true else false.

Definition max (a b : R) : R := if ltb a b then b else a.
Definition min (a b : R) : R := if ltb b a then b else a.

(** [int(x)]: truncation towards zero. *)
Definition int (x : R) : Z :=
  if ltb x 0 then (- Zfloor (- x))%Z else Zfloor x.

Definition round_half_even (x : R) : Z :=
  let f := Zfloor x in
  if ltb (x - IZR f) (1 / 2) then f
  else if ltb (1 / 2) (x - IZR f) then (f + 1)%Z
  else if Z.even f then f else (f + 1)%Z.

Definition pow10 (n : nat) : R := IZR (10 ^ Z.of_nat n).

(** [round(x, ndigits)]. *)
Definition round (x : R) (ndigits : nat) : R :=
  IZR (round_half_even (x * pow10 ndigits)) / pow10 ndigits.

(** Float remainder [x % m] for a positive modulus: the result has the
    sign of [m]. *)
Definition fmod (x m : R) : R := x - m * IZR (Zfloor (x / m)).

(** [x ** y] for a float base: [0.0 ** y] is [0.0] for positive [y]. *)
Definition pow (x y : R) : R :=
  if Req_dec_T x 0 then 0 else Rpower x y.

(** [np.clip(x, lo, hi)]. *)
Definition clip (x lo hi : R) : R := Rmin (Rmax x lo) hi.

Definition sum (xs : list R) : R := fold_left Rplus xs 0.

(** [np.var(xs)]: the population variance. *)
Definition var (xs : list R) : R :=
  let n := INR (List.length xs) in
  let mean := sum xs / n in
  sum (map (fun x => (x - mean) ^ 2) xs) / n.

(** [np.radians(d)]. *)
Definition radians (d : R) : R := d * PI / 180.
End PyR.

(** ** State threading *)

Definition State (S A : Type) : Type := S -> A * S.

Definition ret {S A : Type} (a : A) : State S A := fun s => (a, s).

Definition bind {S A B : Type} (m : State S A) (k : A -> State S B)
  : State S B :=
  fun s => let (a, s') := m s in k a s'.

Declare Scope state_scope.
Delimit Scope state_scope with state.
Notation "x <- m ;; k" := (bind m (fun x => k))
  (at level 61, m at next level, right associativity) : state_scope.
Notation "m ;;; k" := (bind m (fun _ => k))
  (at level 61, right associativity) : state_scope.

(** [for i in range(n): out.append(body(i))], counting from [start]. *)
Fixpoint for_range {S A : Type} (n : nat) (start : Z)
  (body : Z -> State S A) : State S (list A) :=
  match n with
  | O => ret []
  | S k =>
      bind (body start) (fun x =>
      bind (for_range k (start + 1)%Z body) (fun xs =>
      ret (x :: xs)))
  end.

(** ** The interpreter and numpy's global generator *)

(** The two functions [calculate_zone_comfort] imports from the optional
    package [pythermalcomfort]: [pmv_ppd] (returning the pair of its
    ['pmv'] and ['ppd'] entries) and [utci]. *)
Module PyThermalComfort.
Record models : Type := {
  pmv_ppd : R -> R -> R -> R -> R -> R -> R * R;
  utci : R -> R -> R -> R -> R
}.
End PyThermalComfort.

(** What one Python process fixes: the string hash (salted once per
    process), whether [pythermalcomfort] can be imported, and numpy's
    generator with its samplers. *)
Class Runtime : Type := {
  hash : string -> Z;
  pythermalcomfort : option PyThermalComfort.models;
  rng_state : Type;
  rng_seed : Z -> rng_state;
  rng_normal : R -> R -> State rng_state R;
  rng_exponential : R -> State rng_state R;
  rng_uniform : R -> R -> State rng_state R;
  rng_choice : list R -> State rng_state nat
}.

(** The samplers stay within the support of their distributions. *)
Class RuntimeLaws (rt : Runtime) : Prop := {
  uniform_range :
    forall (lo hi : R) (s : rng_state),
      (lo <= hi)%R ->
      (lo <= fst (rng_uniform lo hi s) <= hi)%R;
  exponential_range :
    forall (scale : R) (s : rng_state),
      (0 <= scale)%R -> (0 <= fst (rng_exponential scale s))%R
}.

Section Random.
Context {rt : Runtime}.

Definition Rand (A : Type) : Type := State rng_state A.

(** [np.random.seed(v)] replaces the generator state. *)
Definition np_random_seed (v : Z) : Rand unit :=
  fun _ => (tt, rng_seed v).

Definition np_random_normal (loc scale : R) : Rand R :=
  rng_normal loc scale.

Definition np_random_exponential (scale : R) : Rand R :=
  rng_exponential scale.

Definition np_random_uniform (lo hi : R) : Rand R :=
  rng_uniform lo hi.

(** [np.random.choice(xs, p=p)]; [d] stands for an index out of range. *)
Definition np_random_choice {A : Type} (xs : list A) (d : A)
  (p : list R) : Rand A :=
  fun s => let (i, s') := rng_choice p s in (nth i xs d, s').

(** The world a call runs in. *)
Record World : Type := {
  np_random : rng_state;
  clock : string
}.

Definition IO (A : Type) : Type := State World A.

(** Run a computation on the global generator. *)
Definition on_np_random {A : Type} (m : Rand A) : IO A :=
  fun w => let (a, s') := m (np_random w) in
           (a, {| np_random := s'; clock := clock w |}).

(** [datetime.now().isoformat()]. *)
Definition datetime_now_isoformat : IO string :=
  fun w => (clock w, w).
End Random.

(** ** Exceptions *)

(** The Python exceptions the modelled code can raise. *)
Inductive PyError : Type :=
| ZeroDivisionError
| UnboundLocalError (name : string).

Definition Exc (A : Type) : Type := (PyError + A)%type.

Definition raise {A : Type} (e : PyError) : Exc A := inl e.

Definition ebind {A B : Type} (m : Exc A) (k : A -> Exc B) : Exc B :=
  match m with
  | inl e => inl e
  | inr a => k a
  end.

(** Apply [f] to the value of a call that returned. *)
Definition exc_map {A B : Type} (f : A -> B) (m : Exc A) : Exc B :=
  match m with
  | inl e => inl e
  | inr a => inr (f a)
  end.

(** Reading a local variable that may not have been assigned yet. *)
Definition read_local (name : string) (v : option R) : Exc R :=
  match v with
  | Some x => inr x
  | None => raise (UnboundLocalError name)
  end.

(** [for _ in range(n): locals = body(locals)], stopping at the first
    exception. *)
Fixpoint repeat_exc {L : Type} (n : nat) (body : L -> Exc L) (l : L)
  : Exc L :=
  match n with
  | O => inr l
  | S k => ebind (body l) (repeat_exc k body)
  end.

(** ** Project configuration *)

Module Location.
Record t : Type := {
  city : string;
  center_lat : Q;
  center_lng : Q;
  area_km2 : Q;
  elevation_avg : Q
}.
End Location.

Record Config : Type := { location : Location.t }.

(** The configuration the [__main__] blocks of the three modules use. *)
Definition test_config : Config := {|
  location := {|
    Location.city := "Suwałki";
    Location.center_lat := 54.10;
    Location.center_lng := 22.95;
    Location.area_km2 := 5.0;
    Location.elevation_avg := 163.0 |} |}.

(** ** FloodSim: [src/modules/floodsim_module.py] *)

Module FloodSim.
Local Open Scope Q_scope.

(** The attributes [__init__] sets on a [FloodSimulator]. *)
Record FloodSimulator : Type := {
  config : Config;
  area_km2 : Q;
  base_elevation : Q;
  urban_coverage : Q;
  drainage_capacity : Q;
  infiltration_rate : Q;
  runoff_coefficient : Q;
  manning_n : Q;
  min_flow_depth : Q;
  max_flow_velocity : Q
}.

Definition init (cfg : Config) : FloodSimulator := {|
  config := cfg;
  area_km2 := Location.area_km2 (location cfg);
  base_elevation := Location.elevation_avg (location cfg);
  urban_coverage := 0.25;
  drainage_capacity := 40;
  infiltration_rate := 8;
  runoff_coefficient := 0.75;
  manning_n := 0.035;
  min_flow_depth := 0.01;
  max_flow_velocity := 5.0
|}.

(** Returns (effective rainfall, excess rainfall, total excess in mm). *)
Definition calculate_effective_rainfall (self : FloodSimulator)
  (rainfall_mm_h duration_h : Q) : Q * Q * Q :=
  let effective_rainfall :=
    PyQ.max 0 (rainfall_mm_h - infiltration_rate self) in
  let excess_rainfall :=
    PyQ.max 0 (effective_rainfall - drainage_capacity self) in
  let total_excess_mm :=
    excess_rainfall * duration_h * runoff_coefficient self in
  (effective_rainfall, excess_rainfall, total_excess_mm).

(** Returns (maximum depth, flooded share of the area in percent). *)
Definition calculate_flood_depths (self : FloodSimulator)
  (total_excess_mm : Q) : Q * Q :=
  if PyQ.leb total_excess_mm 0 then (0, 0)
  else
    let depth_factor := 0.8 in
    let max_depth := PyQ.min (total_excess_mm / 100 * depth_factor) 3.0 in
    let area_factor := 1.2 in
    let flooded_area_pct := PyQ.min 100 (total_excess_mm * area_factor) in
    (max_depth, flooded_area_pct).

(** The quantities of a scenario, read off the tuples the two functions
    above return. *)
Definition effective_rainfall (self : FloodSimulator) (r d : Q) : Q :=
  fst (fst (calculate_effective_rainfall self r d)).

Definition excess_rainfall (self : FloodSimulator) (r d : Q) : Q :=
  snd (fst (calculate_effective_rainfall self r d)).

Definition total_excess (self : FloodSimulator) (r d : Q) : Q :=
  snd (calculate_effective_rainfall self r d).

Definition max_depth (self : FloodSimulator) (r d : Q) : Q :=
  fst (calculate_flood_depths self (total_excess self r d)).

Definition flooded_area_pct (self : FloodSimulator) (r d : Q) : Q :=
  snd (calculate_flood_depths self (total_excess self r d)).

(** The five ordered risk bands ([risk_levels] of the source). *)
Inductive RiskLevel : Type :=
  MINIMALNE | NISKIE | UMIARKOWANE | WYSOKIE | KRYTYCZNE.

Definition risk_levels : list RiskLevel :=
  [MINIMALNE; NISKIE; UMIARKOWANE; WYSOKIE; KRYTYCZNE].

Definition assess_flood_risk (self : FloodSimulator) (max_depth : Q)
  : RiskLevel :=
  if PyQ.ltb max_depth 0.05 then MINIMALNE
  else if PyQ.ltb max_depth 0.15 then NISKIE
  else if PyQ.ltb max_depth 0.40 then UMIARKOWANE
  else if PyQ.ltb max_depth 0.80 then WYSOKIE
  else KRYTYCZNE.

(** [risk_levels.index(level)]. *)
Definition risk_index (level : RiskLevel) : Z :=
  match level with
  | MINIMALNE => 0 | NISKIE => 1 | UMIARKOWANE => 2
  | WYSOKIE => 3 | KRYTYCZNE => 4
  end%Z.

Record BuildingImpact : Type := {
  total : Z;
  at_risk : Z;
  affected_population : Z
}.

Definition calculate_building_impact (self : FloodSimulator)
  (flooded_area_km2 : Q) : BuildingImpact :=
  let buildings_per_km2 := 350 in
  let occupancy_rate := 0.6 in
  let residents_per_building := 3%Z in
  let total_buildings :=
    PyQ.int (area_km2 self * buildings_per_km2 * urban_coverage self) in
  let buildings_at_risk :=
    Z.min
      (PyQ.int (flooded_area_km2 * buildings_per_km2 * occupancy_rate))
      total_buildings in
  let affected := (buildings_at_risk * residents_per_building)%Z in
  {| total := total_buildings;
     at_risk := buildings_at_risk;
     affected_population := affected |}.

Definition calculate_economic_damage (self : FloodSimulator)
  (buildings_at_risk : Z) (total_volume_m3 : Q) : Z :=
  let damage_per_building := 50000 in
  let infrastructure_damage_rate := 10 in
  let total_damage :=
    inject_Z buildings_at_risk * damage_per_building
    + total_volume_m3 * infrastructure_damage_rate in
  PyQ.int total_damage.

(** One generated flood point. *)
Record FloodZone : Type := {
  lat : R;
  lng : R;
  depth_m : R;
  elevation_m : R;
  flow_velocity : R;
  zone_id : Z;
  surface_type : string
}.

Record Parameters : Type := {
  rainfall_mm_h : Q;
  duration_h : Q;
  total_rainfall_mm : Q;
  effective_rainfall_mm : Q;
  excess_rainfall_mm : Q;
  p_runoff_coefficient : Q
}.

Record HydraulicConditions : Type := {
  drainage_capacity_mm_h : Q;
  infiltration_rate_mm_h : Q;
  manning_roughness : Q;
  urban_coverage_percent : Q
}.

Record Metrics : Type := {
  max_depth_m : Q;
  mean_depth_m : Q;
  flooded_area_km2 : Q;
  flooded_area_percent : Q;
  total_volume_m3 : Q;
  peak_flow_velocity_ms : R;
  risk_level : RiskLevel;
  risk_score : Z
}.

Record ImpactAssessment : Type := {
  buildings_total : Z;
  buildings_at_risk : Z;
  ia_affected_population : Z;
  economic_damage_pln : Z;
  economic_damage_eur : Q;
  evacuation_needed : bool
}.

Record Visualization : Type := {
  v_center_lat : Q;
  v_center_lng : Q;
  zoom_level : Z;
  color_scale : string;
  max_marker_size : Z
}.

(** The result dictionary; the two optional keys are present when
    [detailed_output] is set. *)
Record Result : Type := {
  scenario_name : string;
  module : string;
  model_version : string;
  computation_time : string;
  parameters : Parameters;
  hydraulic_conditions : HydraulicConditions;
  metrics : Metrics;
  impact_assessment : ImpactAssessment;
  flood_zones : option (list FloodZone);
  visualization : option Visualization
}.

Definition set_computation_time (t : string) (r : Result) : Result := {|
  scenario_name := scenario_name r;
  module := module r;
  model_version := model_version r;
  computation_time := t;
  parameters := parameters r;
  hydraulic_conditions := hydraulic_conditions r;
  metrics := metrics r;
  impact_assessment := impact_assessment r;
  flood_zones := flood_zones r;
  visualization := visualization r
|}.

Section WithRuntime.
Context {rt : Runtime}.
Local Open Scope state_scope.

(** The body of the loop of [generate_flood_zones] for index [i]. *)
Definition flood_zone_at (self : FloodSimulator) (max_depth : Q)
  (i : Z) : Rand FloodZone :=
  let center_lat := Location.center_lat (location (config self)) in
  let center_lng := Location.center_lng (location (config self)) in
  dlat <- np_random_normal 0 0.008 ;;
  let lat := (Q2R center_lat + dlat)%R in
  dlng <- np_random_normal 0 0.012 ;;
  let lng := (Q2R center_lng + dlng)%R in
  depth <-
    (if PyQ.ltb 0 max_depth then
       e <- np_random_exponential (Q2R max_depth * 0.6)%R ;;
       let depth := PyR.max 0.02 e in
       ret (PyR.min depth (Q2R max_depth))
     else ret 0.02%R) ;;
  let flow_velocity :=
    if PyR.ltb 0 depth
    then PyR.min (sqrt depth * 1.5)%R (Q2R (max_flow_velocity self))
    else 0%R in
  delev <- np_random_normal 0 2 ;;
  let elevation := (Q2R (base_elevation self) + delev)%R in
  surface <-
    np_random_choice ["road"; "sidewalk"; "green"; "plaza"]%string
      "road"%string [0.4; 0.25; 0.2; 0.15]%R ;;
  ret {| lat := PyR.round lat 6;
         lng := PyR.round lng 6;
         depth_m := PyR.round depth 3;
         elevation_m := PyR.round elevation 1;
         flow_velocity := PyR.round flow_velocity 2;
         zone_id := (i + 1)%Z;
         surface_type := surface |}.

Definition generate_flood_zones (self : FloodSimulator)
  (scenario_name : string) (max_depth flooded_area_pct : Q)
  : Rand (list FloodZone) :=
  let seed_value := (Z.abs (hash scenario_name) mod 2 ^ 31)%Z in
  np_random_seed seed_value ;;;
  let num_zones :=
    Z.max 5 (Z.min 50 (PyQ.int (flooded_area_pct * 0.8))) in
  for_range (Z.to_nat num_zones) 0 (flood_zone_at self max_depth).

Definition simulate_scenario (self : FloodSimulator)
  (rainfall_mm_h duration_h : Q) (scenario_name : string)
  (detailed_output : bool) : IO Result :=
  let '(effective_rainfall, excess_rainfall, total_excess_mm) :=
    calculate_effective_rainfall self rainfall_mm_h duration_h in
  let '(max_depth, flooded_area_pct) :=
    calculate_flood_depths self total_excess_mm in
  let flooded_area_km2 := (flooded_area_pct / 100) * area_km2 self in
  let risk_level := assess_flood_risk self max_depth in
  let building_impact :=
    calculate_building_impact self flooded_area_km2 in
  let total_volume_m3 :=
    flooded_area_km2 * 1000000 * (max_depth * 0.4) in
  let economic_damage :=
    calculate_economic_damage self (at_risk building_impact)
      total_volume_m3 in
  flood_zones <-
    (if detailed_output
     then on_np_random
            (generate_flood_zones self scenario_name max_depth
               flooded_area_pct)
     else ret []) ;;
  now <- datetime_now_isoformat ;;
  ret {|
    scenario_name := scenario_name;
    module := "FloodSim";
    model_version := "FloodSim_v2.1_Suwalki";
    computation_time := now;
    parameters := {|
      rainfall_mm_h := rainfall_mm_h;
      duration_h := duration_h;
      total_rainfall_mm := rainfall_mm_h * duration_h;
      effective_rainfall_mm := effective_rainfall * duration_h;
      excess_rainfall_mm := excess_rainfall * duration_h;
      p_runoff_coefficient := runoff_coefficient self |};
    hydraulic_conditions := {|
      drainage_capacity_mm_h := drainage_capacity self;
      infiltration_rate_mm_h := infiltration_rate self;
      manning_roughness := manning_n self;
      urban_coverage_percent := urban_coverage self * 100 |};
    metrics := {|
      max_depth_m := PyQ.round max_depth 3;
      mean_depth_m := PyQ.round (max_depth * 0.4) 3;
      flooded_area_km2 := PyQ.round flooded_area_km2 4;
      flooded_area_percent := PyQ.round flooded_area_pct 1;
      total_volume_m3 := PyQ.round total_volume_m3 0;
      peak_flow_velocity_ms :=
        PyR.round
          (if PyQ.ltb 0 max_depth
           then (sqrt (Q2R max_depth) * 1.5)%R else 0%R) 2;
      risk_level := risk_level;
      risk_score := (risk_index risk_level + 1)%Z |};
    impact_assessment := {|
      buildings_total := total building_impact;
      buildings_at_risk := at_risk building_impact;
      ia_affected_population := affected_population building_impact;
      economic_damage_pln := economic_damage;
      economic_damage_eur :=
        PyQ.round (inject_Z economic_damage / 4.5) 0;
      evacuation_needed := PyQ.ltb 0.5 max_depth |};
    flood_zones :=
      if detailed_output then Some flood_zones else None;
    visualization :=
      if detailed_output then
        Some {|
          v_center_lat := Location.center_lat (location (config self));
          v_center_lng := Location.center_lng (location (config self));
          zoom_level := 14;
          color_scale := "Blues";
          max_marker_size := 20 |}
      else None
  |}.
End WithRuntime.
End FloodSim.

(** ** WindSim: [src/modules/windsim_module.py] *)

Module WindSim.
Local Open Scope R_scope.

(** The attributes [__init__] sets on a [WindSimulator]. *)
Record WindSimulator : Type := {
  config : Config;
  area_km2 : R;
  center_lat : R;
  center_lng : R;
  building_density : R;
  average_building_height : R;
  surface_roughness : R;
  air_density : R;
  reference_height : R;
  pedestrian_height : R;
  von_karman_constant : R;
  tunnel_amplification : R;
  wake_reduction : R;
  green_area_reduction : R
}.

Definition init (cfg : Config) : WindSimulator := {|
  config := cfg;
  area_km2 := Q2R (Location.area_km2 (location cfg));
  center_lat := Q2R (Location.center_lat (location cfg));
  center_lng := Q2R (Location.center_lng (location cfg));
  building_density := 0.25;
  average_building_height := 18;
  surface_roughness := 0.3;
  air_density := 1.225;
  reference_height := 10.0;
  pedestrian_height := 1.5;
  von_karman_constant := 0.41;
  tunnel_amplification := 0.8;
  wake_reduction := 0.3;
  green_area_reduction := 0.4
|}.

(** The logarithmic profile; [None] for [z_ref] or [z0] takes the
    simulator's reference height or roughness length.  Every call in
    the source leaves both at [None], and the statements below are
    about those calls: for [z0 = 0] Python raises ZeroDivisionError,
    which this total function does not show. *)
Definition calculate_wind_profile (self : WindSimulator)
  (height u_ref : R) (z_ref z0 : option R) : R :=
  let z_ref :=
    match z_ref with None => reference_height self | Some z => z end in
  let z0 :=
    match z0 with None => surface_roughness self | Some z => z end in
  let height := if PyR.leb height z0 then z0 + 0.1 else height in
  let wind_speed :=
    u_ref * ln ((height + z0) / z0) / ln ((z_ref + z0) / z0) in
  PyR.max 0 wind_speed.

(** [min(abs(direction - d) for d in dirs)] over a non-empty list. *)
Definition min_angle (direction : R) (dirs : list R) : R :=
  match map (fun street_dir => Rabs (direction - street_dir)) dirs with
  | [] => 0
  | d :: ds => fold_left PyR.min ds d
  end.

Definition _calculate_directional_factor (self : WindSimulator)
  (direction : R) : R :=
  let main_street_directions := [0; 90; 180; 270] in
  let min_angle_diff := min_angle direction main_street_directions in
  if PyR.leb min_angle_diff 15 then 1.15
  else if PyR.leb min_angle_diff 30 then 1.05
  else 0.9.

(** The rule in the specification's words, for comparison: [d] lies
    within [tol] degrees of a street axis, directions read modulo 360,
    so that the axes are the multiples of 90. *)
Definition near_axis (d tol : R) : Prop :=
  exists k : Z, Rabs (d - 90 * IZR k) <= tol.

Record UrbanEffects : Type := {
  max_tunnel_speed : R;
  min_wake_speed : R;
  avg_urban_speed : R;
  pedestrian_speed : R;
  directional_factor : R;
  tunnel_factor : R;
  wake_reduction_pct : R
}.

Definition calculate_urban_effects (self : WindSimulator)
  (wind_speed_ref direction : R) : UrbanEffects :=
  let tunnel_factor :=
    1.0 + building_density self * tunnel_amplification self in
  let max_tunnel_speed := wind_speed_ref * tunnel_factor in
  let min_wake_speed := wind_speed_ref * (1 - wake_reduction self) in
  let urban_reduction_factor := 1 - building_density self * 0.4 in
  let avg_urban_speed := wind_speed_ref * urban_reduction_factor in
  let pedestrian_speed :=
    calculate_wind_profile self (pedestrian_height self) wind_speed_ref
      None None in
  let directional_factor :=
    _calculate_directional_factor self direction in
  {| max_tunnel_speed := max_tunnel_speed * directional_factor;
     min_wake_speed := min_wake_speed * directional_factor;
     avg_urban_speed := avg_urban_speed * directional_factor;
     pedestrian_speed := pedestrian_speed * directional_factor;
     directional_factor := directional_factor;
     tunnel_factor := tunnel_factor;
     wake_reduction_pct := wake_reduction self * 100 |}.

Definition assess_pedestrian_comfort (self : WindSimulator)
  (wind_speed : R) : string * Z * string :=
  if PyR.ltb wind_speed 4 then
    ("KOMFORTOWO", 1%Z,
     "Warunki idealne do przebywania na zewnątrz")%string
  else if PyR.ltb wind_speed 6 then
    ("AKCEPTOWALNE", 2%Z,
     "Odpowiednie do spacerów i krótkiego przebywania")%string
  else if PyR.ltb wind_speed 8 then
    ("NIEWŁAŚCIWE", 3%Z,
     "Tylko do szybkiego przejścia, dyskomfort")%string
  else if PyR.ltb wind_speed 12 then
    ("NIEBEZPIECZNE", 4%Z,
     "Trudności w chodzeniu, ryzyko upadku")%string
  else
    ("EKSTREMALNIE NIEBEZPIECZNE", 5%Z,
     "Niemożliwe przebywanie na zewnątrz")%string.

Record WindPressures : Type := {
  dynamic_pressure_pa : R;
  windward_pressure_pa : R;
  leeward_pressure_pa : R;
  side_pressure_pa : R;
  roof_windward_pa : R;
  roof_leeward_pa : R;
  pressure_difference_pa : R
}.

Definition calculate_wind_pressure (self : WindSimulator)
  (wind_speed : R) : WindPressures :=
  let dynamic_pressure := 0.5 * air_density self * wind_speed ^ 2 in
  let cp_windward := 0.8 in
  let cp_leeward := -0.5 in
  let cp_side := -0.7 in
  let cp_roof_windward := -0.3 in
  let cp_roof_leeward := -0.6 in
  {| dynamic_pressure_pa := dynamic_pressure;
     windward_pressure_pa := dynamic_pressure * cp_windward;
     leeward_pressure_pa := dynamic_pressure * cp_leeward;
     side_pressure_pa := dynamic_pressure * cp_side;
     roof_windward_pa := dynamic_pressure * cp_roof_windward;
     roof_leeward_pa := dynamic_pressure * cp_roof_leeward;
     pressure_difference_pa :=
       dynamic_pressure * (cp_windward - cp_leeward) |}.

(** One generated wind-field point. *)
Record WindPoint : Type := {
  lat : R;
  lng : R;
  speed : R;
  direction : R;
  vx : R;
  vy : R;
  height_agl : R;
  turbulence_intensity : R;
  environment_type : string;
  gust_factor : R
}.

Record ComfortZones : Type := {
  komfortowo : Z;
  akceptowalne : Z;
  niewlasciwe : Z;
  niebezpieczne : Z
}.

Definition calculate_comfort_zones_distribution (self : WindSimulator)
  (urban_effects : UrbanEffects) : ComfortZones :=
  let avg_speed := avg_urban_speed urban_effects in
  (if PyR.ltb avg_speed 3 then
     {| komfortowo := 90; akceptowalne := 8;
        niewlasciwe := 2; niebezpieczne := 0 |}
   else if PyR.ltb avg_speed 5 then
     {| komfortowo := 70; akceptowalne := 20;
        niewlasciwe := 8; niebezpieczne := 2 |}
   else if PyR.ltb avg_speed 8 then
     {| komfortowo := 40; akceptowalne := 35;
        niewlasciwe := 20; niebezpieczne := 5 |}
   else if PyR.ltb avg_speed 12 then
     {| komfortowo := 15; akceptowalne := 25;
        niewlasciwe := 40; niebezpieczne := 20 |}
   else
     {| komfortowo := 5; akceptowalne := 10;
        niewlasciwe := 30; niebezpieczne := 55 |})%Z.

Record Parameters : Type := {
  wind_speed_ref : R;
  wind_direction : R;
  p_reference_height : R;
  p_surface_roughness : R;
  p_air_density : R
}.

Record UrbanCharacteristics : Type := {
  building_density_percent : R;
  uc_average_building_height : R;
  uc_tunnel_amplification : R;
  uc_wake_reduction : R;
  uc_directional_factor : R
}.

Record WindFieldAnalysis : Type := {
  max_speed : R;
  min_speed : R;
  wfa_avg_urban_speed : R;
  wfa_pedestrian_speed : R;
  speed_variation_factor : R
}.

Record ComfortAssessment : Type := {
  pedestrian_comfort_level : string;
  comfort_score : Z;
  comfort_description : string;
  comfort_zones_percent : Z;
  comfort_distribution : ComfortZones
}.

Record StructuralLoads : Type := {
  sl_dynamic_pressure_pa : R;
  sl_windward_pressure_pa : R;
  sl_leeward_pressure_pa : R;
  sl_pressure_difference_pa : R;
  design_wind_load_knm2 : R
}.

Record Visualization : Type := {
  v_center_lat : R;
  v_center_lng : R;
  zoom_level : Z;
  vector_scale : Z;
  color_scale : string;
  particle_count : Z
}.

Record Result : Type := {
  scenario_name : string;
  module : string;
  model_version : string;
  computation_time : string;
  parameters : Parameters;
  urban_characteristics : UrbanCharacteristics;
  wind_field_analysis : WindFieldAnalysis;
  comfort_assessment : ComfortAssessment;
  structural_loads : StructuralLoads;
  wind_field : option (list WindPoint);
  visualization : option Visualization
}.

Definition set_computation_time (t : string) (r : Result) : Result := {|
  scenario_name := scenario_name r;
  module := module r;
  model_version := model_version r;
  computation_time := t;
  parameters := parameters r;
  urban_characteristics := urban_characteristics r;
  wind_field_analysis := wind_field_analysis r;
  comfort_assessment := comfort_assessment r;
  structural_loads := structural_loads r;
  wind_field := wind_field r;
  visualization := visualization r
|}.

Definition set_scenario_name (n : string) (r : Result) : Result := {|
  scenario_name := n;
  module := module r;
  model_version := model_version r;
  computation_time := computation_time r;
  parameters := parameters r;
  urban_characteristics := urban_characteristics r;
  wind_field_analysis := wind_field_analysis r;
  comfort_assessment := comfort_assessment r;
  structural_loads := structural_loads r;
  wind_field := wind_field r;
  visualization := visualization r
|}.

Section WithRuntime.
Context {rt : Runtime}.
Local Open Scope state_scope.

(** The body of the loop of [generate_wind_field]. *)
Definition wind_point_at (self : WindSimulator) (direction : R)
  (urban_effects : UrbanEffects) (i : Z) : Rand WindPoint :=
  dlat <- np_random_normal 0 0.008 ;;
  let lat := center_lat self + dlat in
  dlng <- np_random_normal 0 0.012 ;;
  let lng := center_lng self + dlng in
  spatial_variation <- np_random_uniform 0.6 1.4 ;;
  environment_type <-
    np_random_choice
      ["open"; "tunnel"; "wake"; "green"; "intersection"]%string
      "open"%string [0.3; 0.2; 0.2; 0.15; 0.15] ;;
  let '(local_speed, turbulence) :=
    if String.eqb environment_type "tunnel" then
      (max_tunnel_speed urban_effects * spatial_variation, 0.25)
    else if String.eqb environment_type "wake" then
      (min_wake_speed urban_effects * spatial_variation, 0.15)
    else if String.eqb environment_type "green" then
      (avg_urban_speed urban_effects
       * (1 - green_area_reduction self) * spatial_variation, 0.1)
    else if String.eqb environment_type "intersection" then
      (avg_urban_speed urban_effects * 1.1 * spatial_variation, 0.2)
    else
      (avg_urban_speed urban_effects * spatial_variation, 0.12) in
  deviation <- np_random_normal 0 25 ;;
  let direction_deviation :=
    if (String.eqb environment_type "tunnel"
        || String.eqb environment_type "intersection")%bool
    then deviation * 1.5 else deviation in
  let local_direction :=
    PyR.fmod (direction + direction_deviation) 360 in
  let wind_angle_rad := PyR.radians (270 - local_direction) in
  let vx := local_speed * cos wind_angle_rad in
  let vy := local_speed * sin wind_angle_rad in
  height_agl <- np_random_uniform 1.0 20.0 ;;
  ret {| lat := PyR.round lat 6;
         lng := PyR.round lng 6;
         speed := PyR.round local_speed 2;
         direction := PyR.round local_direction 1;
         vx := PyR.round vx 2;
         vy := PyR.round vy 2;
         height_agl := PyR.round height_agl 1;
         turbulence_intensity := PyR.round turbulence 3;
         environment_type := environment_type;
         gust_factor := PyR.round (1 + turbulence * 0.5) 2 |}.

Definition generate_wind_field (self : WindSimulator)
  (scenario_name : string) (wind_speed_ref direction : R)
  (urban_effects : UrbanEffects) : Rand (list WindPoint) :=
  let seed_value :=
    (Z.abs (PyR.int direction + PyR.int (wind_speed_ref * 10))
     mod 2 ^ 31)%Z in
  np_random_seed seed_value ;;;
  let num_points :=
    Z.min 100 (Z.max 20 (PyR.int (wind_speed_ref * 5))) in
  for_range (Z.to_nat num_points) 0
    (wind_point_at self direction urban_effects).

(** The call raises [ZeroDivisionError] while it builds the result,
    after the field has been generated, when the wake speed is zero. *)
Definition simulate_scenario (self : WindSimulator)
  (wind_speed_ref direction : R) (scenario_name : string)
  (detailed_output : bool) : IO (PyError + Result) :=
  let urban_effects :=
    calculate_urban_effects self wind_speed_ref direction in
  let '(pedestrian_comfort, comfort_score, comfort_description) :=
    assess_pedestrian_comfort self (pedestrian_speed urban_effects) in
  let wind_pressures := calculate_wind_pressure self wind_speed_ref in
  let comfort_zones :=
    calculate_comfort_zones_distribution self urban_effects in
  let comfort_zones_percent :=
    (komfortowo comfort_zones + akceptowalne comfort_zones)%Z in
  wind_field <-
    (if detailed_output
     then on_np_random
            (generate_wind_field self scenario_name wind_speed_ref
               direction urban_effects)
     else ret []) ;;
  now <- datetime_now_isoformat ;;
  if Req_dec_T (min_wake_speed urban_effects) 0
  then ret (inl ZeroDivisionError)
  else ret (inr {|
    scenario_name := scenario_name;
    module := "WindSim";
    model_version := "WindSim_v1.9_CFD";
    computation_time := now;
    parameters := {|
      wind_speed_ref := wind_speed_ref;
      wind_direction := direction;
      p_reference_height := reference_height self;
      p_surface_roughness := surface_roughness self;
      p_air_density := air_density self |};
    urban_characteristics := {|
      building_density_percent := building_density self * 100;
      uc_average_building_height := average_building_height self;
      uc_tunnel_amplification := tunnel_amplification self;
      uc_wake_reduction := wake_reduction self;
      uc_directional_factor := directional_factor urban_effects |};
    wind_field_analysis := {|
      max_speed := PyR.round (max_tunnel_speed urban_effects) 2;
      min_speed := PyR.round (min_wake_speed urban_effects) 2;
      wfa_avg_urban_speed :=
        PyR.round (avg_urban_speed urban_effects) 2;
      wfa_pedestrian_speed :=
        PyR.round (pedestrian_speed urban_effects) 2;
      speed_variation_factor :=
        PyR.round
          (max_tunnel_speed urban_effects
           / min_wake_speed urban_effects) 2 |};
    comfort_assessment := {|
      pedestrian_comfort_level := pedestrian_comfort;
      comfort_score := comfort_score;
      comfort_description := comfort_description;
      comfort_zones_percent := comfort_zones_percent;
      comfort_distribution := comfort_zones |};
    structural_loads := {|
      sl_dynamic_pressure_pa :=
        PyR.round (dynamic_pressure_pa wind_pressures) 0;
      sl_windward_pressure_pa :=
        PyR.round (windward_pressure_pa wind_pressures) 0;
      sl_leeward_pressure_pa :=
        PyR.round (leeward_pressure_pa wind_pressures) 0;
      sl_pressure_difference_pa :=
        PyR.round (pressure_difference_pa wind_pressures) 0;
      design_wind_load_knm2 :=
        PyR.round (dynamic_pressure_pa wind_pressures / 1000) 2 |};
    wind_field :=
      if detailed_output then Some wind_field else None;
    visualization :=
      if detailed_output then
        Some {|
          v_center_lat := center_lat self;
          v_center_lng := center_lng self;
          zoom_level := 14;
          vector_scale := 10;
          color_scale := "Viridis";
          particle_count := Z.of_nat (List.length wind_field) |}
      else None
  |}).
End WithRuntime.
End WindSim.

(** ** ThermalSim: [src/modules/thermalsim_module.py] *)

Module ThermalSim.
Local Open Scope R_scope.

(** The attributes [__init__] sets on a [ThermalComfortSimulator]. *)
Record ThermalComfortSimulator : Type := {
  config : Config;
  center_lat : R;
  center_lng : R;
  area_km2 : R;
  human_body_surface_area : R;
  skin_emissivity : R;
  evaporation_heat : R;
  stefan_boltzmann : R;
  air_specific_heat : R;
  air_density_stp : R;
  urban_heat_island_max : R;
  green_cooling_effect : R;
  water_cooling_effect : R
}.

Definition init (cfg : Config) : ThermalComfortSimulator := {|
  config := cfg;
  center_lat := Q2R (Location.center_lat (location cfg));
  center_lng := Q2R (Location.center_lng (location cfg));
  area_km2 := Q2R (Location.area_km2 (location cfg));
  human_body_surface_area := 1.8;
  skin_emissivity := 0.97;
  evaporation_heat := 2430000;
  stefan_boltzmann := 5.67e-8;
  air_specific_heat := 1005;
  air_density_stp := 1.225;
  urban_heat_island_max := 4.0;
  green_cooling_effect := -2.5;
  water_cooling_effect := -1.5
|}.

(** The locals the clothing-temperature loop of
    [calculate_pmv_detailed] reads and writes.  [tcl_k] and [hc] have
    no value before their first assignment. *)
Record PmvLocals : Type := {
  tcl : R;
  tcl_k : option R;
  hc : option R
}.

(** One pass of the loop body, statement by statement. *)
Definition pmv_iteration (self : ThermalComfortSimulator)
  (ta ta_k tr_k va M W Icl fcl : R) (l : PmvLocals) : Exc PmvLocals :=
  let hc :=
    if PyR.ltb va 0.1
    then 2.38 * PyR.pow (Rabs (tcl l - ta)) 0.25
    else 12.1 * sqrt va in
  let hc := PyR.max hc (12.1 * sqrt va) in
  ebind (read_local "tcl_k" (tcl_k l)) (fun tcl_k_read =>
  let hr :=
    4 * stefan_boltzmann self * fcl * ((tcl_k_read + tr_k) / 2) ^ 3 in
  let tcl_k := tcl l + 273.15 in
  let tcl_new :=
    (Icl * fcl * (M - W) + fcl * hr * tr_k + fcl * hc * ta + ta_k)
    / (1 + Icl * fcl * (hr + hc)) in
  inr {| tcl := tcl_new - 273.15;
         tcl_k := Some tcl_k;
         hc := Some hc |}).

Definition calculate_pmv_detailed (self : ThermalComfortSimulator)
  (ta tr va rh met clo : R) (pa : option R) : Exc R :=
  let ta_k := ta + 273.15 in
  let tr_k := tr + 273.15 in
  ebind
    (match pa with
     | Some pa => inr pa
     | None =>
         if Req_dec_T (ta + 237.3) 0 then raise ZeroDivisionError
         else
           let es := 610.78 * exp (17.27 * ta / (ta + 237.3)) in
           inr (rh / 100 * es)
     end) (fun pa =>
  let M := met * 58.15 in
  let W := 0 in
  let Icl := clo * 0.155 in
  let fcl :=
    if PyR.leb Icl 0.078 then 1.0 + 1.290 * Icl
    else 1.05 + 0.645 * Icl in
  ebind
    (repeat_exc 10 (pmv_iteration self ta ta_k tr_k va M W Icl fcl)
       {| tcl := ta; tcl_k := None; hc := None |}) (fun l =>
  let tcl := tcl l in
  let tcl_k := tcl + 273.15 in
  let HL1 := 3.05 * 0.001 * (5733 - 6.99 * (M - W) - pa) in
  let HL2 :=
    if PyR.ltb 58.15 (M - W) then 0.42 * ((M - W) - 58.15) else 0 in
  let HL3 := 1.7 * 0.00001 * M * (5867 - pa) in
  let HL4 := 0.0014 * M * (34 - ta) in
  let HL5 := 3.96 * fcl * (tcl_k ^ 4 - tr_k ^ 4) in
  ebind (read_local "hc" (hc l)) (fun hc =>
  let HL6 := fcl * hc * (tcl - ta) in
  let thermal_load := M - W - HL1 - HL2 - HL3 - HL4 - HL5 - HL6 in
  let pmv := (0.303 * exp (-0.036 * M) + 0.028) * thermal_load in
  inr (PyR.max (-3.0) (PyR.min 3.0 pmv))))).

Definition calculate_pmv_simple (self : ThermalComfortSimulator)
  (ta tr va rh met clo : R) : R :=
  let t_eff := ta + 0.3 * (tr - ta) - 2.0 * sqrt va in
  let humidity_factor := 1 + 0.01 * (rh - 50) in
  let met_factor := 1 + 0.5 * (met - 1.2) in
  let clo_factor := 1 - 0.3 * (clo - 0.7) in
  let pmv :=
    (t_eff - 22) / 8 * humidity_factor * met_factor * clo_factor in
  PyR.max (-3.0) (PyR.min 3.0 pmv).

Definition calculate_ppd_from_pmv (self : ThermalComfortSimulator)
  (pmv : R) : R :=
  let ppd := 100 - 95 * exp (-0.03353 * pmv ^ 4 - 0.2179 * pmv ^ 2) in
  PyR.max 5.0 (PyR.min 100.0 ppd).

Definition calculate_utci_simple (self : ThermalComfortSimulator)
  (ta tr va rh : R) : R :=
  let utci := ta in
  let utci := utci + 0.4 * (tr - ta) in
  let utci :=
    if PyR.ltb 0.5 va then utci + -2.0 * sqrt va else utci in
  let humidity_effect :=
    if PyR.ltb 20 ta then 0.01 * (rh - 50) else -0.005 * (rh - 50) in
  utci + humidity_effect.

Definition calculate_pet_simple (self : ThermalComfortSimulator)
  (ta tr va rh met clo : R) : R :=
  let pmv := calculate_pmv_simple self ta tr va rh met clo in
  18 + 7 * pmv.

(** [d.get(key, default)] on a dictionary kept as an association list. *)
Fixpoint dict_get {V : Type} (d : list (string * V)) (key : string)
  (default : V) : V :=
  match d with
  | [] => default
  | (k, v) :: rest =>
      if String.eqb k key then v else dict_get rest key default
  end.

(** [key in xs] for a list of strings. *)
Definition str_in (key : string) (xs : list string) : bool :=
  existsb (String.eqb key) xs.

Definition estimate_mean_radiant_temperature
  (self : ThermalComfortSimulator) (ta solar_rad : R)
  (surface_type : string) : R :=
  let tmrt := ta in
  let absorption_factors :=
    [("urban", 0.06); ("grass", 0.02); ("water", 0.01);
     ("asphalt", 0.08); ("roof", 0.07); ("concrete", 0.065)]%string in
  let solar_factor := dict_get absorption_factors surface_type 0.05 in
  let radiation_increase := solar_rad * solar_factor / 100 in
  let tmrt := tmrt + radiation_increase in
  if str_in surface_type ["urban"; "asphalt"; "concrete"]%string then
    let uhi_radiation := PyR.min 2.0 (solar_rad / 400) in
    tmrt + uhi_radiation
  else tmrt.

(** One entry of the zone table. *)
Record Zone : Type := {
  name : string;
  description : string;
  surface_type : string;
  temp_offset : R;
  wind_reduction : R;
  humidity_offset : R;
  area_percent : Z;
  characteristics : list string
}.

Definition define_urban_zones (self : ThermalComfortSimulator)
  : list (string * Zone) :=
  [("rynek_main",
    {| name := "Rynek Główny";
       description := "Główny plac miejski z fontanną";
       surface_type := "urban";
       temp_offset := 3.0;
       wind_reduction := 0.7;
       humidity_offset := -5;
       area_percent := 8;
       characteristics := ["fontanna"; "plac_brukowany"; "otwarty"] |});
   ("street_commercial",
    {| name := "Ulice handlowe";
       description := "Główne ulice centrum z intensywnym ruchem";
       surface_type := "asphalt";
       temp_offset := 2.5;
       wind_reduction := 0.5;
       humidity_offset := -3;
       area_percent := 25;
       characteristics :=
         ["kanion_uliczny"; "ruch_samochodowy"; "budynki_wysokie"] |});
   ("parks_green",
    {| name := "Parki i skwery";
       description := "Obszary zieleni miejskiej";
       surface_type := "grass";
       temp_offset := -2.0;
       wind_reduction := 0.9;
       humidity_offset := 8;
       area_percent := 15;
       characteristics :=
         ["zielen_wysoka"; "cien_naturalny"; "ewapotranspiracja"] |});
   ("residential",
    {| name := "Obszary mieszkaniowe";
       description := "Zabudowa mieszkaniowa małej intensywności";
       surface_type := "urban";
       temp_offset := 1.0;
       wind_reduction := 0.8;
       humidity_offset := 0;
       area_percent := 35;
       characteristics :=
         ["zabudowa_niska"; "podworka"; "seminatural"] |});
   ("open_spaces",
    {| name := "Otwarte przestrzenie";
       description := "Parkingi, place, tereny otwarte";
       surface_type := "concrete";
       temp_offset := 2.8;
       wind_reduction := 1.0;
       humidity_offset := -8;
       area_percent := 17;
       characteristics :=
         ["pelna_ekspozycja"; "brak_cienia"; "materialy_sztuczne"] |})
  ]%string.

Record Microclimate : Type := {
  air_temp : R;
  mean_radiant_temp : R;
  wind_speed : R;
  humidity : R;
  m_surface_type : string
}.

Record ComfortIndices : Type := {
  pmv : R;
  ppd : R;
  utci : R;
  pet : R
}.

Record Assessment : Type := {
  comfort_level : string;
  comfort_score : Z;
  recommendation : string;
  thermal_stress : string
}.

(** What [calculate_zone_comfort] returns for one zone. *)
Record ZoneComfort : Type := {
  zone_name : string;
  zc_area_percent : Z;
  microclimate : Microclimate;
  comfort_indices : ComfortIndices;
  assessment : Assessment
}.

(** One generated comfort point. *)
Record ComfortPoint : Type := {
  lat : R;
  lng : R;
  cp_pmv : R;
  cp_ppd : R;
  cp_utci : R;
  cp_pet : R;
  zone_type : string;
  surface_temp : R;
  cp_comfort_score : R;
  microenvironment : string
}.

Definition _classify_thermal_stress (self : ThermalComfortSimulator)
  (ta : R) : string :=
  if PyR.ltb ta (-10) then "extreme_cold"
  else if PyR.ltb ta 0 then "cold"
  else if PyR.ltb ta 18 then "cool"
  else if PyR.ltb ta 26 then "comfortable"
  else if PyR.ltb ta 32 then "warm"
  else if PyR.ltb ta 38 then "hot"
  else "extreme_heat".

Record Parameters : Type := {
  air_temperature : R;
  relative_humidity : R;
  p_wind_speed : R;
  solar_radiation : R;
  clothing_insulation_clo : R;
  metabolic_rate_met : R;
  season : string
}.

Record EnvironmentalConditions : Type := {
  thermal_stress_category : string;
  humidity_comfort : string;
  wind_comfort : string;
  solar_load : string
}.

Record OverallMetrics : Type := {
  city_comfort_score : R;
  comfort_zones_percent : R;
  heat_stress_zones : Z;
  cold_stress_zones : Z;
  uhi_effect_estimated : R
}.

Record Visualization : Type := {
  v_center_lat : R;
  v_center_lng : R;
  zoom_level : Z;
  color_scale : string;
  legend_title : string
}.

Record Result : Type := {
  scenario_name : string;
  module : string;
  model_version : string;
  computation_time : string;
  parameters : Parameters;
  environmental_conditions : EnvironmentalConditions;
  overall_metrics : OverallMetrics;
  zone_analysis : list (string * ZoneComfort);
  comfort_map : option (list ComfortPoint);
  visualization : option Visualization
}.

Definition set_computation_time (t : string) (r : Result) : Result := {|
  scenario_name := scenario_name r;
  module := module r;
  model_version := model_version r;
  computation_time := t;
  parameters := parameters r;
  environmental_conditions := environmental_conditions r;
  overall_metrics := overall_metrics r;
  zone_analysis := zone_analysis r;
  comfort_map := comfort_map r;
  visualization := visualization r
|}.

(** [sum(1 for z in zs if test(z))]. *)
Definition count_if {A : Type} (test : A -> bool) (zs : list A) : Z :=
  Z.of_nat (List.length (filter test zs)).

Section WithRuntime.
Context {rt : Runtime}.
Local Open Scope state_scope.

Definition calculate_zone_comfort (self : ThermalComfortSimulator)
  (zone : Zone) (ta rh va solar_rad met clo : R) : ZoneComfort :=
  let local_temp := ta + temp_offset zone in
  let local_humidity :=
    PyR.max 20 (PyR.min 95 (rh + humidity_offset zone)) in
  let local_wind := va * wind_reduction zone in
  let local_tmrt :=
    estimate_mean_radiant_temperature self local_temp solar_rad
      (surface_type zone) in
  let '(pmv, ppd, utci_value) :=
    match pythermalcomfort with
    | Some lib =>
        let pmv_result :=
          PyThermalComfort.pmv_ppd lib local_temp local_tmrt local_wind local_humidity
            met clo in
        (fst pmv_result, snd pmv_result,
         PyThermalComfort.utci lib local_temp local_tmrt local_wind local_humidity)
    | None =>
        let pmv :=
          calculate_pmv_simple self local_temp local_tmrt local_wind
            local_humidity met clo in
        (pmv, calculate_ppd_from_pmv self pmv,
         calculate_utci_simple self local_temp local_tmrt local_wind
           local_humidity)
    end in
  let pet_value :=
    calculate_pet_simple self local_temp local_tmrt local_wind
      local_humidity met clo in
  let '(comfort_level, comfort_score) :=
    if PyR.ltb (Rabs pmv) 0.5 then ("DOSKONAŁY"%string, 5%Z)
    else if PyR.ltb (Rabs pmv) 1.0 then ("DOBRY"%string, 4%Z)
    else if PyR.ltb (Rabs pmv) 1.5 then ("AKCEPTOWALNY"%string, 3%Z)
    else if PyR.ltb (Rabs pmv) 2.0 then ("SŁABY"%string, 2%Z)
    else ("NIEAKCEPTOWALNY"%string, 1%Z) in
  let recommendation :=
    (if PyR.ltb 2 pmv then
       "Unikać ekspozycji 10:00-18:00, szukać cienia, nawodnienie"
     else if PyR.ltb 1 pmv then
       "Krótkie przebywanie, częste przerwy w cieniu, nawodnienie"
     else if PyR.ltb 0.5 pmv then
       "Komfortowe warunki, możliwe dłuższe przebywanie"
     else if PyR.ltb pmv (-2) then
       "Ochrona przed wiatrem, ciepłe ubranie, aktywność fizyczna"
     else if PyR.ltb pmv (-1) then
       "Dodatkowa warstwa odzieży, ograniczenie czasu ekspozycji"
     else if PyR.ltb pmv (-0.5) then
       "Lekka korekta ubioru, generalnie komfortowe warunki"
     else
       "Optymalne warunki komfortu termicznego")%string in
  {| zone_name := name zone;
     zc_area_percent := area_percent zone;
     microclimate := {|
       air_temp := PyR.round local_temp 1;
       mean_radiant_temp := PyR.round local_tmrt 1;
       wind_speed := PyR.round local_wind 2;
       humidity := PyR.round local_humidity 1;
       m_surface_type := surface_type zone |};
     comfort_indices := {|
       pmv := PyR.round pmv 2;
       ppd := PyR.round ppd 1;
       utci := PyR.round utci_value 1;
       pet := PyR.round pet_value 1 |};
     assessment := {|
       comfort_level := comfort_level;
       comfort_score := comfort_score;
       recommendation := recommendation;
       thermal_stress :=
         if PyR.ltb 1 pmv then "heat"
         else if PyR.ltb pmv (-1) then "cold"
         else "neutral" |} |}.

(** The body of the loop of [generate_comfort_points].  The drawn
    zone key and the entry it selects in [zones_results] are taken
    together as one pair of the dictionary; [d] stands for an index
    out of range. *)
Definition comfort_point_at (self : ThermalComfortSimulator)
  (zones_results : list (string * ZoneComfort))
  (d : string * ZoneComfort) (zone_weights : list R) (i : Z)
  : Rand ComfortPoint :=
  dlat <- np_random_normal 0 0.008 ;;
  let lat := center_lat self + dlat in
  dlng <- np_random_normal 0 0.012 ;;
  let lng := center_lng self + dlng in
  choice <- np_random_choice zones_results d zone_weights ;;
  let zone_choice := fst choice in
  let zone_data := snd choice in
  let base_pmv := pmv (comfort_indices zone_data) in
  local_pmv_variation <- np_random_normal 0 0.3 ;;
  let local_pmv := PyR.clip (base_pmv + local_pmv_variation) (-3) 3 in
  let base_utci := utci (comfort_indices zone_data) in
  local_utci_variation <- np_random_normal 0 2.0 ;;
  let local_utci := base_utci + local_utci_variation in
  let base_pet := pet (comfort_indices zone_data) in
  local_pet_variation <- np_random_normal 0 2.5 ;;
  let local_pet := base_pet + local_pet_variation in
  let base_surface_temp :=
    mean_radiant_temp (microclimate zone_data) in
  dsurf <- np_random_normal 0 3 ;;
  let surface_temp := base_surface_temp + dsurf in
  ret {| lat := PyR.round lat 6;
         lng := PyR.round lng 6;
         cp_pmv := PyR.round local_pmv 2;
         cp_ppd := PyR.round (calculate_ppd_from_pmv self local_pmv) 1;
         cp_utci := PyR.round local_utci 1;
         cp_pet := PyR.round local_pet 1;
         zone_type := zone_choice;
         surface_temp := PyR.round surface_temp 1;
         cp_comfort_score :=
           PyR.max 1 (PyR.min 5 (PyR.round (5 - Rabs local_pmv) 0));
         microenvironment := m_surface_type (microclimate zone_data)
      |}.

(** [simulate_scenario] always passes the five zones; for an empty
    dictionary, where numpy has nothing to draw from, no point is
    produced here. *)
Definition generate_comfort_points (self : ThermalComfortSimulator)
  (scenario_name : string)
  (zones_results : list (string * ZoneComfort))
  (overall_comfort : R) : Rand (list ComfortPoint) :=
  let seed_value :=
    (Z.abs (hash scenario_name + PyR.int (overall_comfort * 1000))
     mod 2 ^ 31)%Z in
  np_random_seed seed_value ;;;
  let comfort_variance :=
    PyR.var
      (map (fun z => pmv (comfort_indices (snd z))) zones_results) in
  let num_points :=
    Z.min 80 (Z.max 30 (PyR.int (comfort_variance * 50 + 40))) in
  let zone_weights :=
    map (fun z => IZR (zc_area_percent (snd z)) / 100) zones_results in
  match zones_results with
  | [] => ret []
  | d :: _ =>
      for_range (Z.to_nat num_points) 0
        (comfort_point_at self zones_results d zone_weights)
  end.

Definition simulate_scenario (self : ThermalComfortSimulator)
  (ta rh va solar_rad : R) (scenario_name season : string)
  (detailed_output : bool) : IO Result :=
  let clothing_values :=
    [("winter", 2.0); ("spring", 0.8); ("summer", 0.4);
     ("autumn", 1.0)]%string in
  let activity_values :=
    [("winter", 1.4); ("spring", 1.2); ("summer", 1.0);
     ("autumn", 1.3)]%string in
  let clo := dict_get clothing_values season 0.7 in
  let met := dict_get activity_values season 1.2 in
  let urban_zones := define_urban_zones self in
  let zone_results :=
    map (fun '(zone_id, zone) =>
           (zone_id,
            calculate_zone_comfort self zone ta rh va solar_rad met clo))
      urban_zones in
  let overall_comfort_score :=
    fold_left
      (fun acc '(zone_id, zone) =>
         let zone_comfort :=
           calculate_zone_comfort self zone ta rh va solar_rad met clo in
         let zone_contribution :=
           IZR (comfort_score (assessment zone_comfort)
                * area_percent zone) / 100 in
         acc + zone_contribution)
      urban_zones 0 in
  let comfortable_zones_count :=
    count_if
      (fun z => PyR.ltb (Rabs (pmv (comfort_indices (snd z)))) 1.0)
      zone_results in
  let comfortable_zones_percent :=
    IZR comfortable_zones_count
    / IZR (Z.of_nat (List.length zone_results)) * 100 in
  let heat_stress_zones :=
    count_if (fun z => PyR.ltb 2 (pmv (comfort_indices (snd z))))
      zone_results in
  let cold_stress_zones :=
    count_if (fun z => PyR.ltb (pmv (comfort_indices (snd z))) (-2))
      zone_results in
  comfort_points <-
    (if detailed_output
     then on_np_random
            (generate_comfort_points self scenario_name zone_results
               overall_comfort_score)
     else ret []) ;;
  now <- datetime_now_isoformat ;;
  ret {|
    scenario_name := scenario_name;
    module := "ThermalSim";
    model_version := "ThermalSim_v1.6_PMV_UTCI_PET";
    computation_time := now;
    parameters := {|
      air_temperature := ta;
      relative_humidity := rh;
      p_wind_speed := va;
      solar_radiation := solar_rad;
      clothing_insulation_clo := clo;
      metabolic_rate_met := met;
      season := season |};
    environmental_conditions := {|
      thermal_stress_category := _classify_thermal_stress self ta;
      humidity_comfort :=
        if (PyR.leb 40 rh && PyR.leb rh 60)%bool
        then "optimal" else "suboptimal";
      wind_comfort :=
        if (PyR.leb 0.5 va && PyR.leb va 2.0)%bool
        then "optimal" else "suboptimal";
      solar_load :=
        if PyR.ltb solar_rad 200 then "low"
        else if PyR.ltb solar_rad 600 then "moderate"
        else "high" |};
    overall_metrics := {|
      city_comfort_score := PyR.round overall_comfort_score 2;
      comfort_zones_percent := PyR.round comfortable_zones_percent 1;
      heat_stress_zones := heat_stress_zones;
      cold_stress_zones := cold_stress_zones;
      uhi_effect_estimated :=
        PyR.round (PyR.max 0 (ta - 20) * 0.15) 1 |};
    zone_analysis := zone_results;
    comfort_map :=
      if detailed_output then Some comfort_points else None;
    visualization :=
      if detailed_output then
        Some {|
          v_center_lat := center_lat self;
          v_center_lng := center_lng self;
          zoom_level := 14;
          color_scale := "RdYlBu_r";
          legend_title := "PMV Comfort Scale" |}
      else None
  |}.
End WithRuntime.
End ThermalSim.

(** ** A reference runtime *)

(** A concrete runtime on which the statements below can be run: a
    linear congruential generator whose samplers stay in the support of
    their distributions, and no [pythermalcomfort]. *)
Definition lcg_next (s : Z) : Z :=
  ((1103515245 * s + 12345) mod 2 ^ 31)%Z.

#[export] Instance lcg_runtime : Runtime := {|
  hash := fun s => Z.of_nat (String.length s);
  pythermalcomfort := None;
  rng_state := Z;
  rng_seed := fun v => v;
  rng_normal := fun loc scale s =>
    (loc + scale * (IZR (s mod 7) - 3) / 3, lcg_next s)%R;
  rng_exponential := fun scale s =>
    (scale * IZR (s mod 5), lcg_next s)%R;
  rng_uniform := fun lo hi s =>
    (lo + (hi - lo) * IZR (s mod 11) / 10, lcg_next s)%R;
  rng_choice := fun p s =>
    (Z.to_nat (s mod Z.of_nat (List.length p)), lcg_next s)
|}.

Definition lcg_world : World := {| np_random := 0%Z; clock := "t0" |}.

(** ** Batch runs *)

(** Python dictionaries keep insertion order; [d[key] = v] replaces the
    value of a key that is present, in place, and appends a new key. *)
Fixpoint dict_setitem {V : Type} (key : string) (v : V)
  (d : list (string * V)) : list (string * V) :=
  match d with
  | [] => [(key, v)]
  | (k, x) :: rest =>
      if String.eqb k key then (k, v) :: rest
      else (k, x) :: dict_setitem key v rest
  end.

(** [d.get(key)]: [None] for a missing key. *)
Fixpoint dict_lookup {V : Type} (key : string) (d : list (string * V))
  : option V :=
  match d with
  | [] => None
  | (k, x) :: rest =>
      if String.eqb k key then Some x else dict_lookup key rest
  end.

Definition dict_keys {V : Type} (d : list (string * V)) : list string :=
  map fst d.

(** [s.replace(c, by)] for a one-character [c]. *)
Fixpoint str_replace (c : Ascii.ascii) (by_ : string) (s : string)
  : string :=
  match s with
  | EmptyString => EmptyString
  | String a rest =>
      if Ascii.eqb a c then String.append by_ (str_replace c by_ rest)
      else String a (str_replace c by_ rest)
  end.

(** [str.lower] on the ASCII letters, for running the batch functions;
    the batch functions themselves take the interpreter's [lower]. *)
Definition ascii_lower (a : Ascii.ascii) : Ascii.ascii :=
  let n := Ascii.nat_of_ascii a in
  if (Nat.leb 65 n && Nat.leb n 90)%bool
  then Ascii.ascii_of_nat (n + 32) else a.

Fixpoint str_lower_ascii (s : string) : string :=
  match s with
  | EmptyString => EmptyString
  | String a rest => String (ascii_lower a) (str_lower_ascii rest)
  end.

Section Batch.
Import Ascii.
Context {rt : Runtime}.

(** Python's [str.lower], which follows the Unicode tables. *)
Variable lower : string -> string.

(** [for sc in scenarios: results[key(sc)] = run(sc)], threading the
    world from one call to the next. *)
Fixpoint batch_loop {Sc V : Type} (run : Sc -> IO V) (key : Sc -> string)
  (scenarios : list Sc) (results : list (string * V))
  : IO (list (string * V)) :=
  match scenarios with
  | [] => ret results
  | sc :: rest =>
      bind (run sc) (fun result =>
      batch_loop run key rest (dict_setitem (key sc) result results))
  end.

(** The same loop around a call that may raise: the first exception
    leaves the loop, and the dictionary built so far is lost. *)
Fixpoint batch_loop_exc {Sc V : Type} (run : Sc -> IO (Exc V))
  (key : Sc -> string) (scenarios : list Sc) (results : list (string * V))
  : IO (Exc (list (string * V))) :=
  match scenarios with
  | [] => ret (inr results)
  | sc :: rest =>
      bind (run sc) (fun outcome =>
      match outcome with
      | inl e => ret (inl e)
      | inr result =>
          batch_loop_exc run key rest
            (dict_setitem (key sc) result results)
      end)
  end.

(** The key of the flood and thermal batches:
    [name.lower().replace(" ", "_")]. *)
Definition scenario_key (name : string) : string :=
  str_replace " "%char "_" (lower name).

(** The key of the wind batch, which also drops hyphens. *)
Definition wind_scenario_key (name : string) : string :=
  str_replace "-"%char "" (str_replace " "%char "_" (lower name)).

(** [FloodSimulator.batch_simulate]: scenarios are
    (rainfall, duration, name). *)
Definition flood_batch_simulate (self : FloodSim.FloodSimulator)
  (scenarios : list (Q * Q * string))
  : IO (list (string * FloodSim.Result)) :=
  batch_loop
    (fun '(rainfall, duration, name) =>
       FloodSim.simulate_scenario self rainfall duration name true)
    (fun '(rainfall, duration, name) => scenario_key name)
    scenarios [].

(** [ThermalComfortSimulator.batch_simulate]: scenarios are
    (ta, rh, va, solar, name, season). *)
Definition thermal_batch_simulate
  (self : ThermalSim.ThermalComfortSimulator)
  (scenarios : list (R * R * R * R * string * string))
  : IO (list (string * ThermalSim.Result)) :=
  batch_loop
    (fun '(ta, rh, va, solar, name, season) =>
       ThermalSim.simulate_scenario self ta rh va solar name season true)
    (fun '(ta, rh, va, solar, name, season) => scenario_key name)
    scenarios [].

(** [WindSimulator.batch_simulate]: scenarios are
    (speed, direction, name). *)
Definition wind_batch_simulate (self : WindSim.WindSimulator)
  (scenarios : list (R * R * string))
  : IO (Exc (list (string * WindSim.Result))) :=
  batch_loop_exc
    (fun '(speed, direction, name) =>
       WindSim.simulate_scenario self speed direction name true)
    (fun '(speed, direction, name) => wind_scenario_key name)
    scenarios [].
End Batch.

(** ** A second interpreter process *)

(** Python salts the hash of a string once per interpreter process.
    The reference runtime under another salt: the same generator and
    samplers, and again no [pythermalcomfort]; only [hash] differs. *)
Definition lcg_runtime_salted (salt : Z) : Runtime := {|
  hash := fun s => (salt + Z.of_nat (String.length s))%Z;
  pythermalcomfort := None;
  rng_state := Z;
  rng_seed := fun v => v;
  rng_normal := fun loc scale s =>
    (loc + scale * (IZR (s mod 7) - 3) / 3, lcg_next s)%R;
  rng_exponential := fun scale s =>
    (scale * IZR (s mod 5), lcg_next s)%R;
  rng_uniform := fun lo hi s =>
    (lo + (hi - lo) * IZR (s mod 11) / 10, lcg_next s)%R;
  rng_choice := fun p s =>
    (Z.to_nat (s mod Z.of_nat (List.length p)), lcg_next s)
|}.

Definition lcg_world_salted (salt : Z)
  : @World (lcg_runtime_salted salt) :=
  @Build_World (lcg_runtime_salted salt) 0%Z "t0".

(** ** Binary64 arithmetic *)

From Stdlib Require Qpower.

(** Where a statement is about the equality of a computed double with
    a given one, exact numbers do not decide it; the one such
    computation, the wind profile at its reference height, is embedded
    in binary64 as well.  A double is the rational number it stands
    for.  [B64.round] is rounding to the nearest number with a 53-bit
    significand, ties to the even significand; the exponent is not
    bounded, so overflow, subnormal numbers, [inf] and [nan] stay
    outside the model. *)
Module B64.
Local Open Scope Q_scope.

(** The largest [k] with [2 ^ k <= q], for a positive [q]. *)
Definition ilog2 (q : Q) : Z :=
  let k := (Z.log2 (Qnum q) - Z.log2 (Zpos (Qden q)))%Z in
  if Qle_bool (2 ^ k) q then k else (k - 1)%Z.

Definition round (x : Q) : Q :=
  if Qeq_bool x 0 then 0
  else
    let a := if Qle_bool 0 x then x else - x in
    let ulp := 2 ^ (ilog2 a - 52) in
    let r := inject_Z (PyQ.round_half_even (a / ulp)) * ulp in
    if Qle_bool 0 x then r else - r.

Definition add (x y : Q) : Q := round (x + y).
Definition mul (x y : Q) : Q := round (x * y).
Definition div (x y : Q) : Q := round (x / y).
End B64.

(** [calculate_wind_profile] as the interpreter computes it, operation
    by operation in binary64.  The arguments are doubles; [np_log] is
    numpy's logarithm on doubles, and [z_ref] and [z0] are the values
    the call uses, the simulator's attributes when they are left at
    [None]. *)
Module WindSim64.
Local Open Scope Q_scope.

Definition reference_height : Q := B64.round 10.0.
Definition surface_roughness : Q := B64.round 0.3.

Definition calculate_wind_profile (np_log : Q -> Q)
  (height u_ref z_ref z0 : Q) : Q :=
  let height :=
    if PyQ.leb height z0 then B64.add z0 (B64.round 0.1) else height in
  let wind_speed :=
    B64.div
      (B64.mul u_ref (np_log (B64.div (B64.add height z0) z0)))
      (np_log (B64.div (B64.add z_ref z0) z0)) in
  PyQ.max 0 wind_speed.
End WindSim64.

(** * Properties *)

(** ** Case analysis on Python comparisons *)

Ltac q_cases :=
  unfold PyQ.max, PyQ.min, PyQ.ltb, PyQ.leb in *;
  repeat match goal with
  | |- context [Qlt_le_dec ?a ?b] => destruct (Qlt_le_dec a b)
  | H : context [Qlt_le_dec ?a ?b] |- _ => destruct (Qlt_le_dec a b)
  end; cbv iota in *.

Ltac r_cases :=
  unfold PyR.max, PyR.min, PyR.ltb, PyR.leb in *;
  repeat match goal with
  | |- context [Rlt_dec ?a ?b] => destruct (Rlt_dec a b)
  | |- context [Rle_dec ?a ?b] => destruct (Rle_dec a b)
  | H : context [Rlt_dec ?a ?b] |- _ => destruct (Rlt_dec a b)
  | H : context [Rle_dec ?a ?b] |- _ => destruct (Rle_dec a b)
  end; cbv iota in *.

(** ** Built-ins on rationals *)

Section PyQFacts.
Local Open Scope Q_scope.

Lemma PyQ_max_mono (a x y : Q) : x <= y -> PyQ.max a x <= PyQ.max a y.
Proof. intros; q_cases; lra. Qed.

Lemma PyQ_max_nonneg (x : Q) : 0 <= PyQ.max 0 x.
Proof. q_cases; lra. Qed.

Lemma round_half_even_bounds (x : Q) :
  (Qfloor x <= PyQ.round_half_even x <= Qfloor x + 1)%Z.
Proof.
  unfold PyQ.round_half_even.
  destruct (Qcompare (x - inject_Z (Qfloor x)) (1 # 2)); try lia.
  destruct (Z.even (Qfloor x)); lia.
Qed.

Lemma round_half_even_mono (x y : Q) :
  x <= y -> (PyQ.round_half_even x <= PyQ.round_half_even y)%Z.
Proof.
  intros Hxy.
  pose proof (Qfloor_resp_le _ _ Hxy) as Hf.
  destruct (Z.eq_dec (Qfloor x) (Qfloor y)) as [E | NE].
  - unfold PyQ.round_half_even. rewrite <- E.
    destruct (Qcompare_spec (x - inject_Z (Qfloor x)) (1 # 2));
      destruct (Qcompare_spec (y - inject_Z (Qfloor x)) (1 # 2));
      try destruct (Z.even (Qfloor x)); try lia; lra.
  - pose proof (round_half_even_bounds x).
    pose proof (round_half_even_bounds y). lia.
Qed.

Lemma round_half_even_comp (x y : Q) :
  x == y -> PyQ.round_half_even x = PyQ.round_half_even y.
Proof.
  intros E. unfold PyQ.round_half_even.
  rewrite (Qfloor_comp _ _ E).
  assert (E' : x - inject_Z (Qfloor y) == y - inject_Z (Qfloor y))
    by (rewrite E; reflexivity).
  rewrite (Qcompare_comp _ _ E' _ _ (Qeq_refl (1 # 2))). reflexivity.
Qed.

Lemma PyQ_pow10_pos (n : nat) : 0 < PyQ.pow10 n.
Proof.
  unfold PyQ.pow10.
  assert (0 < 10 ^ Z.of_nat n)%Z by (apply Z.pow_pos_nonneg; lia).
  change 0 with (inject_Z 0). rewrite <- Zlt_Qlt. assumption.
Qed.

Lemma PyQ_round_mono (x y : Q) (n : nat) :
  x <= y -> PyQ.round x n <= PyQ.round y n.
Proof.
  intros Hxy. unfold PyQ.round.
  pose proof (PyQ_pow10_pos n) as Hp.
  apply Qmult_le_compat_r.
  - rewrite <- Zle_Qle. apply round_half_even_mono.
    apply Qmult_le_compat_r; lra.
  - apply Qlt_le_weak, Qinv_lt_0_compat; assumption.
Qed.

Lemma PyQ_round_comp (x y : Q) (n : nat) :
  x == y -> PyQ.round x n == PyQ.round y n.
Proof.
  intros E. unfold PyQ.round.
  rewrite (round_half_even_comp (x * PyQ.pow10 n) (y * PyQ.pow10 n)).
  - reflexivity.
  - rewrite E; reflexivity.
Qed.
End PyQFacts.

(** ** Built-ins on reals *)

Section PyRFacts.
Local Open Scope R_scope.

Lemma PyR_max_l (a b : R) : a <= PyR.max a b.
Proof. r_cases; lra. Qed.

Lemma PyR_max_eq (a b : R) : a <= b -> PyR.max a b = b.
Proof. intros; r_cases; lra. Qed.

Lemma PyR_pow10_pos (n : nat) : 0 < PyR.pow10 n.
Proof.
  unfold PyR.pow10. apply IZR_lt.
  apply Z.pow_pos_nonneg; lia.
Qed.

Lemma PyR_round_half_even_lower (x : R) :
  (Zfloor x <= PyR.round_half_even x)%Z.
Proof.
  unfold PyR.round_half_even.
  destruct (PyR.ltb _ _); [lia |].
  destruct (PyR.ltb _ _); [lia |].
  destruct (Z.even _); lia.
Qed.

Lemma PyR_round_nonneg (x : R) (n : nat) : 0 <= x -> 0 <= PyR.round x n.
Proof.
  intros Hx. unfold PyR.round.
  pose proof (PyR_pow10_pos n) as Hp.
  assert (H0 : (0 <= PyR.round_half_even (x * PyR.pow10 n))%Z).
  { eapply Z.le_trans; [| apply PyR_round_half_even_lower].
    apply Zfloor_lub. simpl. nra. }
  apply IZR_le in H0.
  apply Rmult_le_pos; [exact H0 |].
  apply Rlt_le, Rinv_0_lt_compat, Hp.
Qed.

Lemma ln_gt_1_pos (x : R) : 1 < x -> 0 < ln x.
Proof. intros H. rewrite <- ln_1. apply ln_increasing; lra. Qed.

Lemma exp_nonpos_le_1 (x : R) : x <= 0 -> 0 < exp x <= 1.
Proof.
  intros H. split; [apply exp_pos |].
  destruct H as [H | H].
  - left. rewrite <- exp_0. apply exp_increasing, H.
  - subst. rewrite exp_0. lra.
Qed.
End PyRFacts.

(** ** Loops and the generator *)

Section Loops.
Context {S A : Type}.

Lemma for_range_Forall (P : A -> Prop) (body : Z -> State S A) :
  (forall i s, P (fst (body i s))) ->
  forall n i s, Forall P (fst (for_range n i body s)).
Proof.
  intros Hb. induction n as [| n IH]; intros i s; cbn.
  - constructor.
  - unfold bind. specialize (Hb i s).
    destruct (body i s) as [x s1]. specialize (IH (i + 1)%Z s1).
    destruct (for_range n (i + 1) body s1) as [xs s2].
    cbn in *. constructor; assumption.
Qed.

Lemma for_range_length (body : Z -> State S A) :
  forall n i s, List.length (fst (for_range n i body s)) = n.
Proof.
  induction n as [| n IH]; intros i s; cbn.
  - reflexivity.
  - unfold bind. destruct (body i s) as [x s1].
    specialize (IH (i + 1)%Z s1).
    destruct (for_range n (i + 1) body s1) as [xs s2].
    cbn in *. congruence.
Qed.
End Loops.

Lemma lcg_runtime_laws : RuntimeLaws lcg_runtime.
Proof.
  constructor.
  - intros lo hi s H. cbn.
    assert (Hm : (0 <= s mod 11 <= 10)%Z)
      by (pose proof (Z.mod_pos_bound s 11); lia).
    destruct Hm as [H0 H1]. apply IZR_le in H0, H1. nra.
  - intros scale s H. cbn.
    assert (Hm : (0 <= s mod 5)%Z)
      by (pose proof (Z.mod_pos_bound s 5); lia).
    apply IZR_le in Hm. nra.
Qed.

(** Each point generator begins by seeding, so what it returns does not
    depend on the generator state it starts from. *)
Section Reseeding.
Context {rt : Runtime}.

Lemma flood_generator_reseeds (self : FloodSim.FloodSimulator)
  (name : string) (md pct : Q) (s1 s2 : rng_state) :
  FloodSim.generate_flood_zones self name md pct s1
  = FloodSim.generate_flood_zones self name md pct s2.
Proof. reflexivity. Qed.

(** The wind generator does not read its [scenario_name] either. *)
Lemma wind_generator_reseeds (self : WindSim.WindSimulator)
  (n1 n2 : string) (u d : R) (ue : WindSim.UrbanEffects)
  (s1 s2 : rng_state) :
  WindSim.generate_wind_field self n1 u d ue s1
  = WindSim.generate_wind_field self n2 u d ue s2.
Proof. reflexivity. Qed.

Lemma thermal_generator_reseeds
  (self : ThermalSim.ThermalComfortSimulator) (name : string)
  (zs : list (string * ThermalSim.ZoneComfort)) (c : R)
  (s1 s2 : rng_state) :
  ThermalSim.generate_comfort_points self name zs c s1
  = ThermalSim.generate_comfort_points self name zs c s2.
Proof. reflexivity. Qed.
End Reseeding.

(** ** FloodSim *)

Section FloodFacts.
Import FloodSim.
Local Open Scope Q_scope.

Lemma total_excess_eq (self : FloodSimulator) (r d : Q) :
  total_excess self r d
  = excess_rainfall self r d * d * runoff_coefficient self.
Proof. reflexivity. Qed.

Lemma excess_rainfall_nonneg (self : FloodSimulator) (r d : Q) :
  0 <= excess_rainfall self r d.
Proof. unfold excess_rainfall; cbn. apply PyQ_max_nonneg. Qed.

Lemma excess_rainfall_duration (self : FloodSimulator) (r d1 d2 : Q) :
  excess_rainfall self r d1 = excess_rainfall self r d2.
Proof. reflexivity. Qed.

Lemma excess_rainfall_mono (self : FloodSimulator) (r1 r2 d : Q) :
  r1 <= r2 -> excess_rainfall self r1 d <= excess_rainfall self r2 d.
Proof.
  intros H. unfold excess_rainfall; cbn.
  apply PyQ_max_mono.
  apply Qplus_le_compat; [| lra].
  apply PyQ_max_mono. lra.
Qed.

(** Up to infiltration plus drainage nothing is left over. *)
Lemma excess_zero (cfg : Config) (r d : Q) :
  r <= infiltration_rate (init cfg) + drainage_capacity (init cfg) ->
  excess_rainfall (init cfg) r d = 0.
Proof.
  unfold excess_rainfall, calculate_effective_rainfall. cbn.
  intros H. q_cases; try reflexivity; lra.
Qed.

Lemma total_excess_mono_rainfall (cfg : Config) (r1 r2 d : Q) :
  r1 <= r2 -> 0 <= d ->
  total_excess (init cfg) r1 d <= total_excess (init cfg) r2 d.
Proof.
  intros H Hd. rewrite !total_excess_eq.
  pose proof (excess_rainfall_mono (init cfg) r1 r2 d H).
  cbn [runoff_coefficient init].
  nra.
Qed.

Lemma total_excess_mono_duration (cfg : Config) (r d1 d2 : Q) :
  d1 <= d2 ->
  total_excess (init cfg) r d1 <= total_excess (init cfg) r d2.
Proof.
  intros H. rewrite !total_excess_eq.
  rewrite (excess_rainfall_duration (init cfg) r d1 d2).
  pose proof (excess_rainfall_nonneg (init cfg) r d2).
  cbn [runoff_coefficient init].
  nra.
Qed.

Lemma total_excess_sign (cfg : Config) (r d : Q) :
  d <= 0 -> total_excess (init cfg) r d <= 0.
Proof.
  intros H. rewrite total_excess_eq.
  pose proof (excess_rainfall_nonneg (init cfg) r d).
  cbn [runoff_coefficient init]. nra.
Qed.

Lemma flood_depths_nonpos (self : FloodSimulator) (t : Q) :
  t <= 0 -> calculate_flood_depths self t = (0, 0).
Proof.
  intros H. unfold calculate_flood_depths. q_cases; try reflexivity; lra.
Qed.

Lemma flood_depths_mono (self : FloodSimulator) (t1 t2 : Q) :
  t1 <= t2 ->
  fst (calculate_flood_depths self t1)
    <= fst (calculate_flood_depths self t2) /\
  snd (calculate_flood_depths self t1)
    <= snd (calculate_flood_depths self t2).
Proof.
  intros H. unfold calculate_flood_depths.
  q_cases; cbn [fst snd]; unfold Qdiv in *;
    change (/ 100) with (1 # 100) in *; split; lra.
Qed.

(** The depth never leaves the interval from 0 to 3 metres. *)
Lemma flood_depth_range (self : FloodSimulator) (t : Q) :
  0 <= fst (calculate_flood_depths self t) <= 3.
Proof.
  unfold calculate_flood_depths.
  q_cases; cbn [fst snd]; unfold Qdiv in *;
    change (/ 100) with (1 # 100) in *; split; lra.
Qed.

Lemma max_depth_mono_total (self : FloodSimulator) (r1 r2 d1 d2 : Q) :
  total_excess self r1 d1 <= total_excess self r2 d2 ->
  max_depth self r1 d1 <= max_depth self r2 d2 /\
  flooded_area_pct self r1 d1 <= flooded_area_pct self r2 d2.
Proof. intros H. apply flood_depths_mono, H. Qed.

Lemma max_depth_mono_rainfall (cfg : Config) (r1 r2 d : Q) :
  r1 <= r2 ->
  max_depth (init cfg) r1 d <= max_depth (init cfg) r2 d /\
  flooded_area_pct (init cfg) r1 d <= flooded_area_pct (init cfg) r2 d.
Proof.
  intros H.
  destruct (Qlt_le_dec d 0) as [Hd | Hd].
  - unfold max_depth, flooded_area_pct.
    rewrite !flood_depths_nonpos by (apply total_excess_sign; lra).
    cbn; split; lra.
  - apply max_depth_mono_total, total_excess_mono_rainfall; assumption.
Qed.

Context {rt : Runtime}.

(** What [simulate_scenario] reports under ['metrics']. *)
Lemma flood_simulate_metrics (self : FloodSimulator) (r d : Q)
  (n : string) (det : bool) (w : World) :
  let m := metrics (fst (simulate_scenario self r d n det w)) in
  max_depth_m m = PyQ.round (max_depth self r d) 3 /\
  flooded_area_percent m = PyQ.round (flooded_area_pct self r d) 1 /\
  risk_level m = assess_flood_risk self (max_depth self r d) /\
  risk_score m = (risk_index (risk_level m) + 1)%Z.
Proof.
  unfold max_depth, flooded_area_pct, total_excess, simulate_scenario.
  destruct (calculate_effective_rainfall self r d) as [[e x] t].
  cbn [fst snd].
  destruct (calculate_flood_depths self t) as [md pct].
  unfold bind, ret, datetime_now_isoformat.
  destruct det.
  - destruct (on_np_random _ w) as [zs w']. cbn. auto.
  - cbn. auto.
Qed.

(** A second call differs from a first one in the time stamp only. *)
Lemma flood_simulate_two_calls (self : FloodSimulator)
  (r d : Q) (name : string) (detailed : bool) (w1 w2 : World) :
  fst (simulate_scenario self r d name detailed w2)
  = set_computation_time (clock w2)
      (fst (simulate_scenario self r d name detailed w1)).
Proof.
  unfold simulate_scenario.
  destruct (calculate_effective_rainfall self r d) as [[e x] t].
  destruct (calculate_flood_depths self t) as [md pct].
  unfold bind, ret, datetime_now_isoformat.
  destruct detailed.
  - unfold on_np_random.
    rewrite (flood_generator_reseeds self name md pct
               (np_random w2) (np_random w1)).
    destruct (generate_flood_zones _ _ _ _ _) as [zs s'].
    reflexivity.
  - reflexivity.
Qed.
End FloodFacts.

(** Claim C2.  A rainfall of 65 mm/h over 2 h leaves 57 mm/h after
    infiltration and 17 mm/h after drainage, a total excess of
    17 * 2 * 0.75 = 25.5 mm and a maximum depth of
    min(25.5 / 100 * 0.8, 3.0) = 0.204 m; the risk level is UMIARKOWANE
    (moderate), the third of the five bands, and [simulate_scenario]
    reports that depth, level and score 3. *)
Theorem flood_scenario_65mm_2h (cfg : Config) :
  let self := FloodSim.init cfg in
  (FloodSim.effective_rainfall self 65 2 == 57)%Q /\
  (FloodSim.excess_rainfall self 65 2 == 17)%Q /\
  (FloodSim.total_excess self 65 2 == 25.5)%Q /\
  (FloodSim.total_excess self 65 2 == 17 * 2 * 0.75)%Q /\
  (FloodSim.max_depth self 65 2 == PyQ.min (25.5 / 100 * 0.8) 3.0)%Q /\
  (FloodSim.max_depth self 65 2 == 0.204)%Q /\
  FloodSim.assess_flood_risk self (FloodSim.max_depth self 65 2)
    = FloodSim.UMIARKOWANE /\
  nth_error FloodSim.risk_levels 2 = Some FloodSim.UMIARKOWANE /\
  List.length FloodSim.risk_levels = 5%nat /\
  forall (rt : Runtime) (w : World) (name : string) (detailed : bool),
    let m :=
      FloodSim.metrics
        (fst (FloodSim.simulate_scenario self 65 2 name detailed w)) in
    (FloodSim.max_depth_m m == 0.204)%Q /\
    FloodSim.risk_level m = FloodSim.UMIARKOWANE /\
    FloodSim.risk_score m = 3%Z.
Proof.
  intros self.
  assert (Hd : (FloodSim.max_depth self 65 2 == 0.204)%Q)
    by (vm_compute; reflexivity).
  assert (Hr : FloodSim.assess_flood_risk self (FloodSim.max_depth self 65 2)
               = FloodSim.UMIARKOWANE)
    by (vm_compute; reflexivity).
  do 9 (split; [first [exact Hd | exact Hr | vm_compute; reflexivity] |]).
  intros rt w name detailed m.
  destruct (flood_simulate_metrics self 65 2 name detailed w)
    as (Ed & _ & Er & Es).
  fold m in Ed, Er, Es.
  rewrite Es, Er, Ed, Hr.
  split; [vm_compute; reflexivity | split; reflexivity].
Qed.

(** Claim C3.  When the rainfall intensity does not exceed the
    infiltration rate plus the drainage capacity (8 + 40 mm/h), then for
    every duration the total excess is zero, the maximum depth and the
    flooded share of the area are zero, and the risk level is MINIMALNE,
    the lowest band; [simulate_scenario] reports these values. *)
Theorem flood_zero_excess_boundary (cfg : Config) (rainfall duration : Q) :
  let self := FloodSim.init cfg in
  (rainfall <= FloodSim.infiltration_rate self
               + FloodSim.drainage_capacity self)%Q ->
  (FloodSim.total_excess self rainfall duration == 0)%Q /\
  FloodSim.max_depth self rainfall duration = 0%Q /\
  FloodSim.flooded_area_pct self rainfall duration = 0%Q /\
  FloodSim.assess_flood_risk self
    (FloodSim.max_depth self rainfall duration) = FloodSim.MINIMALNE /\
  nth_error FloodSim.risk_levels 0 = Some FloodSim.MINIMALNE /\
  forall (rt : Runtime) (w : World) (name : string) (detailed : bool),
    let m :=
      FloodSim.metrics
        (fst (FloodSim.simulate_scenario self rainfall duration name
                detailed w)) in
    (FloodSim.max_depth_m m == 0)%Q /\
    (FloodSim.flooded_area_percent m == 0)%Q /\
    FloodSim.risk_level m = FloodSim.MINIMALNE /\
    FloodSim.risk_score m = 1%Z.
Proof.
  intros self H.
  assert (Ht : (FloodSim.total_excess self rainfall duration == 0)%Q).
  { rewrite total_excess_eq. unfold self.
    rewrite (excess_zero cfg rainfall duration H). ring. }
  assert (Hd : FloodSim.calculate_flood_depths self
                 (FloodSim.total_excess self rainfall duration)
               = (0%Q, 0%Q)).
  { apply flood_depths_nonpos. rewrite Ht. apply Qle_refl. }
  assert (Hm : FloodSim.max_depth self rainfall duration = 0%Q)
    by (unfold FloodSim.max_depth; rewrite Hd; reflexivity).
  assert (Hp : FloodSim.flooded_area_pct self rainfall duration = 0%Q)
    by (unfold FloodSim.flooded_area_pct; rewrite Hd; reflexivity).
  split; [exact Ht |]. split; [exact Hm |]. split; [exact Hp |].
  split; [rewrite Hm; reflexivity |]. split; [reflexivity |].
  intros rt w name detailed m.
  destruct (flood_simulate_metrics self rainfall duration name
              detailed w) as (Ed & Ep & Er & Es).
  fold m in Ed, Ep, Er, Es.
  rewrite Es, Er, Ed, Ep, Hm, Hp.
  split; [vm_compute; reflexivity |].
  split; [vm_compute; reflexivity |].
  split; reflexivity.
Qed.

Lemma flood_zero_excess_boundary_witness :
  let self := FloodSim.init test_config in
  (5 <= FloodSim.infiltration_rate self
        + FloodSim.drainage_capacity self)%Q /\
  (FloodSim.total_excess self 5 1 == 0)%Q /\
  FloodSim.max_depth self 5 1 = 0%Q /\
  FloodSim.flooded_area_pct self 5 1 = 0%Q /\
  FloodSim.assess_flood_risk self (FloodSim.max_depth self 5 1)
    = FloodSim.MINIMALNE /\
  FloodSim.risk_level
    (FloodSim.metrics
       (fst (FloodSim.simulate_scenario self 5 1 "Lekki deszcz" true
               lcg_world)))
    = FloodSim.MINIMALNE.
Proof.
  intros self.
  assert (H : (5 <= FloodSim.infiltration_rate self
                    + FloodSim.drainage_capacity self)%Q)
    by (unfold Qle; simpl; lia).
  destruct (flood_zero_excess_boundary test_config 5 1 H)
    as (A & B & C & D & _ & E).
  destruct (E lcg_runtime lcg_world "Lekki deszcz"%string true)
    as (_ & _ & F & _).
  exact (conj H (conj A (conj B (conj C (conj D F))))).
Defined.

(** Claim C4, as stated, fails for a negative duration: from 48 to
    58 mm/h over -1 h the total excess falls from 0 to -7.5 mm. *)
Lemma flood_monotone_rainfall_counterexample :
  let self := FloodSim.init test_config in
  (48 <= 58)%Q /\
  ~ (FloodSim.total_excess self 48 (-1)
     <= FloodSim.total_excess self 58 (-1))%Q.
Proof.
  split; [unfold Qle; simpl; lia |].
  vm_compute. intros H; apply H; reflexivity.
Qed.

(** Claim C4, amended.  For rainfall intensities r1 <= r2 the maximum
    depth and the flooded share at r2 are at least those at r1 for
    every duration, and the total excess is so for every duration that
    is not negative; all three are non-decreasing in the duration; zero
    rainfall leaves zero excess.  The rounded depth and share that
    [simulate_scenario] reports are ordered in the same way. *)
Theorem flood_monotone (cfg : Config) (r1 r2 d1 d2 : Q) :
  let self := FloodSim.init cfg in
  (r1 <= r2)%Q -> (d1 <= d2)%Q ->
  ((0 <= d1)%Q ->
   (FloodSim.total_excess self r1 d1
    <= FloodSim.total_excess self r2 d1)%Q) /\
  (FloodSim.max_depth self r1 d1 <= FloodSim.max_depth self r2 d1)%Q /\
  (FloodSim.flooded_area_pct self r1 d1
   <= FloodSim.flooded_area_pct self r2 d1)%Q /\
  (FloodSim.total_excess self r1 d1
   <= FloodSim.total_excess self r1 d2)%Q /\
  (FloodSim.max_depth self r1 d1 <= FloodSim.max_depth self r1 d2)%Q /\
  (FloodSim.flooded_area_pct self r1 d1
   <= FloodSim.flooded_area_pct self r1 d2)%Q /\
  FloodSim.excess_rainfall self 0 d1 = 0%Q /\
  (FloodSim.total_excess self 0 d1 == 0)%Q /\
  forall (rt : Runtime) (w w' : World) (n n' : string) (b b' : bool),
    let m1 :=
      FloodSim.metrics (fst (FloodSim.simulate_scenario self r1 d1 n b w)) in
    let m2 :=
      FloodSim.metrics
        (fst (FloodSim.simulate_scenario self r2 d1 n' b' w')) in
    let m3 :=
      FloodSim.metrics
        (fst (FloodSim.simulate_scenario self r1 d2 n' b' w')) in
    (FloodSim.max_depth_m m1 <= FloodSim.max_depth_m m2)%Q /\
    (FloodSim.flooded_area_percent m1
     <= FloodSim.flooded_area_percent m2)%Q /\
    (FloodSim.max_depth_m m1 <= FloodSim.max_depth_m m3)%Q /\
    (FloodSim.flooded_area_percent m1
     <= FloodSim.flooded_area_percent m3)%Q.
Proof.
  intros self Hr Hd.
  destruct (max_depth_mono_rainfall cfg r1 r2 d1 Hr) as [Hmr Hpr].
  destruct (max_depth_mono_total self r1 r1 d1 d2
              (total_excess_mono_duration cfg r1 d1 d2 Hd))
    as [Hmd Hpd].
  assert (Hz : FloodSim.excess_rainfall self 0 d1 = 0%Q)
    by (apply excess_zero; cbn; lra).
  split; [intros H0; apply total_excess_mono_rainfall;
          assumption |].
  split; [exact Hmr |]. split; [exact Hpr |].
  split; [apply total_excess_mono_duration; assumption |].
  split; [exact Hmd |]. split; [exact Hpd |].
  split; [exact Hz |].
  split; [rewrite total_excess_eq, Hz; ring |].
  intros rt w w' n n' b b' m1 m2 m3.
  destruct (flood_simulate_metrics self r1 d1 n b w)
    as (E1 & F1 & _).
  destruct (flood_simulate_metrics self r2 d1 n' b' w')
    as (E2 & F2 & _).
  destruct (flood_simulate_metrics self r1 d2 n' b' w')
    as (E3 & F3 & _).
  fold m1 in E1, F1. fold m2 in E2, F2. fold m3 in E3, F3.
  rewrite E1, E2, E3, F1, F2, F3.
  repeat split; apply PyQ_round_mono; assumption.
Qed.

Lemma flood_monotone_witness :
  let self := FloodSim.init test_config in
  (15 <= 65)%Q /\ (2 <= 4)%Q /\ (0 <= 2)%Q /\
  (FloodSim.total_excess self 15 2 <= FloodSim.total_excess self 65 2)%Q /\
  (FloodSim.max_depth self 15 2 <= FloodSim.max_depth self 65 2)%Q /\
  (FloodSim.max_depth self 15 2 <= FloodSim.max_depth self 15 4)%Q.
Proof.
  intros self.
  assert (H1 : (15 <= 65)%Q) by (unfold Qle; simpl; lia).
  assert (H2 : (2 <= 4)%Q) by (unfold Qle; simpl; lia).
  assert (H3 : (0 <= 2)%Q) by (unfold Qle; simpl; lia).
  destruct (flood_monotone test_config 15 65 2 4 H1 H2)
    as (A & B & _ & _ & C & _).
  exact (conj H1 (conj H2 (conj H3 (conj (A H3) (conj B C))))).
Defined.

(** ** WindSim *)

Section WindFacts.
Import WindSim.
Local Open Scope R_scope.

Lemma wind_profile_nonneg (self : WindSimulator) (h u : R) :
  0 <= calculate_wind_profile self h u None None.
Proof. unfold calculate_wind_profile. apply PyR_max_l. Qed.

(** The code's distance to the nearest listed street direction. *)
Lemma min_angle_streets (d : R) :
  min_angle d [0; 90; 180; 270]
  = PyR.min (PyR.min (PyR.min (Rabs (d - 0)) (Rabs (d - 90)))
               (Rabs (d - 180))) (Rabs (d - 270)).
Proof. reflexivity. Qed.

Lemma min_angle_low (d : R) :
  d <= 45 -> min_angle d [0; 90; 180; 270] = Rabs d.
Proof.
  intros H. rewrite min_angle_streets.
  replace (d - 0) with d by ring.
  unfold Rabs. repeat destruct (Rcase_abs _); r_cases; lra.
Qed.

Lemma min_angle_high (d : R) :
  225 <= d -> min_angle d [0; 90; 180; 270] = Rabs (d - 270).
Proof.
  intros H. rewrite min_angle_streets.
  unfold Rabs. repeat destruct (Rcase_abs _); r_cases; lra.
Qed.

Lemma min_angle_le_each (d : R) :
  let m := min_angle d [0; 90; 180; 270] in
  m <= Rabs (d - 0) /\ m <= Rabs (d - 90) /\
  m <= Rabs (d - 180) /\ m <= Rabs (d - 270).
Proof.
  intros m. unfold m. rewrite min_angle_streets.
  generalize (Rabs (d - 0)) (Rabs (d - 90)) (Rabs (d - 180))
    (Rabs (d - 270)).
  intros a b c e. r_cases; lra.
Qed.

Lemma min_angle_is_one (d : R) :
  let m := min_angle d [0; 90; 180; 270] in
  m = Rabs (d - 0) \/ m = Rabs (d - 90) \/
  m = Rabs (d - 180) \/ m = Rabs (d - 270).
Proof.
  intros m. unfold m. rewrite min_angle_streets.
  generalize (Rabs (d - 0)) (Rabs (d - 90)) (Rabs (d - 180))
    (Rabs (d - 270)).
  intros a b c e. r_cases; auto.
Qed.

Lemma near_axis_min_angle (d tol : R) :
  0 <= d <= 315 -> tol <= 30 ->
  (near_axis d tol <-> min_angle d [0; 90; 180; 270] <= tol).
Proof.
  intros Hd Ht.
  destruct (min_angle_le_each d) as (H0 & H1 & H2 & H3).
  split.
  - intros [k Hk].
    assert (Hb : -45 < d - 90 * IZR k < 45).
    { unfold Rabs in Hk. destruct (Rcase_abs _); lra. }
    assert (Hk0 : (0 <= k)%Z).
    { destruct (Z_le_gt_dec 0 k) as [L | G]; [exact L |].
      assert (k <= -1)%Z as L by lia. apply IZR_le in L. lra. }
    assert (Hk3 : (k <= 3)%Z).
    { destruct (Z_le_gt_dec k 3) as [L | G]; [exact L |].
      assert (4 <= k)%Z as L by lia. apply IZR_le in L. lra. }
    assert (Hc : k = 0%Z \/ k = 1%Z \/ k = 2%Z \/ k = 3%Z) by lia.
    destruct Hc as [-> | [-> | [-> | ->]]].
    + replace (d - 90 * 0) with (d - 0) in Hk by ring. lra.
    + replace (d - 90 * 1) with (d - 90) in Hk by ring. lra.
    + replace (d - 90 * 2) with (d - 180) in Hk by ring. lra.
    + replace (d - 90 * 3) with (d - 270) in Hk by ring. lra.
  - intros Hm.
    destruct (min_angle_is_one d) as [E | [E | [E | E]]];
      rewrite E in Hm.
    + exists 0%Z. replace (d - 90 * 0) with (d - 0) by ring. exact Hm.
    + exists 1%Z. replace (d - 90 * 1) with (d - 90) by ring. exact Hm.
    + exists 2%Z. replace (d - 90 * 2) with (d - 180) by ring. exact Hm.
    + exists 3%Z. replace (d - 90 * 3) with (d - 270) by ring. exact Hm.
Qed.

(** Up to 315 degrees the code follows the stated rule. *)
Lemma directional_factor_up_to_315 (self : WindSimulator) (d : R) :
  0 <= d <= 315 ->
  (near_axis d 15 -> _calculate_directional_factor self d = 1.15) /\
  (~ near_axis d 15 -> near_axis d 30 ->
   _calculate_directional_factor self d = 1.05) /\
  (~ near_axis d 30 -> _calculate_directional_factor self d = 0.9).
Proof.
  intros Hd.
  assert (H15 : (15 <= 30)) by lra. assert (H30 : (30 <= 30)) by lra.
  pose proof (near_axis_min_angle d 15 Hd H15) as E15.
  pose proof (near_axis_min_angle d 30 Hd H30) as E30.
  unfold _calculate_directional_factor.
  assert (Hm : min_angle d [0; 90; 180; 270] <= 15 ->
               min_angle d [0; 90; 180; 270] <= 30) by lra.
  repeat split; intros; r_cases; first [reflexivity | tauto].
Qed.

Lemma directional_factor_values (self : WindSimulator) (d : R) :
  _calculate_directional_factor self d = 1.15 \/
  _calculate_directional_factor self d = 1.05 \/
  _calculate_directional_factor self d = 0.9.
Proof.
  unfold _calculate_directional_factor.
  destruct (PyR.leb _ 15); [auto |].
  destruct (PyR.leb _ 30); auto.
Qed.

Lemma directional_factor_pos (self : WindSimulator) (d : R) :
  0 < _calculate_directional_factor self d.
Proof.
  destruct (directional_factor_values self d) as [E | [E | E]];
    rewrite E; lra.
Qed.

(** From 315 degrees upwards the nearest listed direction is 270, at
    45 degrees or more, whatever the distance to north. *)
Lemma directional_factor_north_west (self : WindSimulator) (d : R) :
  315 <= d -> _calculate_directional_factor self d = 0.9.
Proof.
  intros H. unfold _calculate_directional_factor.
  rewrite min_angle_high by lra.
  rewrite Rabs_pos_eq by lra. r_cases; lra.
Qed.

Lemma pedestrian_speed_nonneg (self : WindSimulator) (u d : R) :
  0 <= pedestrian_speed (calculate_urban_effects self u d).
Proof.
  cbn [calculate_urban_effects pedestrian_speed].
  apply Rmult_le_pos.
  - apply wind_profile_nonneg.
  - apply Rlt_le, directional_factor_pos.
Qed.

Lemma urban_speeds_nonneg (cfg : Config) (u d : R) :
  0 <= u ->
  let ue := calculate_urban_effects (init cfg) u d in
  0 <= max_tunnel_speed ue /\ 0 <= min_wake_speed ue /\
  0 <= avg_urban_speed ue.
Proof.
  intros Hu ue.
  pose proof (directional_factor_pos (init cfg) d) as Hf.
  unfold ue.
  cbn [calculate_urban_effects max_tunnel_speed min_wake_speed
       avg_urban_speed init building_density tunnel_amplification
       wake_reduction].
  repeat split; apply Rmult_le_pos; try lra; nra.
Qed.

Context {rt : Runtime}.

Lemma wind_point_speed_nonneg (laws : RuntimeLaws rt) (cfg : Config)
  (u d : R) (i : Z) (s : rng_state) :
  0 <= u ->
  0 <= speed (fst (wind_point_at (init cfg) d
                     (calculate_urban_effects (init cfg) u d) i s)).
Proof.
  intros Hu.
  destruct (urban_speeds_nonneg cfg u d Hu) as (Ht & Hw & Ha).
  unfold wind_point_at, bind, ret, np_random_normal, np_random_uniform,
    np_random_choice.
  destruct (rng_normal 0 0.008 s) as [dlat s1].
  destruct (rng_normal 0 0.012 s1) as [dlng s2].
  assert (Hr : 0.6 <= 1.4) by lra.
  pose proof (uniform_range 0.6 1.4 s2 Hr) as Hv.
  destruct (rng_uniform 0.6 1.4 s2) as [sv s3]. cbn [fst] in Hv.
  destruct (rng_choice _ s3) as [k s4].
  set (env := nth k _ _).
  set (ue := calculate_urban_effects (init cfg) u d) in *.
  assert (Hg : green_area_reduction (init cfg) = 0.4) by reflexivity.
  destruct (String.eqb env "tunnel");
    [| destruct (String.eqb env "wake");
       [| destruct (String.eqb env "green");
          [| destruct (String.eqb env "intersection")]]];
    cbn [orb];
    destruct (rng_normal 0 25 s4) as [dev s5];
    destruct (rng_uniform 1.0 20.0 s5) as [hh s6];
    cbn [fst speed];
    apply PyR_round_nonneg; try rewrite Hg; nra.
Qed.

Lemma wind_field_speeds_nonneg (laws : RuntimeLaws rt) (cfg : Config)
  (u d : R) (name : string) (s : rng_state) :
  0 <= u ->
  Forall (fun p => 0 <= speed p)
    (fst (generate_wind_field (init cfg) name u d
            (calculate_urban_effects (init cfg) u d) s)).
Proof.
  intros Hu. unfold generate_wind_field, bind, np_random_seed.
  apply for_range_Forall. intros i s'.
  apply wind_point_speed_nonneg; assumption.
Qed.

(** What a call that returns reports on speeds and points. *)
Lemma wind_simulate_result (self : WindSimulator) (u d : R)
  (name : string) (detailed : bool) (w : World) (r : Result) :
  fst (simulate_scenario self u d name detailed w) = inr r ->
  let ue := calculate_urban_effects self u d in
  max_speed (wind_field_analysis r) = PyR.round (max_tunnel_speed ue) 2 /\
  min_speed (wind_field_analysis r) = PyR.round (min_wake_speed ue) 2 /\
  wfa_avg_urban_speed (wind_field_analysis r)
    = PyR.round (avg_urban_speed ue) 2 /\
  wfa_pedestrian_speed (wind_field_analysis r)
    = PyR.round (pedestrian_speed ue) 2 /\
  wind_field r
    = (if detailed
       then Some (fst (generate_wind_field self name u d ue (np_random w)))
       else None).
Proof.
  unfold simulate_scenario.
  destruct (assess_pedestrian_comfort _ _) as [[lvl sc] descr].
  unfold bind, ret, datetime_now_isoformat.
  destruct detailed.
  - unfold on_np_random.
    destruct (generate_wind_field _ _ _ _ _ _) as [pts s'].
    destruct (Req_dec_T _ 0); intros H; inversion H; subst r; cbn.
    repeat split; reflexivity.
  - destruct (Req_dec_T _ 0); intros H; inversion H; subst r; cbn.
    repeat split; reflexivity.
Qed.

(** The call raises exactly when the reference speed is zero. *)
Lemma wind_simulate_outcome (cfg : Config) (u d : R)
  (name : string) (detailed : bool) (w : World) :
  (u = 0 ->
   fst (simulate_scenario (init cfg) u d name detailed w)
   = inl ZeroDivisionError) /\
  (u <> 0 ->
   exists r, fst (simulate_scenario (init cfg) u d name detailed w)
             = inr r).
Proof.
  pose proof (directional_factor_pos (init cfg) d) as Hf.
  assert (Hw : min_wake_speed (calculate_urban_effects (init cfg) u d)
               = u * (1 - 0.3) * _calculate_directional_factor (init cfg) d)
    by reflexivity.
  unfold simulate_scenario.
  destruct (assess_pedestrian_comfort _ _) as [[lvl sc] descr].
  unfold bind, ret, datetime_now_isoformat.
  split; intros Hu.
  - destruct detailed.
    + unfold on_np_random.
      destruct (generate_wind_field _ _ _ _ _ _) as [pts s'].
      destruct (Req_dec_T _ 0) as [E | NE]; [reflexivity |].
      exfalso; apply NE; rewrite Hw, Hu; ring.
    + destruct (Req_dec_T _ 0) as [E | NE]; [reflexivity |].
      exfalso; apply NE; rewrite Hw, Hu; ring.
  - assert (Hn : min_wake_speed (calculate_urban_effects (init cfg) u d)
                 <> 0).
    { rewrite Hw. intros E.
      apply Rmult_integral in E. destruct E as [E | E]; [| lra].
      apply Rmult_integral in E.
      destruct E as [E | E]; [contradiction | lra]. }
    destruct detailed.
    + unfold on_np_random.
      destruct (generate_wind_field _ _ _ _ _ _) as [pts s'].
      destruct (Req_dec_T _ 0) as [E | NE]; [contradiction |].
      eexists; reflexivity.
    + destruct (Req_dec_T _ 0) as [E | NE]; [contradiction |].
      eexists; reflexivity.
Qed.

(** A second call, under any scenario name, differs from a first one in
    the echoed name and the time stamp only. *)
Lemma wind_simulate_two_calls (self : WindSimulator)
  (u d : R) (n1 n2 : string) (detailed : bool) (w1 w2 : World) :
  fst (simulate_scenario self u d n2 detailed w2)
  = exc_map
      (fun r => set_computation_time (clock w2) (set_scenario_name n2 r))
      (fst (simulate_scenario self u d n1 detailed w1)).
Proof.
  unfold simulate_scenario.
  destruct (assess_pedestrian_comfort _ _) as [[lvl sc] descr].
  unfold bind, ret, datetime_now_isoformat.
  destruct detailed.
  - unfold on_np_random.
    rewrite (wind_generator_reseeds self n2 n1 u d
               (calculate_urban_effects self u d)
               (np_random w2) (np_random w1)).
    destruct (generate_wind_field _ _ _ _ _ _) as [pts s'].
    destruct (Req_dec_T _ 0); reflexivity.
  - destruct (Req_dec_T _ 0); reflexivity.
Qed.
End WindFacts.

(** Claim C5.  On the code the claim fails at 350 degrees: that
    direction is 10 degrees from the north axis (360 = 4 * 90), yet the
    factor is 0.9, because the code measures plain differences to 0,
    90, 180 and 270 and never wraps around.  The two named directions
    behave as stated: 0 degrees gives 1.15 and 45 degrees gives 0.9. *)
Theorem directional_factor_misses_wraparound (self : WindSim.WindSimulator) :
  WindSim.near_axis 350 15 /\
  WindSim._calculate_directional_factor self 350 = 0.9%R /\
  WindSim._calculate_directional_factor self 0 = 1.15%R /\
  WindSim._calculate_directional_factor self 45 = 0.9%R.
Proof.
  split; [| split; [| split]].
  - exists 4%Z. rewrite Rabs_left by lra. lra.
  - apply directional_factor_north_west. lra.
  - unfold WindSim._calculate_directional_factor.
    rewrite min_angle_low by lra.
    rewrite Rabs_R0. r_cases; lra.
  - unfold WindSim._calculate_directional_factor.
    rewrite min_angle_low by lra.
    rewrite Rabs_pos_eq by lra. r_cases; lra.
Qed.

(** Claim C8, as stated, fails for a negative reference speed: at
    -5 m/s from the north the tunnel, wake and average urban speeds are
    negative. *)
Lemma wind_speeds_negative_counterexample :
  let ue :=
    WindSim.calculate_urban_effects (WindSim.init test_config) (-5) 0 in
  ~ (0 <= WindSim.max_tunnel_speed ue)%R /\
  ~ (0 <= WindSim.min_wake_speed ue)%R /\
  ~ (0 <= WindSim.avg_urban_speed ue)%R.
Proof.
  pose proof (directional_factor_pos (WindSim.init test_config) 0) as Hf.
  cbn [WindSim.calculate_urban_effects WindSim.max_tunnel_speed
       WindSim.min_wake_speed WindSim.avg_urban_speed WindSim.init
       WindSim.building_density WindSim.tunnel_amplification
       WindSim.wake_reduction].
  repeat split; intros H; nra.
Qed.

(** Claim C8, amended.  For every input the vertical-profile speed and
    the pedestrian speed are at least 0.  For every input whose
    reference speed is at least 0, the tunnel, wake and average urban
    speeds are at least 0 too, and so is the speed of every generated
    wind-field point and every speed a returning [simulate_scenario]
    reports. *)
Theorem wind_speeds_nonneg (rt : Runtime) (laws : RuntimeLaws rt)
  (cfg : Config) (wind_speed_ref direction : R) (name : string)
  (detailed : bool) (w : World) :
  let self := WindSim.init cfg in
  let ue := WindSim.calculate_urban_effects self wind_speed_ref direction in
  (forall height : R,
     0 <= WindSim.calculate_wind_profile self height wind_speed_ref
            None None)%R /\
  (0 <= WindSim.pedestrian_speed ue)%R /\
  ((0 <= wind_speed_ref)%R ->
   (0 <= WindSim.max_tunnel_speed ue)%R /\
   (0 <= WindSim.min_wake_speed ue)%R /\
   (0 <= WindSim.avg_urban_speed ue)%R /\
   (forall s : rng_state,
      Forall (fun p => 0 <= WindSim.speed p)%R
        (fst (WindSim.generate_wind_field self name wind_speed_ref
                direction ue s))) /\
   forall r : WindSim.Result,
     fst (WindSim.simulate_scenario self wind_speed_ref direction name
            detailed w) = inr r ->
     (0 <= WindSim.max_speed (WindSim.wind_field_analysis r))%R /\
     (0 <= WindSim.min_speed (WindSim.wind_field_analysis r))%R /\
     (0 <= WindSim.wfa_avg_urban_speed (WindSim.wind_field_analysis r))%R /\
     (0 <= WindSim.wfa_pedestrian_speed (WindSim.wind_field_analysis r))%R /\
     forall pts : list WindSim.WindPoint,
       WindSim.wind_field r = Some pts ->
       Forall (fun p => 0 <= WindSim.speed p)%R pts).
Proof.
  intros self ue.
  split; [intros h; apply wind_profile_nonneg |].
  split; [apply pedestrian_speed_nonneg |].
  intros Hu.
  destruct (urban_speeds_nonneg cfg wind_speed_ref direction Hu)
    as (Ht & Hw & Ha).
  split; [exact Ht |]. split; [exact Hw |]. split; [exact Ha |].
  split; [intros s; apply wind_field_speeds_nonneg; assumption |].
  intros r Hr.
  destruct (wind_simulate_result self wind_speed_ref direction name
              detailed w r Hr) as (E1 & E2 & E3 & E4 & E5).
  rewrite E1, E2, E3, E4.
  repeat (split; [apply PyR_round_nonneg; first
                    [assumption | apply pedestrian_speed_nonneg] |]).
  intros pts Hp. rewrite E5 in Hp.
  destruct detailed; [| discriminate Hp].
  injection Hp as <-. apply wind_field_speeds_nonneg; assumption.
Qed.

Lemma wind_speeds_nonneg_witness :
  let self := WindSim.init test_config in
  let ue := WindSim.calculate_urban_effects self 5 0 in
  RuntimeLaws lcg_runtime /\ (0 <= 5)%R /\
  (0 <= WindSim.pedestrian_speed ue)%R /\
  (0 <= WindSim.max_tunnel_speed ue)%R /\
  Forall (fun p => 0 <= WindSim.speed p)%R
    (fst (WindSim.generate_wind_field self "Test" 5 0 ue 0%Z)).
Proof.
  intros self ue.
  assert (H5 : (0 <= 5)%R) by lra.
  destruct (wind_speeds_nonneg lcg_runtime lcg_runtime_laws test_config
              5 0 "Test"%string true lcg_world) as (_ & A & B).
  destruct (B H5) as (C & _ & _ & D & _).
  exact (conj lcg_runtime_laws (conj H5 (conj A (conj C (D 0%Z))))).
Defined.

(** In exact arithmetic the profile is anchored: at the simulator's own
    reference height, with the default roughness length, it returns the
    reference speed itself whenever that speed is not negative. *)
Lemma wind_profile_reference_height (cfg : Config) (u_ref : R) :
  let self := WindSim.init cfg in
  (0 <= u_ref)%R ->
  WindSim.calculate_wind_profile self (WindSim.reference_height self)
    u_ref None None = u_ref.
Proof.
  intros self Hu. unfold WindSim.calculate_wind_profile.
  cbn [self WindSim.init WindSim.reference_height
       WindSim.surface_roughness].
  assert (Hc : PyR.leb 10.0 0.3 = false) by (r_cases; [lra | reflexivity]).
  rewrite Hc.
  assert (Hl : (0 < ln ((10.0 + 0.3) / 0.3))%R)
    by (apply ln_gt_1_pos; lra).
  replace (u_ref * ln ((10.0 + 0.3) / 0.3) / ln ((10.0 + 0.3) / 0.3))%R
    with u_ref by (field; lra).
  apply PyR_max_eq, Hu.
Qed.

(** Claim C10.  Two calls of the wind [simulate_scenario] with the same
    reference speed and direction but different scenario names give the
    same wind-field points and the same derived metrics: the second
    result is the first with the echoed name (and the time stamp)
    replaced, and the generator, seeded from direction and speed alone,
    returns the same points for both names from any generator state. *)
Theorem wind_scenario_name_only_echoed (rt : Runtime)
  (self : WindSim.WindSimulator) (wind_speed_ref direction : R)
  (name1 name2 : string) (detailed : bool) (w1 w2 : World) :
  fst (WindSim.simulate_scenario self wind_speed_ref direction name2
         detailed w2)
  = exc_map
      (fun r =>
         WindSim.set_computation_time (clock w2)
           (WindSim.set_scenario_name name2 r))
      (fst (WindSim.simulate_scenario self wind_speed_ref direction name1
              detailed w1)) /\
  exc_map WindSim.scenario_name
    (fst (WindSim.simulate_scenario self wind_speed_ref direction name1
            detailed w1))
  = exc_map (fun _ => name1)
      (fst (WindSim.simulate_scenario self wind_speed_ref direction name1
              detailed w1)) /\
  exc_map WindSim.wind_field
    (fst (WindSim.simulate_scenario self wind_speed_ref direction name1
            detailed w1))
  = exc_map WindSim.wind_field
      (fst (WindSim.simulate_scenario self wind_speed_ref direction name2
              detailed w2)) /\
  forall (ue : WindSim.UrbanEffects) (s1 s2 : rng_state),
    WindSim.generate_wind_field self name1 wind_speed_ref direction ue s1
    = WindSim.generate_wind_field self name2 wind_speed_ref direction ue s2.
Proof.
  pose proof (wind_simulate_two_calls self wind_speed_ref direction
                name1 name2 detailed w1 w2) as H12.
  pose proof (wind_simulate_two_calls self wind_speed_ref direction
                name1 name1 detailed w1 w1) as H11.
  split; [exact H12 |].
  split.
  - rewrite H11 at 1.
    destruct (fst (WindSim.simulate_scenario self wind_speed_ref direction
                     name1 detailed w1)); reflexivity.
  - split.
    + rewrite H12.
      destruct (fst (WindSim.simulate_scenario self wind_speed_ref
                       direction name1 detailed w1)); reflexivity.
    + intros ue s1 s2. apply wind_generator_reseeds.
Qed.

(** ** ThermalSim *)

Section ThermalFacts.
Import ThermalSim.
Local Open Scope R_scope.

(** The first pass of the loop reads [tcl_k] while it has no value. *)
Lemma pmv_iteration_first_pass (self : ThermalComfortSimulator)
  (ta ta_k tr_k va M W Icl fcl tcl0 : R) (hc0 : option R) :
  pmv_iteration self ta ta_k tr_k va M W Icl fcl
    {| tcl := tcl0; tcl_k := None; hc := hc0 |}
  = inl (UnboundLocalError "tcl_k").
Proof. reflexivity. Qed.

Lemma pmv_loop_fails (self : ThermalComfortSimulator)
  (ta ta_k tr_k va M W Icl fcl : R) (n : nat) :
  repeat_exc (S n) (pmv_iteration self ta ta_k tr_k va M W Icl fcl)
    {| tcl := ta; tcl_k := None; hc := None |}
  = inl (UnboundLocalError "tcl_k").
Proof.
  cbn [repeat_exc]. rewrite pmv_iteration_first_pass. reflexivity.
Qed.

(** The outcome of [calculate_pmv_detailed] on every input. *)
Lemma pmv_detailed_outcome (self : ThermalComfortSimulator)
  (ta tr va rh met clo : R) (pa : option R) :
  calculate_pmv_detailed self ta tr va rh met clo pa
  = (match pa with
     | Some _ => inl (UnboundLocalError "tcl_k")
     | None =>
         if Req_dec_T (ta + 237.3) 0 then inl ZeroDivisionError
         else inl (UnboundLocalError "tcl_k")
     end).
Proof.
  unfold calculate_pmv_detailed.
  destruct pa as [pa |].
  - cbn [ebind]. rewrite pmv_loop_fails. reflexivity.
  - destruct (Req_dec_T (ta + 237.3) 0).
    + reflexivity.
    + cbn [ebind]. rewrite pmv_loop_fails. reflexivity.
Qed.

Lemma ppd_exponent_nonpos (pmv : R) :
  -0.03353 * pmv ^ 4 - 0.2179 * pmv ^ 2 <= 0.
Proof.
  assert (0 <= pmv ^ 2) by (apply pow2_ge_0).
  assert (0 <= pmv ^ 4).
  { replace (pmv ^ 4) with ((pmv ^ 2) ^ 2) by ring. apply pow2_ge_0. }
  lra.
Qed.

Context {rt : Runtime}.

(** A second call differs from a first one in the time stamp only. *)
Lemma thermal_simulate_two_calls (self : ThermalComfortSimulator)
  (ta rh va solar : R) (name season : string) (detailed : bool)
  (w1 w2 : World) :
  fst (simulate_scenario self ta rh va solar name season detailed w2)
  = set_computation_time (clock w2)
      (fst (simulate_scenario self ta rh va solar name season detailed
              w1)).
Proof.
  unfold simulate_scenario.
  unfold bind, ret, datetime_now_isoformat.
  destruct detailed.
  - unfold on_np_random.
    match goal with
    | |- context [generate_comfort_points ?a ?b ?c ?d (np_random w2)] =>
        rewrite (thermal_generator_reseeds a b c d
                   (np_random w2) (np_random w1));
        destruct (generate_comfort_points a b c d (np_random w1))
          as [pts s']
    end.
    reflexivity.
  - reflexivity.
Qed.
End ThermalFacts.

(** Claim C6.  On the code the claim fails on every input: the detailed
    PMV computation never returns a value.  Its loop reads [tcl_k] on the
    first pass, one statement before the first assignment to it, so the
    call ends in UnboundLocalError (or, at an air temperature of
    -237.3 with no vapour pressure given, in ZeroDivisionError before
    the loop); for a summer day it is UnboundLocalError. *)
Theorem pmv_detailed_raises (self : ThermalSim.ThermalComfortSimulator) :
  (forall (ta tr va rh met clo : R) (pa : option R),
     exists e : PyError,
       ThermalSim.calculate_pmv_detailed self ta tr va rh met clo pa
       = inl e) /\
  ThermalSim.calculate_pmv_detailed self 25 25 0.1 50 1.2 0.7 None
  = inl (UnboundLocalError "tcl_k").
Proof.
  split.
  - intros ta tr va rh met clo pa. rewrite pmv_detailed_outcome.
    destruct pa as [pa |]; [eexists; reflexivity |].
    destruct (Req_dec_T (ta + 237.3) 0); eexists; reflexivity.
  - rewrite pmv_detailed_outcome.
    destruct (Req_dec_T (25 + 237.3) 0) as [E | NE];
      [lra | reflexivity].
Qed.

(** Claim C7.  For every PMV the PPD computation returns
    100 - 95 * exp(-0.03353 * PMV^4 - 0.2179 * PMV^2) clamped to the
    interval from 5 to 100; the clamp never changes the value, the
    result lies in that interval, and at PMV = 0 it is exactly 5. *)
Theorem ppd_formula_clamped (self : ThermalSim.ThermalComfortSimulator)
  (pmv : R) :
  let formula :=
    (100 - 95 * exp (-0.03353 * pmv ^ 4 - 0.2179 * pmv ^ 2))%R in
  ThermalSim.calculate_ppd_from_pmv self pmv
    = PyR.max 5 (PyR.min 100 formula) /\
  ThermalSim.calculate_ppd_from_pmv self pmv = formula /\
  (5 <= ThermalSim.calculate_ppd_from_pmv self pmv <= 100)%R /\
  ThermalSim.calculate_ppd_from_pmv self 0 = 5%R.
Proof.
  intros formula.
  pose proof (exp_nonpos_le_1 _ (ppd_exponent_nonpos pmv)) as [Hp Hl].
  assert (E : ThermalSim.calculate_ppd_from_pmv self pmv = formula).
  { unfold ThermalSim.calculate_ppd_from_pmv. fold formula.
    assert (5 <= formula < 100)%R by (unfold formula; lra).
    r_cases; lra. }
  split.
  { unfold ThermalSim.calculate_ppd_from_pmv. fold formula.
    replace 5.0%R with 5%R by lra. replace 100.0%R with 100%R by lra.
    reflexivity. }
  split; [exact E |].
  split; [rewrite E; unfold formula; lra |].
  unfold ThermalSim.calculate_ppd_from_pmv.
  replace (-0.03353 * 0 ^ 4 - 0.2179 * 0 ^ 2)%R with 0%R by ring.
  rewrite exp_0. r_cases; lra.
Qed.

(** ** Determinism *)

(** Within one interpreter process, whose hash salt is fixed, two calls
    of [simulate_scenario] on the same simulator and scenario input,
    scenario name included, agree in everything but the time stamp,
    whatever the generator state and the clock were before each call:
    the derived metrics are the same and so is the point collection,
    point by point.  This holds for the flood, the thermal and the wind
    simulator, and each point generator returns the same points from any
    generator state, because it seeds first. *)
Lemma simulate_scenario_deterministic (rt : Runtime) :
  (forall (self : FloodSim.FloodSimulator) (rainfall duration : Q)
          (name : string) (detailed : bool) (w1 w2 : World),
     fst (FloodSim.simulate_scenario self rainfall duration name
            detailed w2)
     = FloodSim.set_computation_time (clock w2)
         (fst (FloodSim.simulate_scenario self rainfall duration name
                 detailed w1))) /\
  (forall (self : ThermalSim.ThermalComfortSimulator)
          (ta rh va solar : R) (name season : string) (detailed : bool)
          (w1 w2 : World),
     fst (ThermalSim.simulate_scenario self ta rh va solar name season
            detailed w2)
     = ThermalSim.set_computation_time (clock w2)
         (fst (ThermalSim.simulate_scenario self ta rh va solar name
                 season detailed w1))) /\
  (forall (self : WindSim.WindSimulator) (wind_speed_ref direction : R)
          (name : string) (detailed : bool) (w1 w2 : World),
     fst (WindSim.simulate_scenario self wind_speed_ref direction name
            detailed w2)
     = exc_map (WindSim.set_computation_time (clock w2))
         (fst (WindSim.simulate_scenario self wind_speed_ref direction
                 name detailed w1))) /\
  (forall (self : FloodSim.FloodSimulator) (name : string)
          (max_depth flooded_area_pct : Q) (s1 s2 : rng_state),
     FloodSim.generate_flood_zones self name max_depth flooded_area_pct s1
     = FloodSim.generate_flood_zones self name max_depth flooded_area_pct
         s2) /\
  (forall (self : ThermalSim.ThermalComfortSimulator) (name : string)
          (zones : list (string * ThermalSim.ZoneComfort))
          (overall_comfort : R) (s1 s2 : rng_state),
     ThermalSim.generate_comfort_points self name zones overall_comfort s1
     = ThermalSim.generate_comfort_points self name zones overall_comfort
         s2) /\
  (forall (self : WindSim.WindSimulator) (name : string)
          (wind_speed_ref direction : R) (ue : WindSim.UrbanEffects)
          (s1 s2 : rng_state),
     WindSim.generate_wind_field self name wind_speed_ref direction ue s1
     = WindSim.generate_wind_field self name wind_speed_ref direction ue
         s2).
Proof.
  split; [intros; apply flood_simulate_two_calls |].
  split; [intros; apply thermal_simulate_two_calls |].
  split.
  { intros self u d name detailed w1 w2.
    rewrite (wind_simulate_two_calls self u d name name detailed w1 w2).
    pose proof (wind_simulate_two_calls self u d name name detailed w1 w1)
      as H11.
    destruct (fst (WindSim.simulate_scenario self u d name detailed w1))
      as [e | r]; [reflexivity |].
    cbn [exc_map] in *. injection H11 as H11.
    f_equal. rewrite H11 at 2. reflexivity. }
  split; [intros; apply flood_generator_reseeds |].
  split; [intros; apply thermal_generator_reseeds |].
  intros; apply wind_generator_reseeds.
Qed.

(** * Further properties of the simulators *)

(** ** Rounding and truncation, continued *)

Section RoundFacts.
Local Open Scope R_scope.

Lemma PyR_round_half_even_upper (x : R) :
  (PyR.round_half_even x <= Zfloor x + 1)%Z.
Proof.
  unfold PyR.round_half_even.
  destruct (PyR.ltb _ _); [lia |].
  destruct (PyR.ltb _ _); [lia |].
  destruct (Z.even _); lia.
Qed.

Lemma PyR_round_half_even_mono (x y : R) :
  x <= y -> (PyR.round_half_even x <= PyR.round_half_even y)%Z.
Proof.
  intros Hxy.
  pose proof (Zfloor_le _ _ Hxy) as Hf.
  destruct (Z.eq_dec (Zfloor x) (Zfloor y)) as [E | NE].
  - unfold PyR.round_half_even. rewrite <- E.
    r_cases; try destruct (Z.even (Zfloor x)); try lia; lra.
  - pose proof (PyR_round_half_even_upper x).
    pose proof (PyR_round_half_even_lower y). lia.
Qed.

Lemma PyR_round_half_even_IZR (k : Z) : PyR.round_half_even (IZR k) = k.
Proof.
  unfold PyR.round_half_even. rewrite ZfloorZ.
  r_cases; try reflexivity; lra.
Qed.

Lemma PyR_round_mono (x y : R) (n : nat) :
  x <= y -> PyR.round x n <= PyR.round y n.
Proof.
  intros Hxy. unfold PyR.round.
  pose proof (PyR_pow10_pos n) as Hp.
  apply Rmult_le_compat_r.
  - apply Rlt_le, Rinv_0_lt_compat, Hp.
  - apply IZR_le, PyR_round_half_even_mono. nra.
Qed.

(** A number with at most [n] decimals is its own rounding. *)
Lemma PyR_round_exact (x : R) (k : Z) (n : nat) :
  x * PyR.pow10 n = IZR k -> PyR.round x n = x.
Proof.
  intros E. unfold PyR.round. rewrite E, PyR_round_half_even_IZR.
  pose proof (PyR_pow10_pos n) as Hp.
  rewrite <- E. field. lra.
Qed.

Lemma PyR_round_between (a b x : R) (ka kb : Z) (n : nat) :
  a * PyR.pow10 n = IZR ka -> b * PyR.pow10 n = IZR kb ->
  a <= x <= b -> a <= PyR.round x n <= b.
Proof.
  intros Ea Eb [Ha Hb].
  pose proof (PyR_round_mono a x n Ha) as H1.
  pose proof (PyR_round_mono x b n Hb) as H2.
  rewrite (PyR_round_exact a ka n Ea) in H1.
  rewrite (PyR_round_exact b kb n Eb) in H2.
  split; assumption.
Qed.

Lemma PyR_pow10_values :
  PyR.pow10 0 = 1 /\ PyR.pow10 1 = 10 /\ PyR.pow10 2 = 100 /\
  PyR.pow10 3 = 1000.
Proof. repeat split; reflexivity. Qed.
End RoundFacts.

Section IntFacts.
Local Open Scope Q_scope.

Lemma PyQ_int_nonneg (x : Q) : 0 <= x -> (0 <= PyQ.int x)%Z.
Proof.
  intros H. unfold PyQ.int.
  apply Z.quot_pos; [| lia].
  unfold Qle in H. simpl in H. lia.
Qed.

(** Adding a non-negative amount to an integer never truncates below
    that integer. *)
Lemma PyQ_int_ge (n : Z) (x : Q) :
  inject_Z n <= x -> (0 <= n)%Z -> (n <= PyQ.int x)%Z.
Proof.
  intros H Hn. unfold PyQ.int.
  unfold Qle in H. simpl in H.
  apply Z.quot_le_lower_bound; lia.
Qed.
End IntFacts.

(** ** FloodSim, continued *)

Section FloodMore.
Import FloodSim.
Local Open Scope Q_scope.

Lemma flood_area_range (self : FloodSimulator) (t : Q) :
  0 <= snd (calculate_flood_depths self t) <= 100.
Proof.
  unfold calculate_flood_depths.
  q_cases; cbn [fst snd]; split; lra.
Qed.

Lemma risk_index_range (level : RiskLevel) : (0 <= risk_index level <= 4)%Z.
Proof. destruct level; cbn; lia. Qed.

Lemma assess_flood_risk_mono (self : FloodSimulator) (d1 d2 : Q) :
  d1 <= d2 ->
  (risk_index (assess_flood_risk self d1)
   <= risk_index (assess_flood_risk self d2))%Z.
Proof.
  intros H. unfold assess_flood_risk.
  q_cases; cbn; try lia; lra.
Qed.

Context {rt : Runtime}.

(** What [simulate_scenario] reports under ['impact_assessment'] and
    ['flood_zones']. *)
Lemma flood_simulate_impact (self : FloodSimulator) (r d : Q)
  (n : string) (det : bool) (w : World) :
  let res := fst (simulate_scenario self r d n det w) in
  let km2 := flooded_area_pct self r d / 100 * area_km2 self in
  let bi := calculate_building_impact self km2 in
  buildings_total (impact_assessment res) = total bi /\
  buildings_at_risk (impact_assessment res) = at_risk bi /\
  ia_affected_population (impact_assessment res)
    = affected_population bi /\
  economic_damage_pln (impact_assessment res)
    = calculate_economic_damage self (at_risk bi)
        (km2 * 1000000 * (max_depth self r d * 0.4)) /\
  evacuation_needed (impact_assessment res)
    = PyQ.ltb 0.5 (max_depth self r d) /\
  flood_zones res
    = (if det
       then Some (fst (generate_flood_zones self n (max_depth self r d)
                         (flooded_area_pct self r d) (np_random w)))
       else None).
Proof.
  unfold max_depth, flooded_area_pct, total_excess, simulate_scenario.
  destruct (calculate_effective_rainfall self r d) as [[e x] t].
  cbn [fst snd].
  destruct (calculate_flood_depths self t) as [md pct].
  unfold bind, ret, datetime_now_isoformat.
  destruct det.
  - unfold on_np_random.
    destruct (generate_flood_zones _ _ _ _ _) as [zs s']. cbn.
    repeat split; reflexivity.
  - cbn. repeat split; reflexivity.
Qed.
End FloodMore.

(** Property X1.  Whatever the rainfall and the duration, the maximal
    depth the simulator computes lies between 0 and 3 m and the flooded
    share of the area between 0 and 100 percent, and so do the rounded
    values a scenario reports as [max_depth_m] and
    [flooded_area_percent]. *)
Theorem flood_depth_and_area_bounds (rt : Runtime)
  (self : FloodSim.FloodSimulator) (rainfall duration : Q) (name : string)
  (detailed : bool) (w : World) :
  let m :=
    FloodSim.metrics
      (fst (FloodSim.simulate_scenario self rainfall duration name
              detailed w)) in
  (0 <= FloodSim.max_depth self rainfall duration <= 3)%Q /\
  (0 <= FloodSim.flooded_area_pct self rainfall duration <= 100)%Q /\
  (0 <= FloodSim.max_depth_m m <= 3)%Q /\
  (0 <= FloodSim.flooded_area_percent m <= 100)%Q.
Proof.
  intros m.
  pose proof (flood_depth_range self
                (FloodSim.total_excess self rainfall duration)) as [D0 D3].
  pose proof (flood_area_range self
                (FloodSim.total_excess self rainfall duration)) as [A0 A1].
  fold (FloodSim.max_depth self rainfall duration) in D0, D3.
  fold (FloodSim.flooded_area_pct self rainfall duration) in A0, A1.
  destruct (flood_simulate_metrics self rainfall duration name detailed w)
    as (Ed & Ep & _).
  fold m in Ed, Ep. rewrite Ed, Ep.
  pose proof (PyQ_round_mono _ _ 3 D0) as R0.
  pose proof (PyQ_round_mono _ _ 3 D3) as R3.
  pose proof (PyQ_round_mono _ _ 1 A0) as S0.
  pose proof (PyQ_round_mono _ _ 1 A1) as S1.
  assert (E0 : (PyQ.round 0 3 == 0)%Q) by (vm_compute; reflexivity).
  assert (E3 : (PyQ.round 3 3 == 3)%Q) by (vm_compute; reflexivity).
  assert (F0 : (PyQ.round 0 1 == 0)%Q) by (vm_compute; reflexivity).
  assert (F1 : (PyQ.round 100 1 == 100)%Q) by (vm_compute; reflexivity).
  rewrite E0 in R0. rewrite E3 in R3. rewrite F0 in S0. rewrite F1 in S1.
  repeat split; assumption.
Qed.

(** Property X2.  For a simulator built by the constructor and a fixed
    duration, more rainfall never lowers the reported risk score,
    whatever the scenario names, the detail flag and the worlds of the
    two calls; the score always lies between 1 and 5. *)
Theorem flood_risk_never_drops_with_rain (rt : Runtime) (cfg : Config)
  (r1 r2 duration : Q) (n1 n2 : string) (b1 b2 : bool) (w1 w2 : World) :
  let self := FloodSim.init cfg in
  let m1 :=
    FloodSim.metrics
      (fst (FloodSim.simulate_scenario self r1 duration n1 b1 w1)) in
  let m2 :=
    FloodSim.metrics
      (fst (FloodSim.simulate_scenario self r2 duration n2 b2 w2)) in
  (r1 <= r2)%Q ->
  (1 <= FloodSim.risk_score m1 <= FloodSim.risk_score m2)%Z /\
  (FloodSim.risk_score m2 <= 5)%Z.
Proof.
  intros self m1 m2 H. subst m1 m2 self.
  destruct (flood_simulate_metrics (FloodSim.init cfg) r1 duration n1 b1
              w1) as (_ & _ & L1 & S1).
  destruct (flood_simulate_metrics (FloodSim.init cfg) r2 duration n2 b2
              w2) as (_ & _ & L2 & S2).
  rewrite S1, S2, L1, L2.
  destruct (max_depth_mono_rainfall cfg r1 r2 duration H) as [Hd _].
  pose proof (assess_flood_risk_mono (FloodSim.init cfg) _ _ Hd).
  pose proof (risk_index_range
                (FloodSim.assess_flood_risk (FloodSim.init cfg)
                   (FloodSim.max_depth (FloodSim.init cfg) r1 duration))).
  pose proof (risk_index_range
                (FloodSim.assess_flood_risk (FloodSim.init cfg)
                   (FloodSim.max_depth (FloodSim.init cfg) r2 duration))).
  lia.
Qed.

Lemma flood_risk_never_drops_with_rain_witness :
  (65 <= 150)%Q /\
  (FloodSim.risk_score
     (FloodSim.metrics
        (fst (FloodSim.simulate_scenario (FloodSim.init test_config)
                65 1 "a" true lcg_world)))
   <= FloodSim.risk_score
        (FloodSim.metrics
           (fst (FloodSim.simulate_scenario (FloodSim.init test_config)
                   150 1 "b" false lcg_world))))%Z.
Proof.
  assert (H : (65 <= 150)%Q) by (unfold Qle; simpl; lia).
  destruct (flood_risk_never_drops_with_rain lcg_runtime test_config
              65 150 1 "a"%string "b"%string true false lcg_world
              lcg_world H) as [[_ A] _].
  exact (conj H A).
Defined.

(** Property X3.  A result that asks for evacuation has a risk score of
    at least 4, and a result of risk level KRYTYCZNE always asks for
    evacuation. *)
Theorem flood_evacuation_and_risk (rt : Runtime)
  (self : FloodSim.FloodSimulator) (rainfall duration : Q) (name : string)
  (detailed : bool) (w : World) :
  let res :=
    fst (FloodSim.simulate_scenario self rainfall duration name detailed
           w) in
  (FloodSim.evacuation_needed (FloodSim.impact_assessment res) = true ->
   (4 <= FloodSim.risk_score (FloodSim.metrics res))%Z) /\
  (FloodSim.risk_level (FloodSim.metrics res) = FloodSim.KRYTYCZNE ->
   FloodSim.evacuation_needed (FloodSim.impact_assessment res) = true).
Proof.
  intros res.
  destruct (flood_simulate_metrics self rainfall duration name detailed w)
    as (_ & _ & L & S).
  destruct (flood_simulate_impact self rainfall duration name detailed w)
    as (_ & _ & _ & _ & E & _).
  fold res in L, S, E. rewrite S, L, E. clear L S E res.
  generalize (FloodSim.max_depth self rainfall duration). intros md.
  unfold FloodSim.assess_flood_risk.
  split; intros H; q_cases; cbn [FloodSim.risk_index] in *;
    try lia; try reflexivity; try discriminate; lra.
Qed.

Lemma flood_evacuation_and_risk_witness :
  let res :=
    fst (FloodSim.simulate_scenario (FloodSim.init test_config) 150 1
           "Ekstremalna nawałnica" true lcg_world) in
  FloodSim.evacuation_needed (FloodSim.impact_assessment res) = true /\
  (4 <= FloodSim.risk_score (FloodSim.metrics res))%Z.
Proof.
  intros res.
  assert (E : FloodSim.evacuation_needed (FloodSim.impact_assessment res)
              = true).
  { destruct (flood_simulate_impact (FloodSim.init test_config) 150 1
                "Ekstremalna nawałnica" true lcg_world)
      as (_ & _ & _ & _ & E & _).
    fold res in E. rewrite E. vm_compute. reflexivity. }
  destruct (flood_evacuation_and_risk lcg_runtime
              (FloodSim.init test_config) 150 1
              "Ekstremalna nawałnica" true lcg_world) as [A _].
  exact (conj E (A E)).
Defined.

Section FloodImpact.
Import FloodSim.
Local Open Scope Q_scope.

Lemma flooded_km2_nonneg (self : FloodSimulator) (r d : Q) :
  0 <= area_km2 self ->
  0 <= flooded_area_pct self r d / 100 * area_km2 self.
Proof.
  intros Ha.
  pose proof (flood_area_range self (total_excess self r d)) as [A0 _].
  fold (flooded_area_pct self r d) in A0.
  unfold Qdiv. change (/ 100) with (1 # 100). nra.
Qed.
End FloodImpact.

(** Property X4.  When the configured area is not negative, the number
    of buildings at risk a scenario reports lies between 0 and the total
    number of buildings, the affected population is three times that
    number, and the damage in PLN is at least 50000 per building at
    risk. *)
Theorem flood_impact_counts (rt : Runtime) (cfg : Config)
  (rainfall duration : Q) (name : string) (detailed : bool) (w : World) :
  let ia :=
    FloodSim.impact_assessment
      (fst (FloodSim.simulate_scenario (FloodSim.init cfg) rainfall
              duration name detailed w)) in
  (0 <= Location.area_km2 (location cfg))%Q ->
  (0 <= FloodSim.buildings_at_risk ia <= FloodSim.buildings_total ia)%Z /\
  FloodSim.ia_affected_population ia
    = (FloodSim.buildings_at_risk ia * 3)%Z /\
  (FloodSim.buildings_at_risk ia * 50000
   <= FloodSim.economic_damage_pln ia)%Z.
Proof.
  intros ia Ha. subst ia.
  destruct (flood_simulate_impact (FloodSim.init cfg) rainfall duration
              name detailed w) as (Et & Er & Ep & Ed & _).
  rewrite Et, Er, Ep, Ed. clear Et Er Ep Ed.
  pose proof (flooded_km2_nonneg (FloodSim.init cfg) rainfall duration Ha)
    as Hk.
  pose proof (flood_depth_range (FloodSim.init cfg)
                (FloodSim.total_excess (FloodSim.init cfg) rainfall
                   duration)) as [D0 _].
  fold (FloodSim.max_depth (FloodSim.init cfg) rainfall duration) in D0.
  set (km2 := (FloodSim.flooded_area_pct (FloodSim.init cfg) rainfall
                 duration / 100
               * FloodSim.area_km2 (FloodSim.init cfg))%Q) in *.
  set (md := FloodSim.max_depth (FloodSim.init cfg) rainfall duration)
    in *.
  unfold FloodSim.calculate_building_impact.
  cbn [FloodSim.total FloodSim.at_risk FloodSim.affected_population].
  set (tb := PyQ.int (FloodSim.area_km2 (FloodSim.init cfg) * 350
                      * FloodSim.urban_coverage (FloodSim.init cfg))).
  set (fb := PyQ.int (km2 * 350 * 0.6)).
  assert (Htb : (0 <= tb)%Z).
  { apply PyQ_int_nonneg. cbn [FloodSim.init FloodSim.area_km2
      FloodSim.urban_coverage]. nra. }
  assert (Hfb : (0 <= fb)%Z) by (apply PyQ_int_nonneg; nra).
  split; [lia |]. split; [reflexivity |].
  unfold FloodSim.calculate_economic_damage.
  apply PyQ_int_ge; [| lia].
  rewrite inject_Z_mult.
  assert (0 <= km2 * 1000000 * (md * 0.4))%Q by nra.
  change (inject_Z 50000) with 50000%Q. lra.
Qed.

Lemma flood_impact_counts_witness :
  let ia :=
    FloodSim.impact_assessment
      (fst (FloodSim.simulate_scenario (FloodSim.init test_config) 65 2
              "Intensywny deszcz" true lcg_world)) in
  (0 <= Location.area_km2 (location test_config))%Q /\
  (0 <= FloodSim.buildings_at_risk ia <= FloodSim.buildings_total ia)%Z.
Proof.
  intros ia.
  assert (H : (0 <= Location.area_km2 (location test_config))%Q)
    by (unfold Qle; simpl; lia).
  destruct (flood_impact_counts lcg_runtime test_config 65 2
              "Intensywny deszcz" true lcg_world H) as [A _].
  exact (conj H A).
Defined.

Section LoopsMore.
Context {S A B : Type}.

(** What is read off each element when it depends on the index only. *)
Lemma for_range_map (f : A -> B) (g : Z -> B) (body : Z -> State S A) :
  (forall i s, f (fst (body i s)) = g i) ->
  forall n i s,
    map f (fst (for_range n i body s))
    = map (fun k => g (i + Z.of_nat k)%Z) (seq 0 n).
Proof.
  intros Hb. induction n as [| n IH]; intros i s.
  - reflexivity.
  - cbn [for_range]. unfold bind. specialize (Hb i s).
    destruct (body i s) as [x s1]. specialize (IH (i + 1)%Z s1).
    destruct (for_range n (i + 1) body s1) as [xs s2].
    cbn [fst ret map] in *. cbn [seq map].
    rewrite Hb, IH, <- seq_shift, map_map.
    f_equal; [f_equal; lia |].
    apply map_ext. intros k. f_equal. lia.
Qed.
End LoopsMore.

Section FloodZones.
Import FloodSim.
Context {rt : Runtime}.
Local Open Scope R_scope.

Lemma flood_zone_id (self : FloodSimulator) (md : Q) (i : Z)
  (s : rng_state) :
  zone_id (fst (flood_zone_at self md i s)) = (i + 1)%Z.
Proof.
  unfold flood_zone_at, bind, ret, np_random_normal,
    np_random_exponential, np_random_choice.
  destruct (rng_normal 0 0.008 s) as [a s1].
  destruct (rng_normal 0 0.012 s1) as [b s2].
  destruct (PyQ.ltb 0 md).
  - destruct (rng_exponential _ s2) as [e s3].
    destruct (rng_normal 0 2 s3) as [c s4].
    destruct (rng_choice _ s4) as [k s5]. reflexivity.
  - destruct (rng_normal 0 2 s2) as [c s4].
    destruct (rng_choice _ s4) as [k s5]. reflexivity.
Qed.

Lemma flood_zone_velocity (cfg : Config) (md : Q) (i : Z)
  (s : rng_state) :
  0 <= flow_velocity (fst (flood_zone_at (init cfg) md i s)) <= 5.
Proof.
  assert (Hq : Q2R (max_flow_velocity (init cfg)) = 5).
  { cbn [init max_flow_velocity]. lra. }
  assert (Hv : forall depth : R,
            0 <= (if PyR.ltb 0 depth
                  then PyR.min (sqrt depth * 1.5)
                         (Q2R (max_flow_velocity (init cfg)))
                  else 0) <= 5).
  { intros depth. rewrite Hq.
    pose proof (sqrt_pos depth). r_cases; lra. }
  assert (Hr : forall x : R, 0 <= x <= 5 -> 0 <= PyR.round x 2 <= 5).
  { intros x Hx. apply (PyR_round_between 0 5 x 0 500 2); try assumption.
    - destruct PyR_pow10_values as (_ & _ & E & _). rewrite E. lra.
    - destruct PyR_pow10_values as (_ & _ & E & _). rewrite E. lra. }
  unfold flood_zone_at, bind, ret, np_random_normal,
    np_random_exponential, np_random_choice.
  destruct (rng_normal 0 0.008 s) as [a s1].
  destruct (rng_normal 0 0.012 s1) as [b s2].
  destruct (PyQ.ltb 0 md).
  - destruct (rng_exponential _ s2) as [e s3].
    destruct (rng_normal 0 2 s3) as [c s4].
    destruct (rng_choice _ s4) as [k s5].
    cbn [fst flow_velocity]. apply Hr, Hv.
  - destruct (rng_normal 0 2 s2) as [c s4].
    destruct (rng_choice _ s4) as [k s5].
    cbn [fst flow_velocity]. apply Hr, Hv.
Qed.

(** Without flooding every point gets the floor depth of 0.02 m. *)
Lemma dry_flood_zone_depth (self : FloodSimulator) (i : Z)
  (s : rng_state) :
  depth_m (fst (flood_zone_at self 0%Q i s)) = 0.02.
Proof.
  assert (Hr : PyR.round 0.02 3 = 0.02).
  { apply (PyR_round_exact 0.02 20 3).
    destruct PyR_pow10_values as (_ & _ & _ & E). rewrite E. lra. }
  unfold flood_zone_at, bind, ret, np_random_normal,
    np_random_exponential, np_random_choice.
  destruct (rng_normal 0 0.008 s) as [a s1].
  destruct (rng_normal 0 0.012 s1) as [b s2].
  change (PyQ.ltb 0 0) with false. cbv beta iota.
  destruct (rng_normal 0 2 s2) as [c s4].
  destruct (rng_choice _ s4) as [k s5].
  cbn [fst depth_m]. exact Hr.
Qed.

Lemma flood_zone_count (self : FloodSimulator) (name : string)
  (md pct : Q) (s : rng_state) :
  List.length (fst (generate_flood_zones self name md pct s))
  = Z.to_nat (Z.max 5 (Z.min 50 (PyQ.int (pct * 0.8)))).
Proof.
  unfold generate_flood_zones, bind, np_random_seed.
  apply for_range_length.
Qed.
End FloodZones.

Lemma dry_scenario_depths (cfg : Config) (rainfall duration : Q) :
  (rainfall <= FloodSim.infiltration_rate (FloodSim.init cfg)
               + FloodSim.drainage_capacity (FloodSim.init cfg))%Q ->
  FloodSim.max_depth (FloodSim.init cfg) rainfall duration = 0%Q /\
  FloodSim.flooded_area_pct (FloodSim.init cfg) rainfall duration = 0%Q.
Proof.
  intros H.
  assert (Hd : FloodSim.calculate_flood_depths (FloodSim.init cfg)
                 (FloodSim.total_excess (FloodSim.init cfg) rainfall
                    duration) = (0%Q, 0%Q)).
  { apply flood_depths_nonpos. rewrite total_excess_eq.
    rewrite (excess_zero cfg rainfall duration H).
    cbn [FloodSim.init FloodSim.runoff_coefficient]. nra. }
  unfold FloodSim.max_depth, FloodSim.flooded_area_pct.
  rewrite Hd. split; reflexivity.
Qed.

(** Property X5.  For a simulator built by the constructor,
    [generate_flood_zones] returns between 5 and 50 points whatever its
    arguments; their zone ids are 1, 2, 3, ... in order, and every flow
    velocity lies between 0 and 5 m/s. *)
Theorem flood_zones_shape (rt : Runtime) (cfg : Config) (name : string)
  (max_depth flooded_area_pct : Q) (s : rng_state) :
  let zs :=
    fst (FloodSim.generate_flood_zones (FloodSim.init cfg) name max_depth
           flooded_area_pct s) in
  (5 <= List.length zs <= 50)%nat /\
  map FloodSim.zone_id zs
    = map (fun k => Z.of_nat k + 1)%Z (seq 0 (List.length zs)) /\
  Forall (fun z => 0 <= FloodSim.flow_velocity z <= 5)%R zs.
Proof.
  intros zs.
  pose proof (flood_zone_count (FloodSim.init cfg) name max_depth
                flooded_area_pct s) as Hn.
  fold zs in Hn.
  split; [rewrite Hn; lia |].
  split.
  - rewrite Hn. unfold zs, FloodSim.generate_flood_zones, bind,
      np_random_seed.
    rewrite (for_range_map FloodSim.zone_id (fun i => (i + 1)%Z)
               (FloodSim.flood_zone_at (FloodSim.init cfg) max_depth)
               (fun i s' => flood_zone_id (FloodSim.init cfg) max_depth
                              i s')).
    apply map_ext. intros k. lia.
  - unfold zs, FloodSim.generate_flood_zones, bind, np_random_seed.
    apply for_range_Forall. intros i s'. apply flood_zone_velocity.
Qed.

(** Property X6.  When the rainfall does not exceed infiltration plus
    drainage, a detailed result reports a maximal depth of 0 and yet
    carries exactly five flood points, each with the floor depth of
    0.02 m. *)
Theorem flood_zones_without_flood (rt : Runtime) (cfg : Config)
  (rainfall duration : Q) (name : string) (w : World) :
  let self := FloodSim.init cfg in
  let res :=
    fst (FloodSim.simulate_scenario self rainfall duration name true w) in
  (rainfall <= FloodSim.infiltration_rate self
               + FloodSim.drainage_capacity self)%Q ->
  (FloodSim.max_depth_m (FloodSim.metrics res) == 0)%Q /\
  exists zs : list FloodSim.FloodZone,
    FloodSim.flood_zones res = Some zs /\
    List.length zs = 5%nat /\
    Forall (fun z => FloodSim.depth_m z = 0.02%R) zs.
Proof.
  intros self res H. subst res self.
  destruct (dry_scenario_depths cfg rainfall duration H) as [Hm Hp].
  split.
  { destruct (flood_simulate_metrics (FloodSim.init cfg) rainfall duration
                name true w) as (Ed & _).
    rewrite Ed, Hm. vm_compute. reflexivity. }
  destruct (flood_simulate_impact (FloodSim.init cfg) rainfall duration
              name true w) as (_ & _ & _ & _ & _ & Ez).
  rewrite Hm, Hp in Ez.
  eexists. split; [exact Ez |].
  split.
  - rewrite flood_zone_count. reflexivity.
  - unfold FloodSim.generate_flood_zones, bind, np_random_seed.
    apply for_range_Forall. intros i s'. apply dry_flood_zone_depth.
Qed.

Lemma flood_zones_without_flood_witness :
  let self := FloodSim.init test_config in
  let res :=
    fst (FloodSim.simulate_scenario (rt := lcg_runtime) self 5 1 "Mzawka"
           true lcg_world) in
  (5 <= FloodSim.infiltration_rate self
        + FloodSim.drainage_capacity self)%Q /\
  (FloodSim.max_depth_m (FloodSim.metrics res) == 0)%Q /\
  exists zs : list FloodSim.FloodZone,
    FloodSim.flood_zones res = Some zs /\
    List.length zs = 5%nat /\
    Forall (fun z => FloodSim.depth_m z = 0.02%R) zs.
Proof.
  intros self res.
  assert (H : (5 <= FloodSim.infiltration_rate self
                    + FloodSim.drainage_capacity self)%Q)
    by (vm_compute; discriminate).
  exact (conj H (flood_zones_without_flood lcg_runtime test_config 5 1
                   "Mzawka"%string lcg_world H)).
Defined.

(** ** WindSim, continued *)

(** Property X7.  Every row of [calculate_comfort_zones_distribution]
    has four shares that are not negative and sum to 100; with a higher
    average urban speed the comfortable and acceptable shares together
    never grow and the dangerous share never shrinks. *)
Theorem comfort_zones_distribution_rows (self : WindSim.WindSimulator)
  (ue1 ue2 : WindSim.UrbanEffects) :
  let z1 := WindSim.calculate_comfort_zones_distribution self ue1 in
  let z2 := WindSim.calculate_comfort_zones_distribution self ue2 in
  (WindSim.komfortowo z1 + WindSim.akceptowalne z1
   + WindSim.niewlasciwe z1 + WindSim.niebezpieczne z1 = 100)%Z /\
  (0 <= WindSim.komfortowo z1)%Z /\ (0 <= WindSim.akceptowalne z1)%Z /\
  (0 <= WindSim.niewlasciwe z1)%Z /\ (0 <= WindSim.niebezpieczne z1)%Z /\
  ((WindSim.avg_urban_speed ue1 <= WindSim.avg_urban_speed ue2)%R ->
   (WindSim.komfortowo z2 + WindSim.akceptowalne z2
    <= WindSim.komfortowo z1 + WindSim.akceptowalne z1)%Z /\
   (WindSim.niebezpieczne z1 <= WindSim.niebezpieczne z2)%Z).
Proof.
  intros z1 z2. subst z1 z2.
  unfold WindSim.calculate_comfort_zones_distribution.
  generalize (WindSim.avg_urban_speed ue1) (WindSim.avg_urban_speed ue2).
  intros a1 a2.
  do 5 (split; [r_cases; cbn; lia |]).
  intros H.
  split; r_cases;
    cbn [WindSim.komfortowo WindSim.akceptowalne WindSim.niewlasciwe
         WindSim.niebezpieczne];
    first [lia | exfalso; lra].
Qed.

Lemma comfort_zones_distribution_rows_witness :
  let ue1 := WindSim.calculate_urban_effects (WindSim.init test_config) 3 0 in
  let ue2 := WindSim.calculate_urban_effects (WindSim.init test_config) 9 0 in
  let z1 :=
    WindSim.calculate_comfort_zones_distribution
      (WindSim.init test_config) ue1 in
  let z2 :=
    WindSim.calculate_comfort_zones_distribution
      (WindSim.init test_config) ue2 in
  (WindSim.avg_urban_speed ue1 <= WindSim.avg_urban_speed ue2)%R /\
  (WindSim.niebezpieczne z1 <= WindSim.niebezpieczne z2)%Z.
Proof.
  intros ue1 ue2 z1 z2.
  assert (H : (WindSim.avg_urban_speed ue1
               <= WindSim.avg_urban_speed ue2)%R).
  { pose proof (directional_factor_pos (WindSim.init test_config) 0).
    unfold ue1, ue2.
    cbn [WindSim.calculate_urban_effects WindSim.avg_urban_speed
         WindSim.init WindSim.building_density]. nra. }
  destruct (comfort_zones_distribution_rows (WindSim.init test_config)
              ue1 ue2) as (_ & _ & _ & _ & _ & A).
  exact (conj H (proj2 (A H))).
Defined.

Section WindComfort.
Import WindSim.
Local Open Scope R_scope.

(** The severity score of [assess_pedestrian_comfort]. *)
Lemma pedestrian_score_cases (self : WindSimulator) (v : R) :
  let sc := snd (fst (assess_pedestrian_comfort self v)) in
  (v < 4 /\ sc = 1%Z) \/ (4 <= v < 6 /\ sc = 2%Z) \/
  (6 <= v < 8 /\ sc = 3%Z) \/ (8 <= v < 12 /\ sc = 4%Z) \/
  (12 <= v /\ sc = 5%Z).
Proof.
  unfold assess_pedestrian_comfort.
  r_cases; cbn [fst snd]; intuition lra.
Qed.
End WindComfort.

(** Property X8.  The score of [assess_pedestrian_comfort] lies between
    1 and 5, is 1 exactly for speeds below 4 m/s (negative ones
    included) and 5 exactly from 12 m/s on, and never decreases when the
    speed grows. *)
Theorem pedestrian_comfort_score_bands (self : WindSim.WindSimulator)
  (v1 v2 : R) :
  let score v := snd (fst (WindSim.assess_pedestrian_comfort self v)) in
  (1 <= score v1 <= 5)%Z /\
  (score v1 = 1%Z <-> (v1 < 4)%R) /\
  (score v1 = 5%Z <-> (12 <= v1)%R) /\
  ((v1 <= v2)%R -> (score v1 <= score v2)%Z).
Proof.
  intros score. subst score. cbv beta.
  pose proof (pedestrian_score_cases self v1) as H1.
  pose proof (pedestrian_score_cases self v2) as H2.
  cbv zeta in H1, H2.
  generalize dependent (snd (fst (WindSim.assess_pedestrian_comfort self v1))).
  generalize dependent (snd (fst (WindSim.assess_pedestrian_comfort self v2))).
  intros s2 H2 s1 H1.
  destruct H1 as [[? ?] | [[? ?] | [[? ?] | [[? ?] | [? ?]]]]];
    destruct H2 as [[? ?] | [[? ?] | [[? ?] | [[? ?] | [? ?]]]]];
    subst;
    (split; [lia |]);
    (split; [split; intros; first [lia | lra | exfalso; lra] |]);
    (split; [split; intros; first [lia | lra | exfalso; lra] |]);
    intros; first [lia | exfalso; lra].
Qed.

Lemma pedestrian_comfort_score_bands_witness :
  (3.5 <= 9)%R /\
  (snd (fst (WindSim.assess_pedestrian_comfort
               (WindSim.init test_config) 3.5))
   <= snd (fst (WindSim.assess_pedestrian_comfort
                  (WindSim.init test_config) 9)))%Z.
Proof.
  assert (H : (3.5 <= 9)%R) by lra.
  destruct (pedestrian_comfort_score_bands (WindSim.init test_config)
              3.5 9) as (_ & _ & _ & A).
  exact (conj H (A H)).
Defined.

(** Property X9.  For a simulator built by the constructor,
    [calculate_wind_pressure] gives the same pressures for a speed and
    its negative; the dynamic and the windward pressure are not
    negative, the leeward, side and roof pressures are not positive, and
    the pressure difference is not negative. *)
Theorem wind_pressure_signs (cfg : Config) (v : R) :
  let p := WindSim.calculate_wind_pressure (WindSim.init cfg) v in
  WindSim.calculate_wind_pressure (WindSim.init cfg) (- v) = p /\
  (0 <= WindSim.dynamic_pressure_pa p)%R /\
  (0 <= WindSim.windward_pressure_pa p)%R /\
  (WindSim.leeward_pressure_pa p <= 0)%R /\
  (WindSim.side_pressure_pa p <= 0)%R /\
  (WindSim.roof_windward_pa p <= 0)%R /\
  (WindSim.roof_leeward_pa p <= 0)%R /\
  (0 <= WindSim.pressure_difference_pa p)%R.
Proof.
  intros p. subst p. unfold WindSim.calculate_wind_pressure.
  cbn [WindSim.init WindSim.air_density WindSim.dynamic_pressure_pa
       WindSim.windward_pressure_pa WindSim.leeward_pressure_pa
       WindSim.side_pressure_pa WindSim.roof_windward_pa
       WindSim.roof_leeward_pa WindSim.pressure_difference_pa].
  assert (Hs : ((- v) ^ 2 = v ^ 2)%R) by ring.
  assert (H2 : (0 <= v ^ 2)%R) by apply pow2_ge_0.
  rewrite Hs.
  repeat split; try nra.
Qed.

Section WindProfile.
Import WindSim.
Local Open Scope R_scope.

Lemma PyR_leb_true (a b : R) : a <= b -> PyR.leb a b = true.
Proof.
  intros H. unfold PyR.leb. destruct (Rle_dec a b); [reflexivity | lra].
Qed.

Lemma PyR_leb_false (a b : R) : b < a -> PyR.leb a b = false.
Proof.
  intros H. unfold PyR.leb. destruct (Rle_dec a b); [lra | reflexivity].
Qed.

Lemma ln_mono (x y : R) : 0 < x -> x <= y -> ln x <= ln y.
Proof.
  intros Hx [H | H].
  - left. apply ln_increasing; assumption.
  - subst. right. reflexivity.
Qed.

(** The profile above the roughness length, without the guard. *)
Lemma wind_profile_above (cfg : Config) (h u : R) :
  0.3 < h ->
  calculate_wind_profile (init cfg) h u None None
  = PyR.max 0 (u * ln ((h + 0.3) / 0.3) / ln ((10.0 + 0.3) / 0.3)).
Proof.
  intros H. unfold calculate_wind_profile.
  cbn [init reference_height surface_roughness].
  rewrite (PyR_leb_false h 0.3 H). reflexivity.
Qed.

(** At or below the roughness length the guard moves the height to
    0.1 m above it. *)
Lemma wind_profile_below (cfg : Config) (h u : R) :
  h <= 0.3 ->
  calculate_wind_profile (init cfg) h u None None
  = calculate_wind_profile (init cfg) 0.4 u None None.
Proof.
  intros H. unfold calculate_wind_profile.
  cbn [init reference_height surface_roughness].
  rewrite (PyR_leb_true h 0.3 H).
  rewrite (PyR_leb_false 0.4 0.3) by lra.
  replace (0.3 + 0.1) with 0.4 by lra. reflexivity.
Qed.

Lemma wind_profile_above_mono (cfg : Config) (h1 h2 u : R) :
  0 <= u -> 0.3 < h1 <= h2 ->
  calculate_wind_profile (init cfg) h1 u None None
  <= calculate_wind_profile (init cfg) h2 u None None.
Proof.
  intros Hu [H1 H2].
  rewrite !wind_profile_above by lra.
  assert (Hl : 0 < ln ((10.0 + 0.3) / 0.3)) by (apply ln_gt_1_pos; lra).
  assert (Hm : ln ((h1 + 0.3) / 0.3) <= ln ((h2 + 0.3) / 0.3))
    by (apply ln_mono; lra).
  assert (H0 : 0 < ln ((h1 + 0.3) / 0.3)) by (apply ln_gt_1_pos; lra).
  assert (Hq : u * ln ((h1 + 0.3) / 0.3) / ln ((10.0 + 0.3) / 0.3)
               <= u * ln ((h2 + 0.3) / 0.3) / ln ((10.0 + 0.3) / 0.3)).
  { apply Rmult_le_compat_r; [left; apply Rinv_0_lt_compat, Hl | nra]. }
  r_cases; lra.
Qed.
End WindProfile.

(** Property X10.  For a simulator built by the constructor and the
    default reference height and roughness, every height at or below
    the roughness length of 0.3 m gets the profile value of 0.4 m; above
    0.3 m the profile does not decrease with height when the reference
    speed is not negative; and for a positive reference speed a height
    strictly between 0.3 m and 0.4 m gets a strictly smaller speed than
    the height 0.3 m itself: the guard makes the profile jump
    downwards. *)
Theorem wind_profile_heights (cfg : Config) (h1 h2 u_ref : R) :
  let profile h :=
    WindSim.calculate_wind_profile (WindSim.init cfg) h u_ref None None in
  ((h1 <= 0.3)%R -> profile h1 = profile 0.4%R) /\
  ((0 <= u_ref)%R -> (0.3 < h1 <= h2)%R -> (profile h1 <= profile h2)%R) /\
  ((0 < u_ref)%R -> (0.3 < h1 < 0.4)%R -> (profile h1 < profile 0.3%R)%R).
Proof.
  intros profile. subst profile. cbv beta.
  split; [apply wind_profile_below |].
  split; [apply wind_profile_above_mono |].
  intros Hu [H1 H2].
  rewrite (wind_profile_below cfg 0.3 u_ref) by lra.
  rewrite !wind_profile_above by lra.
  assert (Hl : (0 < ln ((10.0 + 0.3) / 0.3))%R)
    by (apply ln_gt_1_pos; lra).
  assert (Ha : (0 < ln ((h1 + 0.3) / 0.3))%R) by (apply ln_gt_1_pos; lra).
  assert (Hm : (ln ((h1 + 0.3) / 0.3) < ln ((0.4 + 0.3) / 0.3))%R)
    by (apply ln_increasing; lra).
  assert (Hi : (0 < / ln ((10.0 + 0.3) / 0.3))%R)
    by (apply Rinv_0_lt_compat, Hl).
  assert (Hq : (u_ref * ln ((h1 + 0.3) / 0.3) / ln ((10.0 + 0.3) / 0.3)
                < u_ref * ln ((0.4 + 0.3) / 0.3)
                  / ln ((10.0 + 0.3) / 0.3))%R).
  { apply Rmult_lt_compat_r; [exact Hi | nra]. }
  assert (Hp : (0 < u_ref * ln ((h1 + 0.3) / 0.3)
                    / ln ((10.0 + 0.3) / 0.3))%R).
  { apply Rmult_lt_0_compat; [nra | exact Hi]. }
  r_cases; lra.
Qed.

Lemma wind_profile_heights_witness :
  let profile h :=
    WindSim.calculate_wind_profile (WindSim.init test_config) h 5 None
      None in
  (0.2 <= 0.3)%R /\ (0 <= 5)%R /\ (0.3 < 1.5 <= 10)%R /\ (0 < 5)%R /\
  (0.3 < 0.35 < 0.4)%R /\
  profile 0.2%R = profile 0.4%R /\
  (profile 1.5 <= profile 10)%R /\
  (profile 0.35 < profile 0.3)%R.
Proof.
  intros profile.
  assert (H1 : (0.2 <= 0.3)%R) by lra.
  assert (H2 : (0 <= 5)%R) by lra.
  assert (H3 : (0.3 < 1.5 <= 10)%R) by lra.
  assert (H4 : (0 < 5)%R) by lra.
  assert (H5 : (0.3 < 0.35 < 0.4)%R) by lra.
  destruct (wind_profile_heights test_config 0.2 10 5) as (A & _ & _).
  destruct (wind_profile_heights test_config 1.5 10 5) as (_ & B & _).
  destruct (wind_profile_heights test_config 0.35 10 5) as (_ & _ & C).
  exact (conj H1 (conj H2 (conj H3 (conj H4 (conj H5
           (conj (A H1) (conj (B H2 H3) (C H4 H5)))))))).
Defined.

Section WindOrdering.
Import WindSim.
Local Open Scope R_scope.

(** The logarithm ratio of pedestrian to reference height stays below
    the wake factor 0.7: 6^10 <= 34^7 and 34 <= 10.3 / 0.3. *)
Lemma pedestrian_log_ratio :
  ln ((1.5 + 0.3) / 0.3) <= 0.7 * ln ((10.0 + 0.3) / 0.3).
Proof.
  assert (E6 : (1.5 + 0.3) / 0.3 = 6) by lra.
  rewrite E6.
  assert (H34 : ln 34 <= ln ((10.0 + 0.3) / 0.3)) by (apply ln_mono; lra).
  assert (Hp : ln (6 ^ 10) <= ln (34 ^ 7)).
  { apply ln_mono.
    - apply pow_lt. lra.
    - simpl. lra. }
  rewrite !ln_pow in Hp by lra.
  simpl INR in Hp. lra.
Qed.
End WindOrdering.

(** Property X11.  For a simulator built by the constructor and a
    reference speed that is not negative the urban speeds are ordered in
    every direction: pedestrian speed <= wake speed <= average urban
    speed <= tunnel speed. *)
Theorem urban_speed_ordering (cfg : Config) (wind_speed_ref direction : R) :
  let ue :=
    WindSim.calculate_urban_effects (WindSim.init cfg) wind_speed_ref
      direction in
  (0 <= wind_speed_ref)%R ->
  (WindSim.pedestrian_speed ue <= WindSim.min_wake_speed ue)%R /\
  (WindSim.min_wake_speed ue <= WindSim.avg_urban_speed ue)%R /\
  (WindSim.avg_urban_speed ue <= WindSim.max_tunnel_speed ue)%R.
Proof.
  intros ue Hu. subst ue.
  pose proof (directional_factor_pos (WindSim.init cfg) direction) as Hf.
  cbn [WindSim.calculate_urban_effects WindSim.pedestrian_speed
       WindSim.min_wake_speed WindSim.avg_urban_speed
       WindSim.max_tunnel_speed].
  set (df := WindSim._calculate_directional_factor (WindSim.init cfg)
               direction) in *.
  cbn [WindSim.init WindSim.building_density WindSim.tunnel_amplification
       WindSim.wake_reduction WindSim.pedestrian_height].
  split; [| split; nra].
  rewrite wind_profile_above by lra.
  assert (Hl : (0 < ln ((10.0 + 0.3) / 0.3))%R)
    by (apply ln_gt_1_pos; lra).
  pose proof pedestrian_log_ratio as Hr.
  assert (Hq : (wind_speed_ref * ln ((1.5 + 0.3) / 0.3)
                / ln ((10.0 + 0.3) / 0.3)
                <= wind_speed_ref * 0.7)%R).
  { apply (Rmult_le_reg_r (ln ((10.0 + 0.3) / 0.3))); [exact Hl |].
    replace (wind_speed_ref * ln ((1.5 + 0.3) / 0.3)
             / ln ((10.0 + 0.3) / 0.3) * ln ((10.0 + 0.3) / 0.3))%R
      with (wind_speed_ref * ln ((1.5 + 0.3) / 0.3))%R by (field; lra).
    nra. }
  assert (Hm : (PyR.max 0 (wind_speed_ref * ln ((1.5 + 0.3) / 0.3)
                           / ln ((10.0 + 0.3) / 0.3))
                <= wind_speed_ref * 0.7)%R)
    by (r_cases; lra).
  nra.
Qed.

Lemma urban_speed_ordering_witness :
  let ue :=
    WindSim.calculate_urban_effects (WindSim.init test_config) 5 0 in
  (0 <= 5)%R /\
  (WindSim.pedestrian_speed ue <= WindSim.min_wake_speed ue)%R /\
  (WindSim.min_wake_speed ue <= WindSim.avg_urban_speed ue)%R /\
  (WindSim.avg_urban_speed ue <= WindSim.max_tunnel_speed ue)%R.
Proof.
  intros ue.
  assert (H : (0 <= 5)%R) by lra.
  exact (conj H (urban_speed_ordering test_config 5 0 H)).
Defined.

Section WindResult.
Import WindSim.
Context {rt : Runtime}.
Local Open Scope R_scope.

(** More of what a call that returns reports. *)
Lemma wind_simulate_variation (self : WindSimulator) (u d : R)
  (name : string) (detailed : bool) (w : World) (r : Result) :
  fst (simulate_scenario self u d name detailed w) = inr r ->
  let ue := calculate_urban_effects self u d in
  min_wake_speed ue <> 0 /\
  speed_variation_factor (wind_field_analysis r)
    = PyR.round (max_tunnel_speed ue / min_wake_speed ue) 2 /\
  visualization r
    = (if detailed
       then Some {| v_center_lat := center_lat self;
                    v_center_lng := center_lng self;
                    zoom_level := 14;
                    vector_scale := 10;
                    color_scale := "Viridis";
                    particle_count :=
                      Z.of_nat
                        (List.length
                           (fst (generate_wind_field self name u d ue
                                   (np_random w)))) |}
       else None).
Proof.
  unfold simulate_scenario.
  destruct (assess_pedestrian_comfort _ _) as [[lvl sc] descr].
  unfold bind, ret, datetime_now_isoformat.
  destruct detailed.
  - unfold on_np_random.
    destruct (generate_wind_field _ _ _ _ _ _) as [pts s'].
    destruct (Req_dec_T _ 0) as [E | NE]; intros H; inversion H; subst r.
    cbn. repeat split; try reflexivity. exact NE.
  - destruct (Req_dec_T _ 0) as [E | NE]; intros H; inversion H; subst r.
    cbn. repeat split; try reflexivity. exact NE.
Qed.

Lemma round_12_7 : PyR.round (12 / 7) 2 = 1.71.
Proof.
  unfold PyR.round.
  destruct PyR_pow10_values as (_ & _ & E & _). rewrite E.
  assert (F : Zfloor (12 / 7 * 100) = 171%Z) by (apply Zfloor_eq; lra).
  unfold PyR.round_half_even. rewrite F.
  assert (G : PyR.ltb (12 / 7 * 100 - 171) (1 / 2) = true).
  { unfold PyR.ltb. destruct (Rlt_dec _ _); [reflexivity | lra]. }
  rewrite G. lra.
Qed.

Lemma fmod_360_range (x : R) : 0 <= PyR.fmod x 360 < 360.
Proof.
  unfold PyR.fmod.
  pose proof (Zfloor_bound (x / 360)) as [H1 H2]. lra.
Qed.

Lemma PyR_int_IZR (k : Z) : PyR.int (IZR k) = k.
Proof.
  unfold PyR.int, PyR.ltb.
  destruct (Rlt_dec (IZR k) 0).
  - rewrite <- opp_IZR, ZfloorZ. lia.
  - apply ZfloorZ.
Qed.
End WindResult.

(** Property X12.  Whenever a wind scenario of a simulator built by the
    constructor returns a result, its [speed_variation_factor] is 1.71,
    whatever the speed, the direction and the scenario name: the ratio
    of tunnel to wake speed does not depend on the input. *)
Theorem speed_variation_factor_constant (rt : Runtime) (cfg : Config)
  (wind_speed_ref direction : R) (name : string) (detailed : bool)
  (w : World) (r : WindSim.Result) :
  fst (WindSim.simulate_scenario (WindSim.init cfg) wind_speed_ref
         direction name detailed w) = inr r ->
  WindSim.speed_variation_factor (WindSim.wind_field_analysis r)
  = 1.71%R.
Proof.
  intros H.
  destruct (wind_simulate_variation (WindSim.init cfg) wind_speed_ref
              direction name detailed w r H) as (Hn & E & _).
  rewrite E. rewrite <- round_12_7. f_equal.
  pose proof (directional_factor_pos (WindSim.init cfg) direction) as Hf.
  revert Hn.
  cbn [WindSim.calculate_urban_effects WindSim.max_tunnel_speed
       WindSim.min_wake_speed WindSim.init WindSim.building_density
       WindSim.tunnel_amplification WindSim.wake_reduction].
  set (df := WindSim._calculate_directional_factor (WindSim.init cfg)
               direction) in *.
  intros Hn.
  set (b := (wind_speed_ref * (1 - 0.3) * df)%R) in *.
  replace (wind_speed_ref * (1.0 + 0.25 * 0.8) * df)%R
    with (12 / 7 * b)%R by (unfold b; nra).
  unfold Rdiv. rewrite (Rmult_assoc _ b), Rinv_r by exact Hn. lra.
Qed.

Lemma speed_variation_factor_constant_witness :
  exists r : WindSim.Result,
    fst (WindSim.simulate_scenario (WindSim.init test_config) 5 0 "Test"
           true lcg_world) = inr r /\
    WindSim.speed_variation_factor (WindSim.wind_field_analysis r)
    = 1.71%R.
Proof.
  assert (H5 : (5 <> 0)%R) by lra.
  destruct (wind_simulate_outcome test_config 5 0 "Test"%string true
              lcg_world) as [_ A].
  destruct (A H5) as [r Hr].
  exists r.
  exact (conj Hr (speed_variation_factor_constant lcg_runtime test_config
                    5 0 "Test"%string true lcg_world r Hr)).
Defined.

Section LoopsRel.
Context {S A B : Type}.

(** Two loop bodies that agree on what [f] reads and on the state they
    leave give loops that agree on what [f] reads. *)
Lemma for_range_agree (f : A -> B) (b1 b2 : Z -> State S A) :
  (forall i s, f (fst (b1 i s)) = f (fst (b2 i s))
               /\ snd (b1 i s) = snd (b2 i s)) ->
  forall n i s,
    map f (fst (for_range n i b1 s)) = map f (fst (for_range n i b2 s)).
Proof.
  intros Hb. induction n as [| n IH]; intros i s.
  - reflexivity.
  - cbn [for_range]. unfold bind.
    destruct (Hb i s) as [Hf Hs].
    destruct (b1 i s) as [x1 t1]. destruct (b2 i s) as [x2 t2].
    cbn [fst snd] in Hf, Hs. subst t2.
    specialize (IH (i + 1)%Z t1).
    destruct (for_range n (i + 1) b1 t1) as [xs1 u1].
    destruct (for_range n (i + 1) b2 t1) as [xs2 u2].
    cbn [fst ret map] in *. rewrite Hf, IH. reflexivity.
Qed.
End LoopsRel.

Section WindField.
Import WindSim.
Context {rt : Runtime}.
Local Open Scope R_scope.

(** Where a point lies and in which surroundings does not depend on the
    wind, and neither does the generator state the point leaves. *)
Lemma wind_point_placement (self : WindSimulator) (d1 d2 : R)
  (ue1 ue2 : UrbanEffects) (i : Z) (s : rng_state) :
  (fun p => (lat p, lng p, environment_type p, height_agl p,
             turbulence_intensity p, gust_factor p))
    (fst (wind_point_at self d1 ue1 i s))
  = (fun p => (lat p, lng p, environment_type p, height_agl p,
               turbulence_intensity p, gust_factor p))
      (fst (wind_point_at self d2 ue2 i s))
  /\ snd (wind_point_at self d1 ue1 i s)
     = snd (wind_point_at self d2 ue2 i s).
Proof.
  unfold wind_point_at, bind, ret, np_random_normal, np_random_uniform,
    np_random_choice.
  destruct (rng_normal 0 0.008 s) as [dlat s1].
  destruct (rng_normal 0 0.012 s1) as [dlng s2].
  destruct (rng_uniform 0.6 1.4 s2) as [sv s3].
  destruct (rng_choice _ s3) as [k s4].
  set (env := nth k _ _).
  destruct (String.eqb env "tunnel");
    [| destruct (String.eqb env "wake");
       [| destruct (String.eqb env "green");
          [| destruct (String.eqb env "intersection")]]];
    cbn [orb];
    destruct (rng_normal 0 25 s4) as [dev s5];
    destruct (rng_uniform 1.0 20.0 s5) as [hh s6];
    cbv beta iota zeta
      delta [fst snd lat lng environment_type height_agl
             turbulence_intensity gust_factor];
    split; reflexivity.
Qed.

Lemma wind_point_ranges (laws : RuntimeLaws rt) (self : WindSimulator)
  (d : R) (ue : UrbanEffects) (i : Z) (s : rng_state) :
  let p := fst (wind_point_at self d ue i s) in
  0 <= direction p <= 360 /\ 1 <= height_agl p <= 20 /\
  0.1 <= turbulence_intensity p <= 0.25.
Proof.
  destruct PyR_pow10_values as (_ & P1 & _ & P3).
  assert (Hd : forall x : R, 0 <= PyR.round (PyR.fmod x 360) 1 <= 360).
  { intros x. apply (PyR_round_between 0 360 _ 0 3600 1).
    - rewrite P1. lra.
    - rewrite P1. lra.
    - pose proof (fmod_360_range x). lra. }
  assert (Hh : forall x : R, 1.0 <= x <= 20.0 ->
                             1 <= PyR.round x 1 <= 20).
  { intros x Hx. apply (PyR_round_between 1 20 x 10 200 1).
    - rewrite P1. lra.
    - rewrite P1. lra.
    - lra. }
  assert (Ht : forall x : R, 0.1 <= x <= 0.25 ->
                             0.1 <= PyR.round x 3 <= 0.25).
  { intros x Hx. apply (PyR_round_between 0.1 0.25 x 100 250 3).
    - rewrite P3. lra.
    - rewrite P3. lra.
    - exact Hx. }
  unfold wind_point_at, bind, ret, np_random_normal, np_random_uniform,
    np_random_choice.
  destruct (rng_normal 0 0.008 s) as [dlat s1].
  destruct (rng_normal 0 0.012 s1) as [dlng s2].
  destruct (rng_uniform 0.6 1.4 s2) as [sv s3].
  destruct (rng_choice _ s3) as [k s4].
  set (env := nth k _ _).
  destruct (String.eqb env "tunnel");
    [| destruct (String.eqb env "wake");
       [| destruct (String.eqb env "green");
          [| destruct (String.eqb env "intersection")]]];
    cbn [orb];
    destruct (rng_normal 0 25 s4) as [dev s5];
    (assert (Hr : 1.0 <= 20.0) by lra);
    pose proof (uniform_range 1.0 20.0 s5 Hr) as Hv;
    destruct (rng_uniform 1.0 20.0 s5) as [hh s6];
    cbn [fst] in Hv;
    cbn [fst direction height_agl turbulence_intensity];
    (split; [apply Hd | split; [apply Hh; exact Hv | apply Ht; lra]]).
Qed.

Lemma wind_field_count (self : WindSimulator) (name : string)
  (u d : R) (ue : UrbanEffects) (s : rng_state) :
  List.length (fst (generate_wind_field self name u d ue s))
  = Z.to_nat (Z.min 100 (Z.max 20 (PyR.int (u * 5)))).
Proof.
  unfold generate_wind_field, bind, np_random_seed.
  apply for_range_length.
Qed.
End WindField.

(** Property X13.  When the samplers stay in the support of their
    distributions, [generate_wind_field] returns between 20 and 100
    points, each with a direction between 0 and 360 degrees, a height
    between 1 and 20 m and a turbulence intensity between 0.1 and
    0.25. *)
Theorem wind_field_shape (rt : Runtime) (laws : RuntimeLaws rt)
  (self : WindSim.WindSimulator) (name : string)
  (wind_speed_ref direction : R) (ue : WindSim.UrbanEffects)
  (s : rng_state) :
  let pts :=
    fst (WindSim.generate_wind_field self name wind_speed_ref direction
           ue s) in
  (20 <= List.length pts <= 100)%nat /\
  Forall
    (fun p =>
       (0 <= WindSim.direction p <= 360)%R /\
       (1 <= WindSim.height_agl p <= 20)%R /\
       (0.1 <= WindSim.turbulence_intensity p <= 0.25)%R) pts.
Proof.
  intros pts. subst pts.
  split.
  - rewrite wind_field_count. lia.
  - unfold WindSim.generate_wind_field, bind, np_random_seed.
    apply for_range_Forall. intros i s'.
    apply (wind_point_ranges laws).
Qed.

Lemma wind_field_shape_witness :
  RuntimeLaws lcg_runtime /\
  (20 <= List.length
           (fst (WindSim.generate_wind_field (WindSim.init test_config)
                   "Test" 5 0
                   (WindSim.calculate_urban_effects
                      (WindSim.init test_config) 5 0) 0%Z)) <= 100)%nat.
Proof.
  destruct (wind_field_shape lcg_runtime lcg_runtime_laws
              (WindSim.init test_config) "Test"%string 5 0
              (WindSim.calculate_urban_effects (WindSim.init test_config)
                 5 0) 0%Z) as [A _].
  exact (conj lcg_runtime_laws A).
Defined.

(** Property X14.  Two wind fields whose seeds and point counts agree
    consist of the same places: latitude, longitude, environment type,
    height, turbulence intensity and gust factor agree point by point,
    whatever the two speeds, directions, urban effects and scenario
    names are.  Only speed, direction and the vector components can
    differ. *)
Theorem wind_field_placement_shared (rt : Runtime)
  (self : WindSim.WindSimulator) (name1 name2 : string)
  (speed1 speed2 direction1 direction2 : R)
  (ue1 ue2 : WindSim.UrbanEffects) (s1 s2 : rng_state) :
  let seed d v := (Z.abs (PyR.int d + PyR.int (v * 10)) mod 2 ^ 31)%Z in
  let count v := Z.min 100 (Z.max 20 (PyR.int (v * 5))) in
  let place p :=
    (WindSim.lat p, WindSim.lng p, WindSim.environment_type p,
     WindSim.height_agl p, WindSim.turbulence_intensity p,
     WindSim.gust_factor p) in
  seed direction1 speed1 = seed direction2 speed2 ->
  count speed1 = count speed2 ->
  map place
    (fst (WindSim.generate_wind_field self name1 speed1 direction1 ue1 s1))
  = map place
      (fst (WindSim.generate_wind_field self name2 speed2 direction2 ue2
              s2)).
Proof.
  intros seed count place Hs Hc. subst seed count. cbv beta in Hs, Hc.
  unfold WindSim.generate_wind_field, bind, np_random_seed.
  rewrite Hs, Hc.
  apply (for_range_agree place). intros i s.
  apply (wind_point_placement self direction1 direction2 ue1 ue2 i s).
Qed.

Lemma wind_field_placement_shared_witness :
  let self := WindSim.init test_config in
  ((Z.abs (PyR.int 10 + PyR.int (2 * 10)) mod 2 ^ 31)%Z
   = (Z.abs (PyR.int 20 + PyR.int (1 * 10)) mod 2 ^ 31)%Z) /\
  (Z.min 100 (Z.max 20 (PyR.int (2 * 5)))
   = Z.min 100 (Z.max 20 (PyR.int (1 * 5)))) /\
  map (fun p => (WindSim.lat p, WindSim.lng p, WindSim.environment_type p,
                 WindSim.height_agl p, WindSim.turbulence_intensity p,
                 WindSim.gust_factor p))
    (fst (WindSim.generate_wind_field self "a" 2 10
            (WindSim.calculate_urban_effects self 2 10) 0%Z))
  = map (fun p => (WindSim.lat p, WindSim.lng p,
                   WindSim.environment_type p, WindSim.height_agl p,
                   WindSim.turbulence_intensity p, WindSim.gust_factor p))
      (fst (WindSim.generate_wind_field self "b" 1 20
              (WindSim.calculate_urban_effects self 1 20) 7%Z)).
Proof.
  intros self.
  assert (E1 : (2 * 10 = IZR 20)%R) by lra.
  assert (E2 : (1 * 10 = IZR 10)%R) by lra.
  assert (E3 : (2 * 5 = IZR 10)%R) by lra.
  assert (E4 : (1 * 5 = IZR 5)%R) by lra.
  assert (Hs : (Z.abs (PyR.int 10 + PyR.int (2 * 10)) mod 2 ^ 31)%Z
               = (Z.abs (PyR.int 20 + PyR.int (1 * 10)) mod 2 ^ 31)%Z).
  { rewrite E1, E2, !PyR_int_IZR. reflexivity. }
  assert (Hc : Z.min 100 (Z.max 20 (PyR.int (2 * 5)))
               = Z.min 100 (Z.max 20 (PyR.int (1 * 5)))).
  { rewrite E3, E4, !PyR_int_IZR. reflexivity. }
  exact (conj Hs (conj Hc
           (wind_field_placement_shared lcg_runtime self "a"%string
              "b"%string 2 1 10 20
              (WindSim.calculate_urban_effects self 2 10)
              (WindSim.calculate_urban_effects self 1 20) 0%Z 7%Z Hs Hc))).
Defined.

(** ** ThermalSim, continued *)

Section ThermalIndices.
Import ThermalSim.
Local Open Scope R_scope.

Lemma clamp3_range (x : R) : -3 <= PyR.max (-3.0) (PyR.min 3.0 x) <= 3.
Proof. r_cases; lra. Qed.

Lemma clamp3_mono (x y : R) :
  x <= y ->
  PyR.max (-3.0) (PyR.min 3.0 x) <= PyR.max (-3.0) (PyR.min 3.0 y).
Proof. intros H. r_cases; lra. Qed.

Lemma pmv_simple_range (self : ThermalComfortSimulator)
  (ta tr va rh met clo : R) :
  -3 <= calculate_pmv_simple self ta tr va rh met clo <= 3.
Proof. unfold calculate_pmv_simple. apply clamp3_range. Qed.

Lemma sqrt_mono (x y : R) : 0 <= x <= y -> sqrt x <= sqrt y.
Proof. intros [H0 H1]. apply sqrt_le_1; lra. Qed.

Lemma pmv_simple_mono (self : ThermalComfortSimulator)
  (ta1 ta2 tr1 tr2 va1 va2 rh met clo : R) :
  ta1 <= ta2 -> tr1 <= tr2 -> 0 <= va2 <= va1 ->
  -50 <= rh -> -0.8 <= met -> clo <= 4 ->
  calculate_pmv_simple self ta1 tr1 va1 rh met clo
  <= calculate_pmv_simple self ta2 tr2 va2 rh met clo.
Proof.
  intros Hta Htr Hva Hrh Hmet Hclo.
  unfold calculate_pmv_simple. apply clamp3_mono.
  pose proof (sqrt_mono va2 va1 Hva) as Hs.
  set (s1 := sqrt va1) in *. set (s2 := sqrt va2) in *.
  assert (Hh : 0 <= 1 + 0.01 * (rh - 50)) by lra.
  assert (Hm : 0 <= 1 + 0.5 * (met - 1.2)) by lra.
  assert (Hc : 0 <= 1 - 0.3 * (clo - 0.7)) by lra.
  set (hf := 1 + 0.01 * (rh - 50)) in *.
  set (mf := 1 + 0.5 * (met - 1.2)) in *.
  set (cf := 1 - 0.3 * (clo - 0.7)) in *.
  assert (Ht : (ta1 + 0.3 * (tr1 - ta1) - 2.0 * s1 - 22) / 8
               <= (ta2 + 0.3 * (tr2 - ta2) - 2.0 * s2 - 22) / 8) by lra.
  apply Rmult_le_compat_r; [exact Hc |].
  apply Rmult_le_compat_r; [exact Hm |].
  apply Rmult_le_compat_r; [exact Hh |].
  exact Ht.
Qed.

(** The clamp of the PPD never changes the value. *)
Lemma ppd_eq_formula (self : ThermalComfortSimulator) (pmv : R) :
  calculate_ppd_from_pmv self pmv
  = 100 - 95 * exp (-0.03353 * pmv ^ 4 - 0.2179 * pmv ^ 2).
Proof.
  pose proof (exp_nonpos_le_1 _ (ppd_exponent_nonpos pmv)) as [Hp Hl].
  unfold calculate_ppd_from_pmv. r_cases; lra.
Qed.

Lemma exp_mono (x y : R) : x <= y -> exp x <= exp y.
Proof.
  intros [H | H].
  - left. apply exp_increasing. exact H.
  - subst. right. reflexivity.
Qed.

Lemma Rabs_le_sqr (a b : R) : Rabs a <= Rabs b -> a ^ 2 <= b ^ 2.
Proof.
  intros H. rewrite <- (pow2_abs a), <- (pow2_abs b).
  pose proof (Rabs_pos a). nra.
Qed.

Lemma ppd_mono_abs (self : ThermalComfortSimulator) (p1 p2 : R) :
  Rabs p1 <= Rabs p2 ->
  calculate_ppd_from_pmv self p1 <= calculate_ppd_from_pmv self p2.
Proof.
  intros H. rewrite !ppd_eq_formula.
  pose proof (Rabs_le_sqr _ _ H) as H2.
  assert (H4 : p1 ^ 4 <= p2 ^ 4).
  { replace (p1 ^ 4) with ((p1 ^ 2) ^ 2) by ring.
    replace (p2 ^ 4) with ((p2 ^ 2) ^ 2) by ring.
    pose proof (pow2_ge_0 p1). nra. }
  assert (He : exp (-0.03353 * p2 ^ 4 - 0.2179 * p2 ^ 2)
               <= exp (-0.03353 * p1 ^ 4 - 0.2179 * p1 ^ 2))
    by (apply exp_mono; lra).
  lra.
Qed.

Lemma sqrt_half_lower : 0.7 < sqrt 0.5.
Proof.
  assert (E : 0.7 = sqrt (0.7 * 0.7)) by (rewrite sqrt_square; lra).
  rewrite E. apply sqrt_lt_1; lra.
Qed.
End ThermalIndices.

(** Property X15.  For every input the simplified PMV lies between -3
    and 3 and the simplified PET between -3 and 39.  For a humidity
    between 0 and 100, a metabolic rate that is not negative and a
    clothing insulation between 0 and 4, neither of them decreases when
    the air temperature and the radiant temperature rise and the wind
    (not negative) drops. *)
Theorem pmv_simple_bounds_and_monotone
  (self : ThermalSim.ThermalComfortSimulator)
  (ta1 ta2 tr1 tr2 va1 va2 rh met clo : R) :
  let pmv ta tr va :=
    ThermalSim.calculate_pmv_simple self ta tr va rh met clo in
  let pet ta tr va :=
    ThermalSim.calculate_pet_simple self ta tr va rh met clo in
  (-3 <= pmv ta1 tr1 va1 <= 3)%R /\
  (-3 <= pet ta1 tr1 va1 <= 39)%R /\
  ((ta1 <= ta2)%R -> (tr1 <= tr2)%R -> (0 <= va2 <= va1)%R ->
   (0 <= rh <= 100)%R -> (0 <= met)%R -> (0 <= clo <= 4)%R ->
   (pmv ta1 tr1 va1 <= pmv ta2 tr2 va2)%R /\
   (pet ta1 tr1 va1 <= pet ta2 tr2 va2)%R).
Proof.
  intros pmv pet. subst pmv pet. cbv beta.
  pose proof (pmv_simple_range self ta1 tr1 va1 rh met clo) as Hr.
  unfold ThermalSim.calculate_pet_simple.
  split; [exact Hr |]. split; [lra |].
  intros Hta Htr Hva Hrh Hmet Hclo.
  assert (Hm : (ThermalSim.calculate_pmv_simple self ta1 tr1 va1 rh met clo
                <= ThermalSim.calculate_pmv_simple self ta2 tr2 va2 rh met
                     clo)%R)
    by (apply pmv_simple_mono; lra).
  split; lra.
Qed.

Lemma pmv_simple_bounds_and_monotone_witness :
  let self := ThermalSim.init test_config in
  let pmv ta tr va :=
    ThermalSim.calculate_pmv_simple self ta tr va 60 1.0 0.4 in
  let pet ta tr va :=
    ThermalSim.calculate_pet_simple self ta tr va 60 1.0 0.4 in
  (20 <= 28)%R /\ (22 <= 30)%R /\ (0 <= 1 <= 2)%R /\
  (0 <= 60 <= 100)%R /\ (0 <= 1.0)%R /\ (0 <= 0.4 <= 4)%R /\
  (pmv 20 22 2 <= pmv 28 30 1)%R /\
  (pet 20 22 2 <= pet 28 30 1)%R.
Proof.
  intros self pmv pet.
  assert (H1 : (20 <= 28)%R) by lra.
  assert (H2 : (22 <= 30)%R) by lra.
  assert (H3 : (0 <= 1 <= 2)%R) by lra.
  assert (H4 : (0 <= 60 <= 100)%R) by lra.
  assert (H5 : (0 <= 1.0)%R) by lra.
  assert (H6 : (0 <= 0.4 <= 4)%R) by lra.
  destruct (pmv_simple_bounds_and_monotone self 20 28 22 30 2 1 60 1.0
              0.4) as (_ & _ & M).
  exact (conj H1 (conj H2 (conj H3 (conj H4 (conj H5 (conj H6
           (M H1 H2 H3 H4 H5 H6))))))).
Defined.

(** Property X16.  The PPD is the same for a PMV and its negative, and
    it does not decrease when the absolute value of the PMV grows. *)
Theorem ppd_symmetric_and_monotone
  (self : ThermalSim.ThermalComfortSimulator) (pmv1 pmv2 : R) :
  ThermalSim.calculate_ppd_from_pmv self (- pmv1)
  = ThermalSim.calculate_ppd_from_pmv self pmv1 /\
  ((Rabs pmv1 <= Rabs pmv2)%R ->
   (ThermalSim.calculate_ppd_from_pmv self pmv1
    <= ThermalSim.calculate_ppd_from_pmv self pmv2)%R).
Proof.
  split.
  { rewrite !ppd_eq_formula.
    replace ((- pmv1) ^ 4)%R with (pmv1 ^ 4)%R by ring.
    replace ((- pmv1) ^ 2)%R with (pmv1 ^ 2)%R by ring.
    reflexivity. }
  apply ppd_mono_abs.
Qed.

Lemma ppd_symmetric_and_monotone_witness :
  let self := ThermalSim.init test_config in
  (Rabs 1 <= Rabs (-2))%R /\
  ThermalSim.calculate_ppd_from_pmv self (- 1)
  = ThermalSim.calculate_ppd_from_pmv self 1 /\
  (ThermalSim.calculate_ppd_from_pmv self 1
   <= ThermalSim.calculate_ppd_from_pmv self (-2))%R.
Proof.
  intros self.
  assert (H1 : (Rabs 1 <= Rabs (-2))%R).
  { unfold Rabs. repeat destruct (Rcase_abs _); lra. }
  destruct (ppd_symmetric_and_monotone self 1 (-2)) as (A & B).
  exact (conj H1 (conj A (B H1))).
Defined.

Section UtciWind.
Import ThermalSim.
Local Open Scope R_scope.

Lemma PyR_ltb_true (a b : R) : a < b -> PyR.ltb a b = true.
Proof.
  intros H. unfold PyR.ltb. destruct (Rlt_dec a b); [reflexivity | lra].
Qed.

Lemma PyR_ltb_false (a b : R) : b <= a -> PyR.ltb a b = false.
Proof.
  intros H. unfold PyR.ltb. destruct (Rlt_dec a b); [lra | reflexivity].
Qed.

(** Up to 0.5 m/s the wind does not enter the index. *)
Lemma utci_calm (self : ThermalComfortSimulator) (ta tr va rh : R) :
  va <= 0.5 ->
  calculate_utci_simple self ta tr va rh
  = ta + 0.4 * (tr - ta)
    + (if PyR.ltb 20 ta then 0.01 * (rh - 50) else -0.005 * (rh - 50)).
Proof.
  intros H. unfold calculate_utci_simple.
  rewrite (PyR_ltb_false 0.5 va H). reflexivity.
Qed.

Lemma utci_windy (self : ThermalComfortSimulator) (ta tr va rh : R) :
  0.5 < va ->
  calculate_utci_simple self ta tr va rh
  = ta + 0.4 * (tr - ta) + -2.0 * sqrt va
    + (if PyR.ltb 20 ta then 0.01 * (rh - 50) else -0.005 * (rh - 50)).
Proof.
  intros H. unfold calculate_utci_simple.
  rewrite (PyR_ltb_true 0.5 va H). reflexivity.
Qed.
End UtciWind.

(** Property X17.  In [calculate_utci_simple] the wind does not enter
    up to 0.5 m/s; above 0.5 m/s more wind never raises the index; and
    as soon as the wind exceeds 0.5 m/s the index is more than 1.4
    degrees below its value at 0.5 m/s: the index jumps at the
    threshold. *)
Theorem utci_simple_wind_threshold
  (self : ThermalSim.ThermalComfortSimulator) (ta tr va1 va2 rh : R) :
  let utci va := ThermalSim.calculate_utci_simple self ta tr va rh in
  ((va1 <= 0.5)%R -> utci va1 = utci 0.5%R) /\
  ((0.5 < va1 <= va2)%R -> (utci va2 <= utci va1)%R) /\
  ((0.5 < va1)%R -> (utci va1 < utci 0.5%R - 1.4)%R).
Proof.
  intros utci. subst utci. cbv beta.
  split; [| split].
  - intros H. rewrite !utci_calm by lra. reflexivity.
  - intros [H1 H2]. rewrite !utci_windy by lra.
    assert (Hs : (sqrt va1 <= sqrt va2)%R) by (apply sqrt_mono; lra).
    lra.
  - intros H. rewrite utci_windy by lra. rewrite utci_calm by lra.
    pose proof sqrt_half_lower as Hh.
    assert (Hs : (sqrt 0.5 <= sqrt va1)%R) by (apply sqrt_mono; lra).
    lra.
Qed.

Lemma utci_simple_wind_threshold_witness :
  let utci va :=
    ThermalSim.calculate_utci_simple (ThermalSim.init test_config) 28 30 va
      60 in
  (0.2 <= 0.5)%R /\ (0.5 < 1 <= 2)%R /\ (0.5 < 1)%R /\
  utci 0.2%R = utci 0.5%R /\
  (utci 2 <= utci 1)%R /\
  (utci 1 < utci 0.5%R - 1.4)%R.
Proof.
  intros utci.
  assert (H1 : (0.2 <= 0.5)%R) by lra.
  assert (H2 : (0.5 < 1 <= 2)%R) by lra.
  assert (H3 : (0.5 < 1)%R) by lra.
  destruct (utci_simple_wind_threshold (ThermalSim.init test_config) 28 30
              0.2 2 60) as (A & _ & _).
  destruct (utci_simple_wind_threshold (ThermalSim.init test_config) 28 30
              1 2 60) as (_ & B & C).
  exact (conj H1 (conj H2 (conj H3 (conj (A H1) (conj (B H2) (C H3)))))).
Defined.

Section RadiantTemperature.
Import ThermalSim.
Local Open Scope R_scope.

Lemma dict_get_missing {V : Type} (d : list (string * V)) (key : string)
  (default : V) :
  ~ In key (map fst d) -> dict_get d key default = default.
Proof.
  induction d as [| [k v] d IH]; intros H.
  - reflexivity.
  - cbn [dict_get]. destruct (String.eqb_spec k key) as [E | NE].
    + exfalso. apply H. left. exact E.
    + apply IH. intros Hin. apply H. right. exact Hin.
Qed.

Lemma str_in_false (key : string) (xs : list string) :
  ~ In key xs -> str_in key xs = false.
Proof.
  intros H. unfold str_in.
  destruct (existsb (String.eqb key) xs) eqn:E; [| reflexivity].
  apply existsb_exists in E. destruct E as (x & Hx & He).
  apply String.eqb_eq in He. subst x. contradiction.
Qed.

Lemma tmrt_bounds (self : ThermalComfortSimulator) (ta solar : R)
  (surface : string) :
  0 <= solar ->
  ta + solar * 0.01 / 100
  <= estimate_mean_radiant_temperature self ta solar surface
  <= ta + solar * 0.08 / 100 + 2.
Proof.
  intros H. unfold estimate_mean_radiant_temperature.
  cbn [dict_get].
  assert (Hu : 0 <= PyR.min 2.0 (solar / 400) <= 2) by (r_cases; lra).
  set (u := PyR.min 2.0 (solar / 400)) in *.
  destruct (str_in surface _);
    repeat match goal with
    | |- context [String.eqb ?a ?b] => destruct (String.eqb a b)
    end; lra.
Qed.
Lemma tmrt_negative_radiation (self : ThermalComfortSimulator)
  (ta solar : R) (surface : string) :
  solar < 0 -> estimate_mean_radiant_temperature self ta solar surface < ta.
Proof.
  intros H. unfold estimate_mean_radiant_temperature.
  cbn [dict_get].
  assert (Hu : PyR.min 2.0 (solar / 400) < 0) by (r_cases; lra).
  set (u := PyR.min 2.0 (solar / 400)) in *.
  destruct (str_in surface _);
    repeat match goal with
    | |- context [String.eqb ?a ?b] => destruct (String.eqb a b)
    end; lra.
Qed.

Lemma tmrt_unknown_surface (self : ThermalComfortSimulator)
  (ta solar : R) (surface : string) :
  ~ In surface
      ["urban"; "grass"; "water"; "asphalt"; "roof"; "concrete"]%string ->
  estimate_mean_radiant_temperature self ta solar surface
  = ta + solar * 0.05 / 100.
Proof.
  intros H. unfold estimate_mean_radiant_temperature.
  rewrite dict_get_missing by exact H.
  rewrite str_in_false; [reflexivity |].
  intros Hin. apply H. cbn [In] in *. tauto.
Qed.
End RadiantTemperature.

(** Property X18.  For solar radiation that is not negative the
    estimated mean radiant temperature lies between the air temperature
    plus 0.01 percent of the radiation and the air temperature plus
    0.08 percent of the radiation plus 2; negative radiation is not
    rejected and gives a value below the air temperature; a surface type
    outside the six known ones (names are case sensitive) gets the
    default factor 0.05 and no heat-island term. *)
Theorem mean_radiant_temperature_cases
  (self : ThermalSim.ThermalComfortSimulator) (ta solar_rad : R)
  (surface_type : string) :
  let tmrt :=
    ThermalSim.estimate_mean_radiant_temperature self ta solar_rad
      surface_type in
  ((0 <= solar_rad)%R ->
   (ta + solar_rad * 0.01 / 100 <= tmrt
    <= ta + solar_rad * 0.08 / 100 + 2)%R) /\
  ((solar_rad < 0)%R -> (tmrt < ta)%R) /\
  (~ In surface_type
       ["urban"; "grass"; "water"; "asphalt"; "roof"; "concrete"]%string ->
   tmrt = (ta + solar_rad * 0.05 / 100)%R).
Proof.
  intros tmrt. subst tmrt.
  split; [apply tmrt_bounds |].
  split; [apply tmrt_negative_radiation | apply tmrt_unknown_surface].
Qed.

Lemma mean_radiant_temperature_cases_witness :
  let tmrt solar surface :=
    ThermalSim.estimate_mean_radiant_temperature
      (ThermalSim.init test_config) 25 solar surface in
  (0 <= 800)%R /\ (-100 < 0)%R /\
  ~ In "Urban"%string
      ["urban"; "grass"; "water"; "asphalt"; "roof"; "concrete"]%string /\
  (25 + 800 * 0.01 / 100 <= tmrt 800%R "asphalt"%string
   <= 25 + 800 * 0.08 / 100 + 2)%R /\
  (tmrt (-100)%R "grass"%string < 25)%R /\
  tmrt 800%R "Urban"%string = (25 + 800 * 0.05 / 100)%R.
Proof.
  intros tmrt.
  assert (H1 : (0 <= 800)%R) by lra.
  assert (H2 : (-100 < 0)%R) by lra.
  assert (H3 : ~ In "Urban"%string
                 ["urban"; "grass"; "water"; "asphalt"; "roof";
                  "concrete"]%string).
  { cbn [In]. intros H.
    repeat (destruct H as [H | H]; [discriminate H |]). exact H. }
  destruct (mean_radiant_temperature_cases (ThermalSim.init test_config)
              25 800 "asphalt"%string) as (A & _ & _).
  destruct (mean_radiant_temperature_cases (ThermalSim.init test_config)
              25 (-100) "grass"%string) as (_ & B & _).
  destruct (mean_radiant_temperature_cases (ThermalSim.init test_config)
              25 800 "Urban"%string) as (_ & _ & C).
  exact (conj H1 (conj H2 (conj H3 (conj (A H1) (conj (B H2) (C H3)))))).
Defined.

Section ZoneComfort.
Import ThermalSim.
Context {rt : Runtime}.
Local Open Scope R_scope.

Lemma ppd_range (self : ThermalComfortSimulator) (p : R) :
  5 <= calculate_ppd_from_pmv self p <= 100.
Proof. unfold calculate_ppd_from_pmv. r_cases; lra. Qed.

(** The score and the stress label are read off the same PMV. *)
Lemma assessment_of_pmv (p : R) :
  let score :=
    snd (if PyR.ltb (Rabs p) 0.5 then ("DOSKONAŁY"%string, 5%Z)
         else if PyR.ltb (Rabs p) 1.0 then ("DOBRY"%string, 4%Z)
         else if PyR.ltb (Rabs p) 1.5 then ("AKCEPTOWALNY"%string, 3%Z)
         else if PyR.ltb (Rabs p) 2.0 then ("SŁABY"%string, 2%Z)
         else ("NIEAKCEPTOWALNY"%string, 1%Z)) in
  let stress :=
    (if PyR.ltb 1 p then "heat"
     else if PyR.ltb p (-1) then "cold" else "neutral")%string in
  (1 <= score <= 5)%Z /\
  (stress <> "neutral"%string -> (score <= 3)%Z) /\
  ((4 <= score)%Z -> stress = "neutral"%string).
Proof.
  intros score stress. subst score stress.
  unfold Rabs. destruct (Rcase_abs p); r_cases; cbn [snd];
    repeat split; try lia; try congruence; try (intros; exfalso; lra);
    try (intros; lia).
Qed.

Lemma zone_comfort_assessment (self : ThermalComfortSimulator)
  (zone : Zone) (ta rh va solar met clo : R) :
  let a := assessment
             (calculate_zone_comfort self zone ta rh va solar met clo) in
  (1 <= comfort_score a <= 5)%Z /\
  (thermal_stress a <> "neutral"%string -> (comfort_score a <= 3)%Z) /\
  ((4 <= comfort_score a)%Z -> thermal_stress a = "neutral"%string).
Proof.
  unfold calculate_zone_comfort.
  destruct pythermalcomfort as [lib |].
  - cbv beta iota zeta.
    set (p := fst (PyThermalComfort.pmv_ppd lib _ _ _ _ _ _)).
    pose proof (assessment_of_pmv p) as H. cbv zeta in H.
    destruct (if PyR.ltb (Rabs p) 0.5 then _ else _) as [lvl sc].
    cbn [assessment comfort_score thermal_stress snd] in *. exact H.
  - cbv beta iota zeta.
    set (p := calculate_pmv_simple self _ _ _ _ _ _).
    pose proof (assessment_of_pmv p) as H. cbv zeta in H.
    destruct (if PyR.ltb (Rabs p) 0.5 then _ else _) as [lvl sc].
    cbn [assessment comfort_score thermal_stress snd] in *. exact H.
Qed.

Lemma zone_comfort_microclimate (self : ThermalComfortSimulator)
  (zone : Zone) (ta rh va solar met clo : R) :
  let zc := calculate_zone_comfort self zone ta rh va solar met clo in
  20 <= humidity (microclimate zc) <= 95 /\
  -3 <= pet (comfort_indices zc) <= 39 /\
  m_surface_type (microclimate zc) = surface_type zone /\
  zone_name zc = name zone /\
  zc_area_percent zc = area_percent zone.
Proof.
  destruct PyR_pow10_values as (_ & P1 & _ & _).
  assert (Hh : forall x, 20 <= PyR.round (PyR.max 20 (PyR.min 95 x)) 1
                         <= 95).
  { intros x. apply (PyR_round_between 20 95 _ 200 950 1).
    - rewrite P1. lra.
    - rewrite P1. lra.
    - r_cases; lra. }
  assert (Hp : forall a b c d e f,
             -3 <= PyR.round (calculate_pet_simple self a b c d e f) 1
             <= 39).
  { intros a b c d e f. apply (PyR_round_between (-3) 39 _ (-30) 390 1).
    - rewrite P1. lra.
    - rewrite P1. lra.
    - unfold calculate_pet_simple.
      pose proof (pmv_simple_range self a b c d e f). lra. }
  unfold calculate_zone_comfort.
  destruct pythermalcomfort as [lib |]; cbv beta iota zeta;
    destruct (if PyR.ltb (Rabs _) 0.5 then _ else _) as [lvl sc];
    cbn [microclimate humidity comfort_indices pet m_surface_type zone_name
         zc_area_percent];
    (split; [apply Hh | split; [apply Hp | repeat split]]).
Qed.

Lemma zone_comfort_fallback (self : ThermalComfortSimulator)
  (zone : Zone) (ta rh va solar met clo : R) :
  pythermalcomfort = None ->
  let zc := calculate_zone_comfort self zone ta rh va solar met clo in
  -3 <= pmv (comfort_indices zc) <= 3 /\
  5 <= ppd (comfort_indices zc) <= 100.
Proof.
  intros Hlib.
  destruct PyR_pow10_values as (_ & P1 & P2 & _).
  unfold calculate_zone_comfort. rewrite Hlib. cbv beta iota zeta.
  destruct (if PyR.ltb (Rabs _) 0.5 then _ else _) as [lvl sc].
  cbn [comfort_indices pmv ppd].
  split.
  - apply (PyR_round_between (-3) 3 _ (-300) 300 2).
    + rewrite P2. lra.
    + rewrite P2. lra.
    + apply pmv_simple_range.
  - apply (PyR_round_between 5 100 _ 50 1000 1).
    + rewrite P1. lra.
    + rewrite P1. lra.
    + apply ppd_range.
Qed.
End ZoneComfort.

(** Property X19.  For every zone and every input,
    [calculate_zone_comfort] gives a comfort score between 1 and 5, a
    thermal stress that is neutral unless the score is at most 3, a
    humidity between 20 and 95 and a PET between -3 and 39; when
    [pythermalcomfort] cannot be imported the PMV lies between -3 and 3
    and the PPD between 5 and 100. *)
Theorem zone_comfort_invariants (rt : Runtime)
  (self : ThermalSim.ThermalComfortSimulator) (zone : ThermalSim.Zone)
  (ta rh va solar_rad met clo : R) :
  let zc :=
    ThermalSim.calculate_zone_comfort self zone ta rh va solar_rad met clo in
  let a := ThermalSim.assessment zc in
  (1 <= ThermalSim.comfort_score a <= 5)%Z /\
  (ThermalSim.thermal_stress a = "neutral"%string \/
   (ThermalSim.comfort_score a <= 3)%Z) /\
  (20 <= ThermalSim.humidity (ThermalSim.microclimate zc) <= 95)%R /\
  (-3 <= ThermalSim.pet (ThermalSim.comfort_indices zc) <= 39)%R /\
  (pythermalcomfort = None ->
   (-3 <= ThermalSim.pmv (ThermalSim.comfort_indices zc) <= 3)%R /\
   (5 <= ThermalSim.ppd (ThermalSim.comfort_indices zc) <= 100)%R).
Proof.
  intros zc a. subst a zc.
  destruct (zone_comfort_assessment self zone ta rh va solar_rad met clo)
    as (A & B & _).
  destruct (zone_comfort_microclimate self zone ta rh va solar_rad met clo)
    as (C & D & _).
  split; [exact A |].
  split.
  { destruct (string_dec
                (ThermalSim.thermal_stress
                   (ThermalSim.assessment
                      (ThermalSim.calculate_zone_comfort self zone ta rh va
                         solar_rad met clo))) "neutral") as [E | NE].
    - left. exact E.
    - right. exact (B NE). }
  split; [exact C |]. split; [exact D |].
  intros Hlib. apply zone_comfort_fallback. exact Hlib.
Qed.

Lemma zone_comfort_invariants_witness :
  let zone :=
    {| ThermalSim.name := "Plac";
       ThermalSim.description := "";
       ThermalSim.surface_type := "concrete";
       ThermalSim.temp_offset := 2.8;
       ThermalSim.wind_reduction := 1.0;
       ThermalSim.humidity_offset := -8;
       ThermalSim.area_percent := 17;
       ThermalSim.characteristics := [] |} in
  let zc :=
    ThermalSim.calculate_zone_comfort (rt := lcg_runtime)
      (ThermalSim.init test_config) zone 28 60 2 600 1.0 0.4 in
  pythermalcomfort = None /\
  (-3 <= ThermalSim.pmv (ThermalSim.comfort_indices zc) <= 3)%R /\
  (5 <= ThermalSim.ppd (ThermalSim.comfort_indices zc) <= 100)%R.
Proof.
  intros zone zc.
  assert (H : @pythermalcomfort lcg_runtime = None) by reflexivity.
  destruct (zone_comfort_invariants lcg_runtime
              (ThermalSim.init test_config) zone 28 60 2 600 1.0 0.4)
    as (_ & _ & _ & _ & A).
  exact (conj H (A H)).
Defined.

Section ComfortPoints.
Import ThermalSim.
Context {rt : Runtime}.
Local Open Scope R_scope.

Lemma clip3_range (x : R) : -3 <= PyR.clip x (-3) 3 <= 3.
Proof.
  unfold PyR.clip, Rmin, Rmax.
  destruct (Rle_dec x (-3)); destruct (Rle_dec _ 3); lra.
Qed.

Lemma nth_default_In {A : Type} (k : nat) (xs : list A) (d : A) :
  In d xs -> In (nth k xs d) xs.
Proof.
  intros Hd. destruct (Nat.lt_ge_cases k (List.length xs)) as [L | G].
  - apply nth_In. exact L.
  - rewrite nth_overflow by exact G. exact Hd.
Qed.

Lemma comfort_point_invariants (self : ThermalComfortSimulator)
  (zones : list (string * ZoneComfort)) (d : string * ZoneComfort)
  (weights : list R) (i : Z) (s : rng_state) :
  In d zones ->
  let p := fst (comfort_point_at self zones d weights i s) in
  -3 <= cp_pmv p <= 3 /\
  5 <= cp_ppd p <= 100 /\
  2 <= cp_comfort_score p <= 5 /\
  exists z : ZoneComfort,
    In (zone_type p, z) zones /\
    microenvironment p = m_surface_type (microclimate z).
Proof.
  intros Hd.
  destruct PyR_pow10_values as (P0 & P1 & P2 & _).
  unfold comfort_point_at, bind, ret, np_random_normal, np_random_choice.
  destruct (rng_normal 0 0.008 s) as [dlat s1].
  destruct (rng_normal 0 0.012 s1) as [dlng s2].
  destruct (rng_choice weights s2) as [k s3].
  pose proof (nth_default_In k zones d Hd) as Hin.
  destruct (nth k zones d) as [key z].
  cbn [fst snd].
  destruct (rng_normal 0 0.3 s3) as [dp s4].
  destruct (rng_normal 0 2.0 s4) as [du s5].
  destruct (rng_normal 0 2.5 s5) as [de s6].
  destruct (rng_normal 0 3 s6) as [ds s7].
  cbv beta iota zeta
    delta [fst snd cp_pmv cp_ppd cp_comfort_score zone_type
           microenvironment].
  pose proof (clip3_range (pmv (comfort_indices z) + dp)) as Hc.
  set (lp := PyR.clip (pmv (comfort_indices z) + dp) (-3) 3) in *.
  split.
  { apply (PyR_round_between (-3) 3 _ (-300) 300 2); [| | exact Hc].
    - rewrite P2. lra.
    - rewrite P2. lra. }
  split.
  { apply (PyR_round_between 5 100 _ 50 1000 1); [| | apply ppd_range].
    - rewrite P1. lra.
    - rewrite P1. lra. }
  split.
  { assert (Hr : 2 <= PyR.round (5 - Rabs lp) 0 <= 5).
    { apply (PyR_round_between 2 5 _ 2 5 0).
      - rewrite P0. lra.
      - rewrite P0. lra.
      - unfold Rabs. destruct (Rcase_abs lp); lra. }
    r_cases; lra. }
  exists z. split; [exact Hin | reflexivity].
Qed.

Lemma comfort_points_count (self : ThermalComfortSimulator)
  (name : string) (d : string * ZoneComfort)
  (zones : list (string * ZoneComfort)) (c : R) (s : rng_state) :
  (30 <= List.length
           (fst (generate_comfort_points self name (d :: zones) c s))
   <= 80)%nat.
Proof.
  unfold generate_comfort_points, bind, np_random_seed.
  rewrite for_range_length. lia.
Qed.

Lemma comfort_points_invariants (self : ThermalComfortSimulator)
  (name : string) (zones : list (string * ZoneComfort)) (c : R)
  (s : rng_state) :
  Forall
    (fun p =>
       -3 <= cp_pmv p <= 3 /\
       5 <= cp_ppd p <= 100 /\
       2 <= cp_comfort_score p <= 5 /\
       exists z : ZoneComfort,
         In (zone_type p, z) zones /\
         microenvironment p = m_surface_type (microclimate z))
    (fst (generate_comfort_points self name zones c s)).
Proof.
  unfold generate_comfort_points, bind, np_random_seed.
  destruct zones as [| d zones].
  - constructor.
  - apply for_range_Forall. intros i s'.
    apply comfort_point_invariants. left. reflexivity.
Qed.

(** What a call reports apart from the points does not depend on
    [detailed_output] or on the world. *)
Lemma thermal_simulate_summary (self : ThermalComfortSimulator)
  (ta rh va solar : R) (name season : string) (detailed : bool)
  (w w0 : World) :
  let res := fst (simulate_scenario self ta rh va solar name season
                    detailed w) in
  let res0 := fst (simulate_scenario self ta rh va solar name season
                     false w0) in
  parameters res = parameters res0 /\
  environmental_conditions res = environmental_conditions res0 /\
  overall_metrics res = overall_metrics res0 /\
  zone_analysis res = zone_analysis res0 /\
  (if detailed
   then visualization res <> None /\
        exists c : R,
          comfort_map res
          = Some (fst (generate_comfort_points self name
                         (zone_analysis res0) c (np_random w)))
   else comfort_map res = None /\ visualization res = None).
Proof.
  unfold simulate_scenario.
  unfold bind, ret, datetime_now_isoformat.
  destruct detailed.
  - unfold on_np_random.
    match goal with
    | |- context [generate_comfort_points ?a ?b ?c ?d (np_random w)] =>
        destruct (generate_comfort_points a b c d (np_random w))
          as [pts s'] eqn:E;
        pose proof (f_equal fst E) as E'; cbn [fst] in E'
    end.
    cbn [fst parameters environmental_conditions overall_metrics
         zone_analysis comfort_map visualization].
    repeat split; try reflexivity; try discriminate.
    eexists. rewrite <- E'. reflexivity.
  - cbn [fst parameters environmental_conditions overall_metrics
         zone_analysis comfort_map visualization].
    repeat split; reflexivity.
Qed.
End ComfortPoints.

Section Counting.
Context {A : Type}.

Lemma count_if_range (f : A -> bool) (xs : list A) :
  (0 <= ThermalSim.count_if f xs <= Z.of_nat (List.length xs))%Z.
Proof.
  unfold ThermalSim.count_if.
  pose proof (filter_length_le f xs). lia.
Qed.

Lemma count_if_disjoint (f g : A -> bool) (xs : list A) :
  (forall x, f x = true -> g x = false) ->
  (ThermalSim.count_if f xs + ThermalSim.count_if g xs
   <= Z.of_nat (List.length xs))%Z.
Proof.
  intros H. unfold ThermalSim.count_if.
  induction xs as [| x xs IH]; [cbn; lia |].
  cbn [filter List.length].
  specialize (H x).
  destruct (f x); [rewrite H by reflexivity |]; destruct (g x);
    cbn [List.length]; lia.
Qed.
End Counting.

Section ThermalSummary.
Import ThermalSim.
Context {rt : Runtime}.
Local Open Scope R_scope.

Lemma thermal_overall_metrics (self : ThermalComfortSimulator)
  (ta rh va solar : R) (name season : string) (w : World) :
  let m := overall_metrics
             (fst (simulate_scenario self ta rh va solar name season false
                     w)) in
  1 <= city_comfort_score m <= 5 /\
  0 <= comfort_zones_percent m <= 100 /\
  (0 <= heat_stress_zones m)%Z /\ (0 <= cold_stress_zones m)%Z /\
  (heat_stress_zones m + cold_stress_zones m <= 5)%Z /\
  0 <= uhi_effect_estimated m /\
  (ta <= 20 -> uhi_effect_estimated m = 0).
Proof.
  destruct PyR_pow10_values as (_ & P1 & P2 & _).
  unfold simulate_scenario, bind, ret, datetime_now_isoformat.
  cbn [fst overall_metrics city_comfort_score comfort_zones_percent
       heat_stress_zones cold_stress_zones uhi_effect_estimated].
  set (clo := dict_get _ season 0.7).
  set (met := dict_get _ season 1.2).
  set (zr := map _ (define_urban_zones self)).
  assert (Hlen : List.length zr = 5%nat) by reflexivity.
  split.
  { apply (PyR_round_between 1 5 _ 100 500 2).
    - rewrite P2. lra.
    - rewrite P2. lra.
    - unfold define_urban_zones. cbn [fold_left area_percent].
      repeat match goal with
      | |- context [comfort_score
                      (assessment
                         (calculate_zone_comfort self ?z ta rh va solar met
                            clo))] =>
          let H := fresh "H" in
          destruct (zone_comfort_assessment self z ta rh va solar met clo)
            as (H & _ & _);
          cbv zeta in H;
          let sc := fresh "sc" in
          set (sc := comfort_score
                       (assessment
                          (calculate_zone_comfort self z ta rh va solar met
                             clo))) in *;
          clearbody sc
      end.
      rewrite !mult_IZR.
      repeat match goal with
      | H : (1 <= ?s <= 5)%Z |- _ =>
          let L := fresh "L" in let U := fresh "U" in
          destruct H as [L U]; apply IZR_le in L, U
      end.
      lra. }
  split.
  { apply (PyR_round_between 0 100 _ 0 1000 1).
    - rewrite P1. lra.
    - rewrite P1. lra.
    - rewrite Hlen.
      match goal with
      | |- context [count_if ?f zr] =>
          pose proof (count_if_range f zr) as Hc;
          set (n := count_if f zr) in *; clearbody n
      end.
      rewrite Hlen in Hc. destruct Hc as [L U].
      apply IZR_le in L, U. cbn in U |- *. lra. }
  split; [apply count_if_range |].
  split; [apply count_if_range |].
  split.
  { change 5%Z with (Z.of_nat 5). rewrite <- Hlen.
    apply count_if_disjoint. intros x Hx. r_cases; congruence || lra. }
  split.
  { apply PyR_round_nonneg. r_cases; lra. }
  intros Hta.
  assert (E : PyR.max 0 (ta - 20) * 0.15 = 0) by (r_cases; lra).
  rewrite E. apply (PyR_round_exact 0 0 1). lra.
Qed.
End ThermalSummary.

Section ThermalZones.
Import ThermalSim.
Context {rt : Runtime}.
Local Open Scope R_scope.

Lemma thermal_zone_analysis (self : ThermalComfortSimulator)
  (ta rh va solar : R) (name season : string) (w : World) :
  zone_analysis
    (fst (simulate_scenario self ta rh va solar name season false w))
  = map (fun '(zone_id, zone) =>
           (zone_id,
            calculate_zone_comfort self zone ta rh va solar
              (dict_get [("winter", 1.4); ("spring", 1.2); ("summer", 1.0);
                         ("autumn", 1.3)]%string season 1.2)
              (dict_get [("winter", 2.0); ("spring", 0.8); ("summer", 0.4);
                         ("autumn", 1.0)]%string season 0.7)))
      (define_urban_zones self).
Proof. reflexivity. Qed.

Lemma thermal_parameters (self : ThermalComfortSimulator)
  (ta rh va solar : R) (name season : string) (w : World) :
  parameters
    (fst (simulate_scenario self ta rh va solar name season false w))
  = {| air_temperature := ta;
       relative_humidity := rh;
       p_wind_speed := va;
       solar_radiation := solar;
       clothing_insulation_clo :=
         dict_get [("winter", 2.0); ("spring", 0.8); ("summer", 0.4);
                   ("autumn", 1.0)]%string season 0.7;
       metabolic_rate_met :=
         dict_get [("winter", 1.4); ("spring", 1.2); ("summer", 1.0);
                   ("autumn", 1.3)]%string season 1.2;
       season := season |}.
Proof. reflexivity. Qed.
End ThermalZones.

(** Property X20.  Every thermal scenario result has a city comfort
    score between 1 and 5, a share of comfortable zones between 0 and
    100, counts of heat and cold stress zones that are not negative and
    are together at most 5, and an estimated heat-island effect that is
    not negative and is 0 up to 20 degrees of air temperature; its zone
    analysis has the five zones of [define_urban_zones], in their
    order. *)
Theorem thermal_overall_metrics_ranges (rt : Runtime)
  (self : ThermalSim.ThermalComfortSimulator) (ta rh va solar_rad : R)
  (name season : string) (detailed : bool) (w : World) :
  let res :=
    fst (ThermalSim.simulate_scenario self ta rh va solar_rad name season
           detailed w) in
  let m := ThermalSim.overall_metrics res in
  (1 <= ThermalSim.city_comfort_score m <= 5)%R /\
  (0 <= ThermalSim.comfort_zones_percent m <= 100)%R /\
  (0 <= ThermalSim.heat_stress_zones m)%Z /\
  (0 <= ThermalSim.cold_stress_zones m)%Z /\
  (ThermalSim.heat_stress_zones m + ThermalSim.cold_stress_zones m <= 5)%Z /\
  (0 <= ThermalSim.uhi_effect_estimated m)%R /\
  ((ta <= 20)%R -> ThermalSim.uhi_effect_estimated m = 0%R) /\
  map fst (ThermalSim.zone_analysis res)
  = ["rynek_main"; "street_commercial"; "parks_green"; "residential";
     "open_spaces"]%string.
Proof.
  intros res m. subst m res.
  destruct (thermal_simulate_summary self ta rh va solar_rad name season
              detailed w w) as (_ & _ & Em & Ez & _).
  rewrite Em, Ez.
  destruct (thermal_overall_metrics self ta rh va solar_rad name season w)
    as (A & B & C & D & E & F & G).
  repeat (split; [assumption |]).
  rewrite thermal_zone_analysis. reflexivity.
Qed.

Lemma thermal_overall_metrics_ranges_witness :
  let res :=
    fst (ThermalSim.simulate_scenario (rt := lcg_runtime)
           (ThermalSim.init test_config) 15 60 2 300 "Chlodny dzien"
           "spring" true lcg_world) in
  (15 <= 20)%R /\
  ThermalSim.uhi_effect_estimated (ThermalSim.overall_metrics res) = 0%R.
Proof.
  intros res.
  assert (H : (15 <= 20)%R) by lra.
  destruct (thermal_overall_metrics_ranges lcg_runtime
              (ThermalSim.init test_config) 15 60 2 300
              "Chlodny dzien"%string "spring"%string true lcg_world)
    as (_ & _ & _ & _ & _ & _ & A & _).
  exact (conj H (A H)).
Defined.

(** Property X21.  With detailed output a thermal result carries a
    visualization and between 30 and 80 comfort points; every point has
    a PMV between -3 and 3, a PPD between 5 and 100, a comfort score
    between 2 and 5 (the lower clamp at 1 is never reached), and names a
    zone of the zone analysis whose surface type is its
    microenvironment.  Without detailed output the result has neither
    points nor visualization. *)
Theorem thermal_comfort_map_shape (rt : Runtime)
  (self : ThermalSim.ThermalComfortSimulator) (ta rh va solar_rad : R)
  (name season : string) (detailed : bool) (w : World) :
  let res :=
    fst (ThermalSim.simulate_scenario self ta rh va solar_rad name season
           detailed w) in
  if detailed then
    exists pts : list ThermalSim.ComfortPoint,
      ThermalSim.comfort_map res = Some pts /\
      ThermalSim.visualization res <> None /\
      (30 <= List.length pts <= 80)%nat /\
      Forall
        (fun p =>
           (-3 <= ThermalSim.cp_pmv p <= 3)%R /\
           (5 <= ThermalSim.cp_ppd p <= 100)%R /\
           (2 <= ThermalSim.cp_comfort_score p <= 5)%R /\
           exists z : ThermalSim.ZoneComfort,
             In (ThermalSim.zone_type p, z) (ThermalSim.zone_analysis res) /\
             ThermalSim.microenvironment p
             = ThermalSim.m_surface_type (ThermalSim.microclimate z)) pts
  else
    ThermalSim.comfort_map res = None /\
    ThermalSim.visualization res = None.
Proof.
  intros res. subst res.
  destruct (thermal_simulate_summary self ta rh va solar_rad name season
              detailed w w) as (_ & _ & _ & Ez & Hd).
  destruct detailed; [| exact Hd].
  destruct Hd as (Hv & c & Ec).
  eexists. split; [exact Ec |]. split; [exact Hv |].
  rewrite Ez. split.
  - rewrite thermal_zone_analysis. unfold ThermalSim.define_urban_zones.
    cbn [map]. apply comfort_points_count.
  - apply comfort_points_invariants.
Qed.

(** Property X22.  A season outside winter, spring, summer and autumn
    (for instance a capitalised one) is not rejected: the scenario runs
    with a clothing insulation of 0.7 and a metabolic rate of 1.2, echoes
    the season as given, and analyses every zone with these two
    values. *)
Theorem thermal_unknown_season_defaults (rt : Runtime)
  (self : ThermalSim.ThermalComfortSimulator) (ta rh va solar_rad : R)
  (name season : string) (detailed : bool) (w : World) :
  let res :=
    fst (ThermalSim.simulate_scenario self ta rh va solar_rad name season
           detailed w) in
  ~ In season ["winter"; "spring"; "summer"; "autumn"]%string ->
  ThermalSim.clothing_insulation_clo (ThermalSim.parameters res) = 0.7%R /\
  ThermalSim.metabolic_rate_met (ThermalSim.parameters res) = 1.2%R /\
  ThermalSim.season (ThermalSim.parameters res) = season /\
  ThermalSim.zone_analysis res
  = map (fun '(zone_id, zone) =>
           (zone_id,
            ThermalSim.calculate_zone_comfort self zone ta rh va solar_rad
              1.2 0.7))
      (ThermalSim.define_urban_zones self).
Proof.
  intros res H. subst res.
  destruct (thermal_simulate_summary self ta rh va solar_rad name season
              detailed w w) as (Ep & _ & _ & Ez & _).
  rewrite Ep, Ez, thermal_parameters, thermal_zone_analysis.
  cbn [ThermalSim.clothing_insulation_clo ThermalSim.metabolic_rate_met
       ThermalSim.season].
  rewrite !dict_get_missing by exact H.
  repeat split; reflexivity.
Qed.

Lemma thermal_unknown_season_defaults_witness :
  let res :=
    fst (ThermalSim.simulate_scenario (rt := lcg_runtime)
           (ThermalSim.init test_config) 28 60 2 600 "Upal" "Summer" true
           lcg_world) in
  ~ In "Summer"%string ["winter"; "spring"; "summer"; "autumn"]%string /\
  ThermalSim.clothing_insulation_clo (ThermalSim.parameters res) = 0.7%R /\
  ThermalSim.metabolic_rate_met (ThermalSim.parameters res) = 1.2%R.
Proof.
  intros res.
  assert (H : ~ In "Summer"%string
                ["winter"; "spring"; "summer"; "autumn"]%string).
  { cbn [In]. intros H.
    repeat (destruct H as [H | H]; [discriminate H |]). exact H. }
  destruct (thermal_unknown_season_defaults lcg_runtime
              (ThermalSim.init test_config) 28 60 2 600 "Upal"%string
              "Summer"%string true lcg_world H) as (A & B & _).
  exact (conj H (conj A B)).
Defined.

(** ** What a call does to the global generator *)

Section GeneratorEffects.
Context {rt : Runtime}.

Lemma flood_simulate_world (self : FloodSim.FloodSimulator) (r d : Q)
  (name : string) (detailed : bool) (w : World) :
  snd (FloodSim.simulate_scenario self r d name detailed w)
  = (if detailed
     then {| np_random :=
               snd (FloodSim.generate_flood_zones self name
                      (FloodSim.max_depth self r d)
                      (FloodSim.flooded_area_pct self r d) (np_random w));
             clock := clock w |}
     else w).
Proof.
  unfold FloodSim.max_depth, FloodSim.flooded_area_pct,
    FloodSim.total_excess, FloodSim.simulate_scenario.
  destruct (FloodSim.calculate_effective_rainfall self r d) as [[e x] t].
  cbn [fst snd].
  destruct (FloodSim.calculate_flood_depths self t) as [md pct].
  cbn [fst snd].
  unfold bind, ret, datetime_now_isoformat.
  destruct detailed.
  - unfold on_np_random.
    destruct (FloodSim.generate_flood_zones _ _ _ _ _) as [zs s'].
    reflexivity.
  - reflexivity.
Qed.

Lemma thermal_simulate_world (self : ThermalSim.ThermalComfortSimulator)
  (ta rh va solar : R) (name season : string) (detailed : bool)
  (w : World) :
  snd (ThermalSim.simulate_scenario self ta rh va solar name season
         detailed w)
  = (if detailed
     then {| np_random :=
               np_random
                 (snd (ThermalSim.simulate_scenario self ta rh va solar
                         name season true w));
             clock := clock w |}
     else w).
Proof.
  unfold ThermalSim.simulate_scenario.
  unfold bind, ret, datetime_now_isoformat.
  destruct detailed.
  - unfold on_np_random.
    destruct (ThermalSim.generate_comfort_points _ _ _ _ _) as [pts s'].
    reflexivity.
  - reflexivity.
Qed.

Lemma thermal_simulate_generator (self : ThermalSim.ThermalComfortSimulator)
  (ta rh va solar : R) (name season : string) (w1 w2 : World) :
  np_random
    (snd (ThermalSim.simulate_scenario self ta rh va solar name season
            true w1))
  = np_random
      (snd (ThermalSim.simulate_scenario self ta rh va solar name season
              true w2)).
Proof.
  unfold ThermalSim.simulate_scenario.
  unfold bind, ret, datetime_now_isoformat, on_np_random.
  match goal with
  | |- context [ThermalSim.generate_comfort_points ?a ?b ?c ?d
                  (np_random w2)] =>
      rewrite (thermal_generator_reseeds a b c d
                 (np_random w2) (np_random w1));
      destruct (ThermalSim.generate_comfort_points a b c d (np_random w1))
        as [pts s']
  end.
  reflexivity.
Qed.

Lemma wind_simulate_world (self : WindSim.WindSimulator) (u d : R)
  (name : string) (detailed : bool) (w : World) :
  snd (WindSim.simulate_scenario self u d name detailed w)
  = (if detailed
     then {| np_random :=
               snd (WindSim.generate_wind_field self name u d
                      (WindSim.calculate_urban_effects self u d)
                      (np_random w));
             clock := clock w |}
     else w).
Proof.
  unfold WindSim.simulate_scenario.
  destruct (WindSim.assess_pedestrian_comfort _ _) as [[lvl sc] descr].
  unfold bind, ret, datetime_now_isoformat.
  destruct detailed.
  - unfold on_np_random.
    destruct (WindSim.generate_wind_field _ _ _ _ _ _) as [pts s'].
    destruct (Req_dec_T _ 0); reflexivity.
  - destruct (Req_dec_T _ 0); reflexivity.
Qed.
End GeneratorEffects.

(** Property X23.  In all three simulators a scenario without detailed
    output leaves the world as it was, the global generator included.
    With detailed output the clock is untouched, and the global
    generator is left in a state that does not depend on the state it
    had before the call: the call reseeds it, also when a wind scenario
    ends in an exception. *)
Theorem detailed_output_reseeds_global_generator (rt : Runtime) :
  (forall (self : FloodSim.FloodSimulator) (rainfall duration : Q)
          (name : string) (w w' : World),
     snd (FloodSim.simulate_scenario self rainfall duration name false w)
     = w /\
     clock (snd (FloodSim.simulate_scenario self rainfall duration name
                   true w)) = clock w /\
     np_random (snd (FloodSim.simulate_scenario self rainfall duration name
                       true w))
     = np_random (snd (FloodSim.simulate_scenario self rainfall duration
                         name true w'))) /\
  (forall (self : ThermalSim.ThermalComfortSimulator) (ta rh va solar : R)
          (name season : string) (w w' : World),
     snd (ThermalSim.simulate_scenario self ta rh va solar name season
            false w) = w /\
     clock (snd (ThermalSim.simulate_scenario self ta rh va solar name
                   season true w)) = clock w /\
     np_random (snd (ThermalSim.simulate_scenario self ta rh va solar name
                       season true w))
     = np_random (snd (ThermalSim.simulate_scenario self ta rh va solar
                         name season true w'))) /\
  (forall (self : WindSim.WindSimulator) (wind_speed_ref direction : R)
          (name : string) (w w' : World),
     snd (WindSim.simulate_scenario self wind_speed_ref direction name
            false w) = w /\
     clock (snd (WindSim.simulate_scenario self wind_speed_ref direction
                   name true w)) = clock w /\
     np_random (snd (WindSim.simulate_scenario self wind_speed_ref
                       direction name true w))
     = np_random (snd (WindSim.simulate_scenario self wind_speed_ref
                         direction name true w'))).
Proof.
  split; [| split].
  - intros self r d name w w'.
    rewrite !flood_simulate_world. cbn [np_random clock].
    split; [reflexivity |]. split; [reflexivity |].
    rewrite (flood_generator_reseeds self name
               (FloodSim.max_depth self r d)
               (FloodSim.flooded_area_pct self r d)
               (np_random w) (np_random w')).
    reflexivity.
  - intros self ta rh va solar name season w w'.
    split; [apply (thermal_simulate_world self ta rh va solar name season
                     false w) |].
    split; [| apply thermal_simulate_generator].
    rewrite thermal_simulate_world. reflexivity.
  - intros self u d name w w'.
    rewrite !wind_simulate_world. cbn [np_random clock].
    split; [reflexivity |]. split; [reflexivity |].
    rewrite (wind_generator_reseeds self name name u d
               (WindSim.calculate_urban_effects self u d)
               (np_random w) (np_random w')).
    reflexivity.
Qed.

(** ** Batch runs *)

Section DictFacts.
Context {V : Type}.

Lemma dict_lookup_setitem_same (k : string) (v : V)
  (d : list (string * V)) :
  dict_lookup k (dict_setitem k v d) = Some v.
Proof.
  induction d as [| [k' x] d IH]; cbn [dict_setitem dict_lookup].
  - rewrite String.eqb_refl. reflexivity.
  - destruct (String.eqb k' k) eqn:E; cbn [dict_lookup]; rewrite E.
    + reflexivity.
    + exact IH.
Qed.

Lemma dict_lookup_setitem_other (k k' : string) (v : V)
  (d : list (string * V)) :
  k' <> k -> dict_lookup k (dict_setitem k' v d) = dict_lookup k d.
Proof.
  intros NE.
  induction d as [| [k0 x] d IH]; cbn [dict_setitem dict_lookup].
  - destruct (String.eqb_spec k' k); [contradiction | reflexivity].
  - destruct (String.eqb_spec k0 k') as [E | NE'].
    + subst k0. cbn [dict_lookup].
      destruct (String.eqb_spec k' k); [contradiction | reflexivity].
    + cbn [dict_lookup]. rewrite IH. reflexivity.
Qed.

Lemma dict_keys_setitem_in (k k' : string) (v : V)
  (d : list (string * V)) :
  In k' (dict_keys (dict_setitem k v d)) <-> k' = k \/ In k' (dict_keys d).
Proof.
  unfold dict_keys.
  induction d as [| [k0 x] d IH]; cbn [dict_setitem map fst In].
  - intuition congruence.
  - destruct (String.eqb_spec k0 k) as [E | NE]; cbn [map fst In].
    + subst k0. intuition congruence.
    + rewrite IH. intuition congruence.
Qed.

Lemma dict_keys_setitem_nodup (k : string) (v : V)
  (d : list (string * V)) :
  NoDup (dict_keys d) -> NoDup (dict_keys (dict_setitem k v d)).
Proof.
  induction d as [| [k0 x] d IH]; intros H.
  - cbn. constructor; [intros [] | constructor].
  - cbn [dict_setitem]. destruct (String.eqb_spec k0 k) as [E | NE].
    + exact H.
    + unfold dict_keys in *. cbn [map fst] in *.
      inversion H as [| a l Hn Hd]; subst.
      constructor; [| apply IH; exact Hd].
      intros Hin. apply (dict_keys_setitem_in k k0 v d) in Hin.
      destruct Hin as [E | Hin]; [congruence | contradiction].
Qed.

Lemma dict_setitem_length (k : string) (v : V) (d : list (string * V)) :
  (List.length (dict_setitem k v d) <= S (List.length d))%nat.
Proof.
  induction d as [| [k0 x] d IH]; cbn [dict_setitem List.length].
  - lia.
  - destruct (String.eqb k0 k); cbn [List.length]; lia.
Qed.
End DictFacts.

Section BatchLoop.
Context {rt : Runtime} {Sc V : Type}.
Variable run : Sc -> IO V.
Variable key : Sc -> string.

Lemma batch_loop_keys_nodup (scenarios : list Sc) :
  forall (results : list (string * V)) (w : World),
    NoDup (dict_keys results) ->
    NoDup (dict_keys (fst (batch_loop run key scenarios results w))).
Proof.
  induction scenarios as [| sc rest IH]; intros results w H.
  - exact H.
  - cbn [batch_loop]. unfold bind.
    destruct (run sc w) as [v w1].
    apply IH, dict_keys_setitem_nodup, H.
Qed.

Lemma batch_loop_keys_in (k : string) (scenarios : list Sc) :
  forall (results : list (string * V)) (w : World),
    In k (dict_keys (fst (batch_loop run key scenarios results w)))
    <-> In k (dict_keys results) \/ In k (map key scenarios).
Proof.
  induction scenarios as [| sc rest IH]; intros results w.
  - cbn. tauto.
  - cbn [batch_loop]. unfold bind.
    destruct (run sc w) as [v w1].
    rewrite IH, dict_keys_setitem_in. cbn [map In].
    intuition congruence.
Qed.

Lemma batch_loop_length (scenarios : list Sc) :
  forall (results : list (string * V)) (w : World),
    (List.length (fst (batch_loop run key scenarios results w))
     <= List.length results + List.length scenarios)%nat.
Proof.
  induction scenarios as [| sc rest IH]; intros results w.
  - cbn. lia.
  - cbn [batch_loop]. unfold bind.
    destruct (run sc w) as [v w1].
    specialize (IH (dict_setitem (key sc) v results) w1).
    pose proof (dict_setitem_length (key sc) v results).
    cbn [List.length]. lia.
Qed.

Lemma batch_loop_lookup_other (k : string) (scenarios : list Sc) :
  (forall sc, In sc scenarios -> key sc <> k) ->
  forall (results : list (string * V)) (w : World),
    dict_lookup k (fst (batch_loop run key scenarios results w))
    = dict_lookup k results.
Proof.
  induction scenarios as [| sc rest IH]; intros H results w.
  - reflexivity.
  - cbn [batch_loop]. unfold bind.
    destruct (run sc w) as [v w1].
    rewrite IH by (intros sc' Hin; apply H; right; exact Hin).
    apply dict_lookup_setitem_other. apply H. left. reflexivity.
Qed.

(** The entry under a key is what the last scenario with that key
    produced. *)
Lemma batch_loop_last (Q : Sc -> V -> Prop) (sc : Sc)
  (post : list Sc) :
  (forall w, Q sc (fst (run sc w))) ->
  (forall sc', In sc' post -> key sc' <> key sc) ->
  forall (pre : list Sc) (results : list (string * V)) (w : World),
    exists v,
      dict_lookup (key sc)
        (fst (batch_loop run key (pre ++ sc :: post) results w)) = Some v
      /\ Q sc v.
Proof.
  intros HQ Hpost.
  induction pre as [| a pre IH]; intros results w.
  - cbn [app batch_loop]. unfold bind.
    specialize (HQ w).
    destruct (run sc w) as [v w1]. cbn [fst] in HQ.
    exists v. split; [| exact HQ].
    rewrite (batch_loop_lookup_other (key sc) post Hpost).
    apply dict_lookup_setitem_same.
  - cbn [app batch_loop]. unfold bind.
    destruct (run a w) as [v w1]. apply IH.
Qed.
End BatchLoop.

Section BatchLoopExc.
Context {rt : Runtime} {Sc V : Type}.
Variable run : Sc -> IO (Exc V).
Variable key : Sc -> string.
Variable fails : Sc -> Prop.
Variable e0 : PyError.
Hypothesis run_fails : forall sc w, fails sc -> fst (run sc w) = inl e0.
Hypothesis run_returns :
  forall sc w, ~ fails sc -> exists v, fst (run sc w) = inr v.
Hypothesis fails_dec : forall sc, fails sc \/ ~ fails sc.

Lemma batch_loop_exc_raises (scenarios : list Sc) :
  Exists fails scenarios ->
  forall (results : list (string * V)) (w : World),
    fst (batch_loop_exc run key scenarios results w) = inl e0.
Proof.
  induction scenarios as [| sc rest IH]; intros H results w.
  - inversion H.
  - cbn [batch_loop_exc]. unfold bind.
    destruct (fails_dec sc) as [F | NF].
    + pose proof (run_fails sc w F) as E.
      destruct (run sc w) as [o w1]. cbn [fst] in E. subst o.
      reflexivity.
    + destruct (run_returns sc w NF) as [v E].
      destruct (run sc w) as [o w1]. cbn [fst] in E. subst o.
      apply IH. inversion H; subst; [contradiction | assumption].
Qed.

Lemma batch_loop_exc_returns (scenarios : list Sc) :
  Forall (fun sc => ~ fails sc) scenarios ->
  forall (results : list (string * V)) (w : World),
    NoDup (dict_keys results) ->
    exists out,
      fst (batch_loop_exc run key scenarios results w) = inr out /\
      NoDup (dict_keys out) /\
      (List.length out
       <= List.length results + List.length scenarios)%nat /\
      forall k, In k (dict_keys out)
                <-> In k (dict_keys results) \/ In k (map key scenarios).
Proof.
  induction scenarios as [| sc rest IH]; intros H results w Hn.
  - exists results. cbn. repeat split; try assumption; try lia; tauto.
  - cbn [batch_loop_exc]. unfold bind.
    inversion H as [| a l NF Hrest]; subst.
    destruct (run_returns sc w NF) as [v E].
    destruct (run sc w) as [o w1]. cbn [fst] in E. subst o.
    destruct (IH Hrest (dict_setitem (key sc) v results) w1
                (dict_keys_setitem_nodup (key sc) v results Hn))
      as (out & Eo & Hd & Hl & Hk).
    exists out. split; [exact Eo |]. split; [exact Hd |].
    split.
    + pose proof (dict_setitem_length (key sc) v results).
      cbn [List.length]. lia.
    + intros k. rewrite Hk, dict_keys_setitem_in. cbn [map In].
      intuition congruence.
Qed.
End BatchLoopExc.

Section Keys.
Import Ascii.
Variable lower : string -> string.

Lemma append_chars (c : ascii) (s t : string) :
  In c (list_ascii_of_string (s ++ t)) ->
  In c (list_ascii_of_string s) \/ In c (list_ascii_of_string t).
Proof.
  induction s as [| a s IH]; cbn.
  - tauto.
  - intros [E | H]; [tauto | destruct (IH H); tauto].
Qed.

Lemma str_replace_free (c : ascii) (by_ s : string) :
  ~ In c (list_ascii_of_string by_) ->
  ~ In c (list_ascii_of_string (str_replace c by_ s)).
Proof.
  intros Hb. induction s as [| a s IH]; cbn [str_replace].
  - intros [].
  - destruct (Ascii.eqb_spec a c) as [E | NE].
    + intros Hin. apply append_chars in Hin. tauto.
    + cbn. intros [E | Hin]; [congruence | contradiction].
Qed.

Lemma str_replace_keeps_free (c c' : ascii) (by_ s : string) :
  ~ In c' (list_ascii_of_string by_) ->
  ~ In c' (list_ascii_of_string s) ->
  ~ In c' (list_ascii_of_string (str_replace c by_ s)).
Proof.
  intros Hb. induction s as [| a s IH]; cbn [str_replace]; intros Hs.
  - exact Hs.
  - cbn in Hs.
    assert (Hs' : ~ In c' (list_ascii_of_string s)) by tauto.
    destruct (Ascii.eqb a c).
    + intros Hin. apply append_chars in Hin. tauto.
    + cbn. intros [E | Hin]; [tauto | exact (IH Hs' Hin)].
Qed.

Lemma scenario_key_no_space (name : string) :
  ~ In " "%char (list_ascii_of_string (scenario_key lower name)).
Proof.
  unfold scenario_key. apply str_replace_free.
  cbn. intros [E | []]. discriminate E.
Qed.

Lemma wind_scenario_key_clean (name : string) :
  ~ In " "%char (list_ascii_of_string (wind_scenario_key lower name)) /\
  ~ In "-"%char (list_ascii_of_string (wind_scenario_key lower name)).
Proof.
  unfold wind_scenario_key. split.
  - apply str_replace_keeps_free; [intros [] |].
    apply str_replace_free. cbn. intros [E | []]. discriminate E.
  - apply str_replace_free. intros [].
Qed.
End Keys.

Section BatchResults.
Import Ascii.

(** Property X24.  The dictionary a flood or thermal batch returns has
    pairwise different keys, at most as many entries as there are
    scenarios, exactly the normalised names of the scenarios as keys,
    and no key contains a space. *)
Theorem batch_simulate_keys (rt : Runtime) (lower : string -> string) :
  (forall (self : FloodSim.FloodSimulator)
          (scenarios : list (Q * Q * string)) (w : World),
     let out := fst (flood_batch_simulate lower self scenarios w) in
     NoDup (dict_keys out) /\
     (List.length out <= List.length scenarios)%nat /\
     (forall k, In k (dict_keys out)
                <-> In k (map (fun '(_, _, name) => scenario_key lower name)
                            scenarios)) /\
     (forall k, In k (dict_keys out) ->
                ~ In " "%char (list_ascii_of_string k))) /\
  (forall (self : ThermalSim.ThermalComfortSimulator)
          (scenarios : list (R * R * R * R * string * string)) (w : World),
     let out := fst (thermal_batch_simulate lower self scenarios w) in
     NoDup (dict_keys out) /\
     (List.length out <= List.length scenarios)%nat /\
     (forall k, In k (dict_keys out)
                <-> In k (map (fun '(_, _, _, _, name, _) =>
                                 scenario_key lower name) scenarios)) /\
     (forall k, In k (dict_keys out) ->
                ~ In " "%char (list_ascii_of_string k))).
Proof.
  split.
  - intros self scenarios w out. subst out. unfold flood_batch_simulate.
    set (run := fun '(rainfall, duration, name) =>
                  FloodSim.simulate_scenario self rainfall duration name
                    true).
    set (key := fun '(_, _, name) => scenario_key lower name).
    assert (Hk : forall k,
               In k (dict_keys (fst (batch_loop run key scenarios [] w)))
               <-> In k (map key scenarios)).
    { intros k. rewrite batch_loop_keys_in. cbn. tauto. }
    split; [apply batch_loop_keys_nodup; constructor |].
    split; [apply (batch_loop_length run key scenarios [] w) |].
    split; [exact Hk |].
    intros k Hin. apply Hk in Hin. apply in_map_iff in Hin.
    destruct Hin as ([[r d] n] & E & _). subst k.
    apply scenario_key_no_space.
  - intros self scenarios w out. subst out. unfold thermal_batch_simulate.
    set (run := fun '(ta, rh, va, solar, name, season) =>
                  ThermalSim.simulate_scenario self ta rh va solar name
                    season true).
    set (key := fun '(_, _, _, _, name, _) => scenario_key lower name).
    assert (Hk : forall k,
               In k (dict_keys (fst (batch_loop run key scenarios [] w)))
               <-> In k (map key scenarios)).
    { intros k. rewrite batch_loop_keys_in. cbn. tauto. }
    split; [apply batch_loop_keys_nodup; constructor |].
    split; [apply (batch_loop_length run key scenarios [] w) |].
    split; [exact Hk |].
    intros k Hin. apply Hk in Hin. apply in_map_iff in Hin.
    destruct Hin as ([[[[[ta rh] va] so] n] se] & E & _). subst k.
    apply scenario_key_no_space.
Qed.

(** Property X25.  In a flood or thermal batch the entry under a key is
    the result of the last scenario whose name normalises to that key,
    an earlier scenario with such a name is silently overwritten, and
    that entry is what a single detailed run of the scenario returns, up
    to the time stamp. *)
Theorem batch_last_scenario_wins (rt : Runtime)
  (lower : string -> string) :
  (forall (self : FloodSim.FloodSimulator)
          (pre post : list (Q * Q * string)) (rainfall duration : Q)
          (name : string) (w : World),
     Forall (fun '(_, _, name') =>
               scenario_key lower name' <> scenario_key lower name) post ->
     exists t : string,
       dict_lookup (scenario_key lower name)
         (fst (flood_batch_simulate lower self
                 (pre ++ (rainfall, duration, name) :: post) w))
       = Some (FloodSim.set_computation_time t
                 (fst (FloodSim.simulate_scenario self rainfall duration
                         name true w)))) /\
  (forall (self : ThermalSim.ThermalComfortSimulator)
          (pre post : list (R * R * R * R * string * string))
          (ta rh va solar : R) (name season : string) (w : World),
     Forall (fun '(_, _, _, _, name', _) =>
               scenario_key lower name' <> scenario_key lower name) post ->
     exists t : string,
       dict_lookup (scenario_key lower name)
         (fst (thermal_batch_simulate lower self
                 (pre ++ (ta, rh, va, solar, name, season) :: post) w))
       = Some (ThermalSim.set_computation_time t
                 (fst (ThermalSim.simulate_scenario self ta rh va solar
                         name season true w)))).
Proof.
  split.
  - intros self pre post r d name w Hpost. unfold flood_batch_simulate.
    set (run := fun '(rainfall, duration, name) =>
                  FloodSim.simulate_scenario self rainfall duration name
                    true).
    set (key := fun '(_, _, name) => scenario_key lower name).
    assert (HQ : forall w',
               exists t,
                 fst (run (r, d, name) w')
                 = FloodSim.set_computation_time t
                     (fst (run (r, d, name) w))).
    { intros w'. exists (clock w'). apply flood_simulate_two_calls. }
    assert (Hp : forall sc', In sc' post -> key sc' <> key (r, d, name)).
    { intros [[r' d'] n'] Hin. rewrite Forall_forall in Hpost.
      exact (Hpost _ Hin). }
    destruct (batch_loop_last run key
                (fun sc v =>
                   exists t,
                     v = FloodSim.set_computation_time t (fst (run sc w)))
                (r, d, name) post HQ Hp pre [] w) as (v & Ev & t & Et).
    exists t. cbn [key] in Ev. rewrite Ev, Et. reflexivity.
  - intros self pre post ta rh va so name season w Hpost.
    unfold thermal_batch_simulate.
    set (run := fun '(ta, rh, va, solar, name, season) =>
                  ThermalSim.simulate_scenario self ta rh va solar name
                    season true).
    set (key := fun '(_, _, _, _, name, _) => scenario_key lower name).
    assert (HQ : forall w',
               exists t,
                 fst (run (ta, rh, va, so, name, season) w')
                 = ThermalSim.set_computation_time t
                     (fst (run (ta, rh, va, so, name, season) w))).
    { intros w'. exists (clock w'). apply thermal_simulate_two_calls. }
    assert (Hp : forall sc', In sc' post ->
                   key sc' <> key (ta, rh, va, so, name, season)).
    { intros [[[[[ta' rh'] va'] so'] n'] se'] Hin.
      rewrite Forall_forall in Hpost. exact (Hpost _ Hin). }
    destruct (batch_loop_last run key
                (fun sc v =>
                   exists t,
                     v = ThermalSim.set_computation_time t
                           (fst (run sc w)))
                (ta, rh, va, so, name, season) post HQ Hp pre [] w)
      as (v & Ev & t & Et).
    exists t. cbn [key] in Ev. rewrite Ev, Et. reflexivity.
Qed.

Lemma batch_last_scenario_wins_witness :
  let key := scenario_key str_lower_ascii in
  Forall (fun '(_, _, name') => key name' <> key "deszcz a"%string)
    [(150%Q, 1%Q, "Burza"%string)] /\
  exists t : string,
    dict_lookup (key "deszcz a"%string)
      (fst (flood_batch_simulate (rt := lcg_runtime) str_lower_ascii
              (FloodSim.init test_config)
              ([(15%Q, 4%Q, "Deszcz A"%string)]
               ++ (65%Q, 2%Q, "deszcz a"%string)
                  :: [(150%Q, 1%Q, "Burza"%string)]) lcg_world))
    = Some (FloodSim.set_computation_time t
              (fst (FloodSim.simulate_scenario (rt := lcg_runtime)
                      (FloodSim.init test_config) 65 2 "deszcz a" true
                      lcg_world))).
Proof.
  intros key.
  assert (H : Forall (fun '(_, _, name') =>
                        key name' <> key "deszcz a"%string)
                [(150%Q, 1%Q, "Burza"%string)]).
  { constructor; [| constructor].
    cbv beta iota. intros E. vm_compute in E. discriminate E. }
  destruct (batch_last_scenario_wins lcg_runtime str_lower_ascii) as [A _].
  exact (conj H (A (FloodSim.init test_config)
                   [(15%Q, 4%Q, "Deszcz A"%string)]
                   [(150%Q, 1%Q, "Burza"%string)] 65%Q 2%Q
                   "deszcz a"%string lcg_world H)).
Defined.

(** Property X26.  For a simulator built by the constructor, a wind
    batch ends in ZeroDivisionError, and returns no dictionary, as soon
    as one scenario has the speed 0; when no scenario has the speed 0 it
    returns a dictionary with pairwise different keys, at most one entry
    per scenario, exactly the normalised names as keys, and no key
    contains a space or a hyphen. *)
Theorem wind_batch_outcome (rt : Runtime) (lower : string -> string)
  (cfg : Config) (scenarios : list (R * R * string)) (w : World) :
  let res :=
    fst (wind_batch_simulate lower (WindSim.init cfg) scenarios w) in
  (Exists (fun '(speed, _, _) => speed = 0%R) scenarios ->
   res = inl ZeroDivisionError) /\
  (Forall (fun '(speed, _, _) => speed <> 0%R) scenarios ->
   exists out,
     res = inr out /\
     NoDup (dict_keys out) /\
     (List.length out <= List.length scenarios)%nat /\
     (forall k, In k (dict_keys out)
                <-> In k (map (fun '(_, _, name) =>
                                 wind_scenario_key lower name) scenarios)) /\
     (forall k, In k (dict_keys out) ->
                ~ In " "%char (list_ascii_of_string k) /\
                ~ In "-"%char (list_ascii_of_string k))).
Proof.
  intros res. subst res. unfold wind_batch_simulate.
  set (run := fun '(speed, direction, name) =>
                WindSim.simulate_scenario (WindSim.init cfg) speed direction
                  name true).
  set (key := fun '(_, _, name) => wind_scenario_key lower name).
  set (fails := fun sc : R * R * string => fst (fst sc) = 0%R).
  assert (Hf : forall sc w', fails sc ->
                 fst (run sc w') = inl ZeroDivisionError).
  { intros [[u d] n] w' F. cbn in F.
    apply (wind_simulate_outcome cfg u d n true w'). exact F. }
  assert (Hr : forall sc w', ~ fails sc ->
                 exists v, fst (run sc w') = inr v).
  { intros [[u d] n] w' F. cbn in F.
    apply (wind_simulate_outcome cfg u d n true w'). exact F. }
  assert (Hd : forall sc, fails sc \/ ~ fails sc).
  { intros [[u d] n]. unfold fails. cbn [fst]. apply Req_dec. }
  split.
  - intros H.
    apply (batch_loop_exc_raises run key fails ZeroDivisionError Hf Hr Hd).
    apply Exists_exists in H. apply Exists_exists.
    destruct H as ([[u d] n] & Hin & E).
    exists (u, d, n). split; [exact Hin | exact E].
  - intros H.
    assert (Hnf : Forall (fun sc => ~ fails sc) scenarios).
    { rewrite Forall_forall in H |- *.
      intros [[u d] n] Hin. exact (H _ Hin). }
    destruct (batch_loop_exc_returns run key fails Hr scenarios Hnf [] w
                (NoDup_nil _))
      as (out & Eo & Hn & Hl & Hk).
    exists out. split; [exact Eo |]. split; [exact Hn |].
    split; [exact Hl |].
    assert (Hk' : forall k, In k (dict_keys out)
                            <-> In k (map key scenarios)).
    { intros k. rewrite Hk. cbn. tauto. }
    split; [exact Hk' |].
    intros k Hin. apply Hk' in Hin. apply in_map_iff in Hin.
    destruct Hin as ([[u d] n] & E & _). subst k.
    apply wind_scenario_key_clean.
Qed.

Lemma wind_batch_outcome_witness :
  Exists (fun '(speed, _, _) => speed = 0%R)
    [(5%R, 270%R, "Zachodni"%string); (0%R, 0%R, "Cisza"%string)] /\
  Forall (fun '(speed, _, _) => speed <> 0%R)
    [(5%R, 270%R, "Zachodni"%string)] /\
  fst (wind_batch_simulate (rt := lcg_runtime) str_lower_ascii
         (WindSim.init test_config)
         [(5%R, 270%R, "Zachodni"%string); (0%R, 0%R, "Cisza"%string)]
         lcg_world) = inl ZeroDivisionError /\
  exists out,
    fst (wind_batch_simulate (rt := lcg_runtime) str_lower_ascii
           (WindSim.init test_config) [(5%R, 270%R, "Zachodni"%string)]
           lcg_world) = inr out /\
    NoDup (dict_keys out).
Proof.
  assert (H1 : Exists (fun '(speed, _, _) => speed = 0%R)
                 [(5%R, 270%R, "Zachodni"%string);
                  (0%R, 0%R, "Cisza"%string)]).
  { apply Exists_cons_tl. apply Exists_cons_hd. reflexivity. }
  assert (H2 : Forall (fun '(speed, _, _) => speed <> 0%R)
                 [(5%R, 270%R, "Zachodni"%string)]).
  { constructor; [| constructor]. cbv beta iota. lra. }
  destruct (wind_batch_outcome lcg_runtime str_lower_ascii test_config
              [(5%R, 270%R, "Zachodni"%string); (0%R, 0%R, "Cisza"%string)]
              lcg_world) as [A _].
  destruct (wind_batch_outcome lcg_runtime str_lower_ascii test_config
              [(5%R, 270%R, "Zachodni"%string)] lcg_world) as [_ B].
  destruct (B H2) as (out & Eo & Hn & _).
  exact (conj H1 (conj H2 (conj (A H1)
           (ex_intro _ out (conj Eo Hn))))).
Defined.
End BatchResults.

(** * Across processes and in binary64 *)

(** ** Two interpreter processes *)

Section Heads.
Context {S A : Type}.

Lemma for_range_head (n : nat) (i : Z) (body : Z -> State S A) (s : S) :
  fst (for_range (Datatypes.S n) i body s)
  = fst (body i s)
    :: fst (for_range n (i + 1) body (snd (body i s))).
Proof.
  cbn [for_range]. unfold bind.
  destruct (body i s) as [x s1]. cbn [fst snd].
  destruct (for_range n (i + 1) body s1) as [xs s2]. reflexivity.
Qed.
End Heads.

Section RoundError.
Local Open Scope R_scope.

(** Rounding to [n] decimals moves a number by at most one unit of the
    last decimal. *)
Lemma PyR_round_error (x : R) (n : nat) :
  x - / PyR.pow10 n <= PyR.round x n <= x + / PyR.pow10 n.
Proof.
  pose proof (PyR_pow10_pos n) as Hp.
  unfold PyR.round.
  pose proof (PyR_round_half_even_lower (x * PyR.pow10 n)) as Hl.
  pose proof (PyR_round_half_even_upper (x * PyR.pow10 n)) as Hu.
  pose proof (Zfloor_bound (x * PyR.pow10 n)) as [F1 F2].
  apply IZR_le in Hl, Hu. rewrite plus_IZR in Hu.
  set (m := IZR (PyR.round_half_even (x * PyR.pow10 n))) in *.
  set (p := PyR.pow10 n) in *.
  assert (Hi : 0 < / p) by (apply Rinv_0_lt_compat, Hp).
  assert (E : x = x * p * / p) by (field; lra).
  unfold Rdiv. split.
  - assert (x * p - 1 <= m) by lra.
    assert ((x * p - 1) * / p <= m * / p)
      by (apply Rmult_le_compat_r; lra).
    nra.
  - assert (m <= x * p + 1) by lra.
    assert (m * / p <= (x * p + 1) * / p)
      by (apply Rmult_le_compat_r; lra).
    nra.
Qed.

(** Two numbers more than two units of the last decimal apart round to
    different numbers. *)
Lemma PyR_round_apart (x y : R) (n : nat) :
  x + 2 * / PyR.pow10 n < y -> PyR.round x n <> PyR.round y n.
Proof.
  intros H E.
  pose proof (PyR_round_error x n) as [_ Hx].
  pose proof (PyR_round_error y n) as [Hy _].
  rewrite E in Hx. lra.
Qed.
End RoundError.

Section FloodHead.
Context {rt : Runtime}.
Local Open Scope R_scope.

Lemma flood_zone_lat (self : FloodSim.FloodSimulator) (md : Q) (i : Z)
  (s : rng_state) :
  FloodSim.lat (fst (FloodSim.flood_zone_at self md i s))
  = PyR.round
      (Q2R (Location.center_lat (location (FloodSim.config self)))
       + fst (rng_normal 0 0.008 s)) 6.
Proof.
  unfold FloodSim.flood_zone_at, bind, ret, np_random_normal,
    np_random_exponential, np_random_choice.
  destruct (rng_normal 0 0.008 s) as [a s1].
  destruct (rng_normal 0 0.012 s1) as [b s2].
  destruct (PyQ.ltb 0 md).
  - destruct (rng_exponential _ s2) as [e s3].
    destruct (rng_normal 0 2 s3) as [c s4].
    destruct (rng_choice _ s4) as [k s5]. reflexivity.
  - destruct (rng_normal 0 2 s2) as [c s4].
    destruct (rng_choice _ s4) as [k s5]. reflexivity.
Qed.

(** The first flood point sits where the first draw after seeding with
    the hash of the scenario name puts it. *)
Lemma flood_zones_first_lat (self : FloodSim.FloodSimulator)
  (name : string) (md pct : Q) (s : rng_state) :
  exists (p : FloodSim.FloodZone) (rest : list FloodSim.FloodZone),
    fst (FloodSim.generate_flood_zones self name md pct s) = p :: rest /\
    FloodSim.lat p
    = PyR.round
        (Q2R (Location.center_lat (location (FloodSim.config self)))
         + fst (rng_normal 0 0.008
                  (rng_seed (Z.abs (hash name) mod 2 ^ 31)))) 6.
Proof.
  unfold FloodSim.generate_flood_zones, bind, np_random_seed.
  destruct (Z.to_nat (Z.max 5 (Z.min 50 (PyQ.int (pct * 0.8)))))
    as [| n] eqn:E; [lia |].
  rewrite for_range_head.
  eexists. eexists. split; [reflexivity |].
  apply flood_zone_lat.
Qed.
End FloodHead.

(** The derived metrics do not read the hash or the generator: they are
    the same under every runtime. *)
Lemma flood_metrics_runtime_free (rt1 rt2 : Runtime)
  (self : FloodSim.FloodSimulator) (r d : Q) (n : string) (det : bool)
  (w1 : @World rt1) (w2 : @World rt2) :
  FloodSim.metrics (fst (@FloodSim.simulate_scenario rt1 self r d n det w1))
  = FloodSim.metrics
      (fst (@FloodSim.simulate_scenario rt2 self r d n det w2)) /\
  FloodSim.impact_assessment
    (fst (@FloodSim.simulate_scenario rt1 self r d n det w1))
  = FloodSim.impact_assessment
      (fst (@FloodSim.simulate_scenario rt2 self r d n det w2)).
Proof.
  unfold FloodSim.simulate_scenario.
  destruct (FloodSim.calculate_effective_rainfall self r d) as [[e x] t].
  destruct (FloodSim.calculate_flood_depths self t) as [md pct].
  unfold bind, ret, datetime_now_isoformat.
  destruct det.
  - unfold on_np_random.
    destruct (@FloodSim.generate_flood_zones rt1 _ _ _ _ _) as [zs1 s1].
    destruct (@FloodSim.generate_flood_zones rt2 _ _ _ _ _) as [zs2 s2].
    split; reflexivity.
  - split; reflexivity.
Qed.

Section TwoProcesses.
Local Open Scope R_scope.

Lemma flood_first_lat_process_1 (md pct : Q) (s : Z) :
  exists p rest,
    fst (@FloodSim.generate_flood_zones lcg_runtime
           (FloodSim.init test_config) "Test intensywny deszcz" md pct s)
    = p :: rest /\
    FloodSim.lat p <= 54.095.
Proof.
  destruct (@flood_zones_first_lat lcg_runtime (FloodSim.init test_config)
              "Test intensywny deszcz" md pct s) as (p & rest & E & El).
  exists p, rest. split; [exact E |]. rewrite El.
  cbn [rng_normal rng_seed hash lcg_runtime fst FloodSim.init
       FloodSim.config test_config location Location.center_lat].
  assert (Em : ((Z.abs (Z.of_nat (String.length "Test intensywny deszcz"))
                 mod 2 ^ 31) mod 7 = 1)%Z) by (vm_compute; reflexivity).
  rewrite Em.
  pose proof (PyR_round_error
                (Q2R 54.10 + (0 + 0.008 * (1 - 3) / 3)) 6) as [_ Hu].
  assert (P6 : PyR.pow10 6 = 1000000) by reflexivity.
  rewrite P6 in Hu. lra.
Qed.

Lemma flood_first_lat_process_2 (md pct : Q) (s : Z) :
  exists p rest,
    fst (@FloodSim.generate_flood_zones (lcg_runtime_salted 1)
           (FloodSim.init test_config) "Test intensywny deszcz" md pct s)
    = p :: rest /\
    54.097 <= FloodSim.lat p.
Proof.
  destruct (@flood_zones_first_lat (lcg_runtime_salted 1)
              (FloodSim.init test_config)
              "Test intensywny deszcz" md pct s) as (p & rest & E & El).
  exists p, rest. split; [exact E |]. rewrite El.
  cbn [rng_normal rng_seed hash lcg_runtime_salted fst FloodSim.init
       FloodSim.config test_config location Location.center_lat].
  assert (Em : ((Z.abs (1 + Z.of_nat
                             (String.length "Test intensywny deszcz"))
                 mod 2 ^ 31) mod 7 = 2)%Z) by (vm_compute; reflexivity).
  rewrite Em.
  pose proof (PyR_round_error
                (Q2R 54.10 + (0 + 0.008 * (2 - 3) / 3)) 6) as [Hl _].
  assert (P6 : PyR.pow10 6 = 1000000) by reflexivity.
  rewrite P6 in Hl. lra.
Qed.
End TwoProcesses.

Section ThermalHead.
Import ThermalSim.
Context {rt : Runtime}.
Local Open Scope R_scope.

Lemma comfort_point_lat (self : ThermalComfortSimulator)
  (zones : list (string * ZoneComfort)) (d : string * ZoneComfort)
  (weights : list R) (i : Z) (s : rng_state) :
  lat (fst (comfort_point_at self zones d weights i s))
  = PyR.round (center_lat self + fst (rng_normal 0 0.008 s)) 6.
Proof.
  unfold comfort_point_at, bind, ret, np_random_normal, np_random_choice.
  destruct (rng_normal 0 0.008 s) as [dlat s1].
  destruct (rng_normal 0 0.012 s1) as [dlng s2].
  destruct (rng_choice weights s2) as [k s3].
  destruct (rng_normal 0 0.3 s3) as [dp s4].
  destruct (rng_normal 0 2.0 s4) as [du s5].
  destruct (rng_normal 0 2.5 s5) as [de s6].
  destruct (rng_normal 0 3 s6) as [ds s7].
  reflexivity.
Qed.

Lemma comfort_points_first_lat (self : ThermalComfortSimulator)
  (name : string) (d : string * ZoneComfort)
  (zones : list (string * ZoneComfort)) (c : R) (s : rng_state) :
  exists (p : ComfortPoint) (rest : list ComfortPoint),
    fst (generate_comfort_points self name (d :: zones) c s) = p :: rest /\
    lat p
    = PyR.round
        (center_lat self
         + fst (rng_normal 0 0.008
                  (rng_seed
                     (Z.abs (hash name + PyR.int (c * 1000)) mod 2 ^ 31))))
        6.
Proof.
  unfold generate_comfort_points, bind, np_random_seed.
  match goal with
  | |- context [for_range (Z.to_nat ?n) _ _ _] =>
      destruct (Z.to_nat n) as [| k] eqn:E; [lia |]
  end.
  rewrite for_range_head.
  eexists. eexists. split; [reflexivity |].
  apply comfort_point_lat.
Qed.

(** The area-weighted score before rounding. *)
Lemma thermal_overall_score_range (self : ThermalComfortSimulator)
  (ta rh va solar met clo : R) :
  1 <= fold_left
         (fun acc '(zone_id, zone) =>
            let zone_comfort :=
              calculate_zone_comfort self zone ta rh va solar met clo in
            let zone_contribution :=
              IZR (comfort_score (assessment zone_comfort)
                   * area_percent zone) / 100 in
            acc + zone_contribution)
         (define_urban_zones self) 0 <= 5.
Proof.
  unfold define_urban_zones. cbn [fold_left area_percent].
  repeat match goal with
  | |- context [comfort_score
                  (assessment
                     (calculate_zone_comfort self ?z ta rh va solar met
                        clo))] =>
      let H := fresh "H" in
      destruct (zone_comfort_assessment self z ta rh va solar met clo)
        as (H & _ & _);
      cbv zeta in H;
      let sc := fresh "sc" in
      set (sc := comfort_score
                   (assessment
                      (calculate_zone_comfort self z ta rh va solar met
                         clo))) in *;
      clearbody sc
  end.
  rewrite !mult_IZR.
  repeat match goal with
  | H : (1 <= ?s <= 5)%Z |- _ =>
      let L := fresh "L" in let U := fresh "U" in
      destruct H as [L U]; apply IZR_le in L, U
  end.
  lra.
Qed.

(** With detailed output, the first comfort point of a scenario sits
    where the first draw puts it, after seeding with the hash of the
    name plus the truncated thousandfold score. *)
Lemma thermal_first_lat (self : ThermalComfortSimulator)
  (ta rh va solar : R) (name season : string) (w : World) :
  let met :=
    dict_get [("winter", 1.4); ("spring", 1.2); ("summer", 1.0);
              ("autumn", 1.3)]%string season 1.2 in
  let clo :=
    dict_get [("winter", 2.0); ("spring", 0.8); ("summer", 0.4);
              ("autumn", 1.0)]%string season 0.7 in
  let score :=
    fold_left
      (fun acc '(zone_id, zone) =>
         let zone_comfort :=
           calculate_zone_comfort self zone ta rh va solar met clo in
         let zone_contribution :=
           IZR (comfort_score (assessment zone_comfort)
                * area_percent zone) / 100 in
         acc + zone_contribution)
      (define_urban_zones self) 0 in
  exists (p : ComfortPoint) (rest : list ComfortPoint),
    comfort_map
      (fst (simulate_scenario self ta rh va solar name season true w))
    = Some (p :: rest) /\
    lat p
    = PyR.round
        (center_lat self
         + fst (rng_normal 0 0.008
                  (rng_seed
                     (Z.abs (hash name + PyR.int (score * 1000))
                      mod 2 ^ 31)))) 6.
Proof.
  intros met clo score.
  unfold simulate_scenario.
  unfold bind, ret, datetime_now_isoformat, on_np_random.
  fold met clo. fold score.
  unfold define_urban_zones at 1. cbn [map].
  match goal with
  | |- context [generate_comfort_points self name (?d :: ?zs) score
                  (np_random w)] =>
      destruct (comfort_points_first_lat self name d zs score
                  (np_random w)) as (p & rest & E & El);
      destruct (generate_comfort_points self name (d :: zs) score
                  (np_random w)) as [pts s'] eqn:G
  end.
  cbn [fst] in E. subst pts.
  exists p, rest. split; [reflexivity | exact El].
Qed.
End ThermalHead.

Section ThermalTwoProcesses.
Import ThermalSim.
Local Open Scope R_scope.

(** Without [pythermalcomfort] the zone analysis is the same in every
    process. *)
Lemma zone_comfort_runtime_free (rt1 rt2 : Runtime)
  (self : ThermalComfortSimulator) (zone : Zone)
  (ta rh va solar met clo : R) :
  @pythermalcomfort rt1 = None -> @pythermalcomfort rt2 = None ->
  @calculate_zone_comfort rt1 self zone ta rh va solar met clo
  = @calculate_zone_comfort rt2 self zone ta rh va solar met clo.
Proof.
  intros H1 H2. unfold calculate_zone_comfort. rewrite H1, H2.
  reflexivity.
Qed.

(** Seeds that differ by one put the first point at different
    latitudes on the reference generator. *)
Lemma lcg_first_lat_apart (c : R) (s : Z) :
  PyR.round (c + (0 + 0.008 * (IZR (s mod 7) - 3) / 3)) 6
  <> PyR.round (c + (0 + 0.008 * (IZR ((s + 1) mod 7) - 3) / 3)) 6.
Proof.
  assert (P6 : PyR.pow10 6 = 1000000) by reflexivity.
  pose proof (Z.mod_pos_bound s 7 ltac:(lia)) as Hm.
  assert (Hs : ((s + 1) mod 7 = s mod 7 + 1
                \/ (s mod 7 = 6 /\ (s + 1) mod 7 = 0))%Z).
  { rewrite Z.add_mod by lia.
    destruct (Z.eq_dec (s mod 7) 6) as [E | NE].
    - right. rewrite E. split; reflexivity.
    - left. change (1 mod 7)%Z with 1%Z.
      apply Z.mod_small. lia. }
  destruct Hs as [E | [E6 E0]].
  - rewrite E, plus_IZR. apply PyR_round_apart. rewrite P6. lra.
  - rewrite E6, E0. intros H. symmetry in H. revert H.
    apply PyR_round_apart. rewrite P6. lra.
Qed.
End ThermalTwoProcesses.

Section ThermalTwoProcessesResult.
Import ThermalSim.
Local Open Scope R_scope.

(** What a thermal scenario reports apart from the points is the same
    in every process without [pythermalcomfort]. *)
Lemma thermal_summary_runtime_free (rt1 rt2 : Runtime)
  (self : ThermalComfortSimulator) (ta rh va solar : R)
  (name season : string) (detailed : bool)
  (w1 : @World rt1) (w2 : @World rt2) :
  @pythermalcomfort rt1 = None -> @pythermalcomfort rt2 = None ->
  overall_metrics
    (fst (@simulate_scenario rt1 self ta rh va solar name season detailed
            w1))
  = overall_metrics
      (fst (@simulate_scenario rt2 self ta rh va solar name season
              detailed w2)) /\
  zone_analysis
    (fst (@simulate_scenario rt1 self ta rh va solar name season detailed
            w1))
  = zone_analysis
      (fst (@simulate_scenario rt2 self ta rh va solar name season
              detailed w2)).
Proof.
  intros H1 H2.
  destruct (@thermal_simulate_summary rt1 self ta rh va solar name season
              detailed w1 w1) as (_ & _ & Em1 & Ez1 & _).
  destruct (@thermal_simulate_summary rt2 self ta rh va solar name season
              detailed w2 w2) as (_ & _ & Em2 & Ez2 & _).
  rewrite Em1, Ez1, Em2, Ez2. clear Em1 Ez1 Em2 Ez2.
  unfold simulate_scenario, bind, ret, datetime_now_isoformat.
  cbn [fst overall_metrics zone_analysis].
  unfold define_urban_zones. cbn [map fold_left area_percent].
  rewrite !(zone_comfort_runtime_free rt1 rt2 self _ ta rh va solar _ _
              H1 H2).
  split; reflexivity.
Qed.
End ThermalTwoProcessesResult.

Section ThermalPointsTwoProcesses.
Import ThermalSim.
Local Open Scope R_scope.

Lemma thermal_points_two_processes (ta rh va solar : R) (season : string)
  (w1 : @World lcg_runtime) (w2 : @World (lcg_runtime_salted 1)) :
  comfort_map
    (fst (@simulate_scenario lcg_runtime (init test_config) ta rh va solar
            "Test upal letni" season true w1))
  <> comfort_map
       (fst (@simulate_scenario (lcg_runtime_salted 1) (init test_config)
               ta rh va solar "Test upal letni" season true w2)).
Proof.
  assert (N1 : @pythermalcomfort lcg_runtime = None) by reflexivity.
  assert (N2 : @pythermalcomfort (lcg_runtime_salted 1) = None)
    by reflexivity.
  destruct (@thermal_first_lat lcg_runtime (init test_config) ta rh va
              solar "Test upal letni" season w1)
    as (p1 & rest1 & E1 & L1).
  destruct (@thermal_first_lat (lcg_runtime_salted 1) (init test_config)
              ta rh va solar "Test upal letni" season w2)
    as (p2 & rest2 & E2 & L2).
  pose proof (@thermal_overall_score_range (lcg_runtime_salted 1)
                (init test_config) ta rh va solar
                (dict_get [("winter", 1.4); ("spring", 1.2);
                           ("summer", 1.0); ("autumn", 1.3)]%string
                   season 1.2)
                (dict_get [("winter", 2.0); ("spring", 0.8);
                           ("summer", 0.4); ("autumn", 1.0)]%string
                   season 0.7)) as Hc.
  rewrite E1, E2. clear E1 E2.
  unfold define_urban_zones in L1, L2, Hc.
  cbn [fold_left area_percent] in L1, L2, Hc.
  rewrite !(zone_comfort_runtime_free lcg_runtime (lcg_runtime_salted 1)
              (init test_config) _ ta rh va solar _ _ N1 N2) in L1.
  match type of Hc with
  | 1 <= ?c <= 5 => set (score := c) in *
  end.
  clearbody score.
  assert (Hk : (1000 <= PyR.int (score * 1000) <= 5000)%Z).
  { unfold PyR.int.
    assert (L : PyR.ltb (score * 1000) 0 = false)
      by (apply PyR_ltb_false; lra).
    rewrite L. split.
    - apply Zfloor_lub. simpl. lra.
    - pose proof (Zfloor_bound (score * 1000)) as [B _].
      apply le_IZR. simpl. lra. }
  set (k := PyR.int (score * 1000)) in *. clearbody k.
  cbn [hash rng_normal rng_seed lcg_runtime lcg_runtime_salted fst]
    in L1, L2.
  assert (Eh : Z.of_nat (String.length "Test upal letni") = 15%Z)
    by reflexivity.
  rewrite Eh in L1, L2.
  change (2 ^ 31)%Z with 2147483648%Z in L1, L2.
  assert (S1 : (Z.abs (15 + k) mod 2147483648 = 15 + k)%Z)
    by (rewrite Z.abs_eq by lia; apply Z.mod_small; lia).
  assert (S2 : (Z.abs (1 + 15 + k) mod 2147483648 = 15 + k + 1)%Z)
    by (rewrite Z.abs_eq by lia; rewrite Z.mod_small by lia; lia).
  rewrite S1 in L1. rewrite S2 in L2.
  intros H. injection H as Hp _.
  rewrite Hp in L1. rewrite L2 in L1. symmetry in L1. revert L1.
  apply lcg_first_lat_apart.
Qed.
End ThermalPointsTwoProcesses.

(** Claim C1.  On the code the claim fails from one interpreter process
    to the next.  The flood and the thermal point generator seed numpy
    from [hash(scenario_name)], and Python salts the hash of a string
    once per process, so the seed is no function of the scenario
    identity.  In two processes that differ in nothing but the hash
    salt, the same configuration, scenario input and scenario name give
    the same derived metrics but different flood points, and the same
    zone analysis but different comfort points, against the source's
    own comment at the seeding lines, which promises repeatable
    results. *)
Theorem scenario_points_depend_on_hash_salt :
  let rt1 := lcg_runtime in
  let rt2 := lcg_runtime_salted 1 in
  let flood_name := "Test intensywny deszcz"%string in
  let thermal_name := "Test upal letni"%string in
  let f1 :=
    fst (@FloodSim.simulate_scenario rt1 (FloodSim.init test_config)
           65 2 flood_name true lcg_world) in
  let f2 :=
    fst (@FloodSim.simulate_scenario rt2 (FloodSim.init test_config)
           65 2 flood_name true (lcg_world_salted 1)) in
  let t1 :=
    fst (@ThermalSim.simulate_scenario rt1 (ThermalSim.init test_config)
           28 60 2 600 thermal_name "summer" true lcg_world) in
  let t2 :=
    fst (@ThermalSim.simulate_scenario rt2 (ThermalSim.init test_config)
           28 60 2 600 thermal_name "summer" true (lcg_world_salted 1)) in
  (@hash rt1 flood_name <> @hash rt2 flood_name /\
   FloodSim.metrics f1 = FloodSim.metrics f2 /\
   FloodSim.impact_assessment f1 = FloodSim.impact_assessment f2 /\
   FloodSim.flood_zones f1 <> FloodSim.flood_zones f2) /\
  (@hash rt1 thermal_name <> @hash rt2 thermal_name /\
   ThermalSim.overall_metrics t1 = ThermalSim.overall_metrics t2 /\
   ThermalSim.zone_analysis t1 = ThermalSim.zone_analysis t2 /\
   ThermalSim.comfort_map t1 <> ThermalSim.comfort_map t2).
Proof.
  intros rt1 rt2 flood_name thermal_name f1 f2 t1 t2.
  subst f1 f2 t1 t2 flood_name thermal_name rt1 rt2.
  split.
  - split; [vm_compute; discriminate |].
    destruct (flood_metrics_runtime_free lcg_runtime
                (lcg_runtime_salted 1) (FloodSim.init test_config) 65 2
                "Test intensywny deszcz" true lcg_world
                (lcg_world_salted 1)) as [Em Ei].
    split; [exact Em |]. split; [exact Ei |].
    clear Em Ei.
    destruct (@flood_simulate_impact lcg_runtime
                (FloodSim.init test_config) 65 2 "Test intensywny deszcz"
                true lcg_world) as (_ & _ & _ & _ & _ & E1).
    destruct (@flood_simulate_impact (lcg_runtime_salted 1)
                (FloodSim.init test_config) 65 2 "Test intensywny deszcz"
                true (lcg_world_salted 1)) as (_ & _ & _ & _ & _ & E2).
    cbv zeta in E1, E2. rewrite E1, E2.
    match goal with
    | |- Some (fst (FloodSim.generate_flood_zones _ _ ?md ?pct ?s1))
         <> Some (fst (FloodSim.generate_flood_zones _ _ _ _ ?s2)) =>
        destruct (flood_first_lat_process_1 md pct s1)
          as (p1 & rest1 & F1 & L1);
        destruct (flood_first_lat_process_2 md pct s2)
          as (p2 & rest2 & F2 & L2)
    end.
    rewrite F1, F2.
    intros H. injection H as Hp _. rewrite Hp in L1. lra.
  - split; [vm_compute; discriminate |].
    destruct (thermal_summary_runtime_free lcg_runtime
                (lcg_runtime_salted 1) (ThermalSim.init test_config)
                28 60 2 600 "Test upal letni" "summer" true lcg_world
                (lcg_world_salted 1))
      as [Em Ez]; [reflexivity | reflexivity |].
    split; [exact Em |]. split; [exact Ez |].
    apply thermal_points_two_processes.
Qed.

(** ** Binary64 rounding *)

Section B64Facts.
Local Open Scope Q_scope.

Lemma round_half_even_error (y : Q) :
  y - (1 # 2) <= inject_Z (PyQ.round_half_even y) <= y + (1 # 2).
Proof.
  pose proof (Qfloor_le y) as Hl. pose proof (Qlt_floor y) as Hu.
  rewrite inject_Z_plus in Hu. change (inject_Z 1) with 1 in Hu.
  unfold PyQ.round_half_even.
  destruct (Qcompare (y - inject_Z (Qfloor y)) (1 # 2)) eqn:E.
  - apply Qeq_alt in E.
    destruct (Z.even (Qfloor y)); [| rewrite inject_Z_plus;
      change (inject_Z 1) with 1]; lra.
  - apply Qlt_alt in E. lra.
  - apply Qgt_alt in E. rewrite inject_Z_plus.
    change (inject_Z 1) with 1. lra.
Qed.

Lemma pow2_pos (k : Z) : 0 < 2 ^ k.
Proof. apply Qpower.Qpower_0_lt. reflexivity. Qed.

Lemma pow2_nat (k : Z) : (0 <= k)%Z -> 2 ^ k == inject_Z (2 ^ k).
Proof.
  intros H. rewrite (Qpower.Zpower_Qpower 2 k H). reflexivity.
Qed.

Lemma ilog2_le (a : Q) : 0 < a -> 2 ^ B64.ilog2 a <= a.
Proof.
  intros Ha. unfold B64.ilog2.
  set (n := Qnum a). set (d := Zpos (Qden a)).
  destruct (Qle_bool (2 ^ (Z.log2 n - Z.log2 d)) a) eqn:E.
  - apply Qle_bool_iff. exact E.
  - assert (Hn : (0 < n)%Z).
    { unfold Qlt in Ha. simpl in Ha. unfold n. lia. }
    assert (Hd : (0 < d)%Z) by (unfold d; lia).
    pose proof (Z.log2_spec n Hn) as [Ln _].
    pose proof (Z.log2_spec d Hd) as [_ Ld].
    pose proof (Z.log2_nonneg n) as Nn.
    pose proof (Z.log2_nonneg d) as Nd.
    replace (Z.log2 n - Z.log2 d - 1)%Z
      with (Z.log2 n + - Z.succ (Z.log2 d))%Z by lia.
    rewrite Qpower.Qpower_plus by discriminate.
    rewrite Qpower.Qpower_opp.
    rewrite !pow2_nat by lia.
    assert (Hp : 0 < inject_Z (2 ^ Z.succ (Z.log2 d))).
    { rewrite <- pow2_nat by lia. apply pow2_pos. }
    assert (Ea : a == inject_Z n / inject_Z d).
    { unfold n, d. destruct a as [an ad]. simpl.
      rewrite Qmake_Qdiv. reflexivity. }
    rewrite Ea.
    assert (Hdq : 0 < inject_Z d).
    { change 0 with (inject_Z 0). rewrite <- Zlt_Qlt. exact Hd. }
    apply Qle_shift_div_l; [exact Hdq |].
    rewrite <- Qmult_assoc, (Qmult_comm (/ _)).
    rewrite Zle_Qle in Ln. apply Qlt_le_weak in Hdq.
    assert (Hq : inject_Z d * / inject_Z (2 ^ Z.succ (Z.log2 d)) <= 1).
    { apply Qle_shift_div_r; [exact Hp |].
      rewrite Qmult_1_l. rewrite <- Zle_Qle. lia. }
    assert (H0 : 0 <= inject_Z (2 ^ Z.log2 n)).
    { rewrite <- pow2_nat by lia. apply Qlt_le_weak, pow2_pos. }
    set (p := inject_Z (2 ^ Z.log2 n)) in *.
    set (q := inject_Z d * / inject_Z (2 ^ Z.succ (Z.log2 d))) in *.
    assert (Hq0 : 0 <= q).
    { unfold q. apply Qmult_le_0_compat; [exact Hdq |].
      apply Qlt_le_weak, Qinv_lt_0_compat, Hp. }
    nra.
Qed.

Lemma ilog2_lt (a : Q) : 0 < a -> a < 2 ^ (B64.ilog2 a + 1).
Proof.
  intros Ha. unfold B64.ilog2.
  set (n := Qnum a). set (d := Zpos (Qden a)).
  destruct (Qle_bool (2 ^ (Z.log2 n - Z.log2 d)) a) eqn:E.
  - assert (Hn : (0 < n)%Z).
    { unfold Qlt in Ha. simpl in Ha. unfold n. lia. }
    assert (Hd : (0 < d)%Z) by (unfold d; lia).
    pose proof (Z.log2_spec n Hn) as [_ Ln].
    pose proof (Z.log2_spec d Hd) as [Ld _].
    pose proof (Z.log2_nonneg n) as Nn.
    pose proof (Z.log2_nonneg d) as Nd.
    replace (Z.log2 n - Z.log2 d + 1)%Z
      with (Z.succ (Z.log2 n) + - Z.log2 d)%Z by lia.
    rewrite Qpower.Qpower_plus by discriminate.
    rewrite Qpower.Qpower_opp.
    rewrite !pow2_nat by lia.
    assert (Hp : 0 < inject_Z (2 ^ Z.log2 d)).
    { rewrite <- pow2_nat by lia. apply pow2_pos. }
    assert (Ea : a == inject_Z n / inject_Z d).
    { unfold n, d. destruct a as [an ad]. simpl.
      rewrite Qmake_Qdiv. reflexivity. }
    rewrite Ea.
    assert (Hdq : 0 < inject_Z d).
    { change 0 with (inject_Z 0). rewrite <- Zlt_Qlt. exact Hd. }
    apply Qlt_shift_div_r; [exact Hdq |].
    rewrite Zlt_Qlt in Ln. rewrite Zle_Qle in Ld.
    assert (Hq : 1 <= / inject_Z (2 ^ Z.log2 d) * inject_Z d).
    { rewrite Qmult_comm. apply Qle_shift_div_l; [exact Hp |].
      rewrite Qmult_1_l. exact Ld. }
    rewrite <- Qmult_assoc.
    set (p := inject_Z (2 ^ Z.succ (Z.log2 n))) in *.
    set (q := / inject_Z (2 ^ Z.log2 d) * inject_Z d) in *.
    assert (Hn0 : 0 < inject_Z n).
    { change 0 with (inject_Z 0). rewrite <- Zlt_Qlt. exact Hn. }
    nra.
  - replace (Z.log2 n - Z.log2 d - 1 + 1)%Z
      with (Z.log2 n - Z.log2 d)%Z by lia.
    destruct (Qlt_le_dec a (2 ^ (Z.log2 n - Z.log2 d))) as [L | G];
      [exact L |].
    apply Qle_bool_iff in G. congruence.
Qed.

(** The result has a significand of 53 bits: it is an integer between
    2^52 and 2^53 times a power of two. *)
Lemma B64_round_significand (x : Q) :
  0 < x ->
  exists (m e : Z),
    B64.round x == inject_Z m * 2 ^ e /\
    (2 ^ 52 <= m <= 2 ^ 53)%Z.
Proof.
  intros Hx. unfold B64.round.
  assert (E0 : Qeq_bool x 0 = false).
  { destruct (Qeq_bool x 0) eqn:E; [| reflexivity].
    apply Qeq_bool_iff in E. lra. }
  assert (Eb : Qle_bool 0 x = true) by (apply Qle_bool_iff; lra).
  rewrite E0, Eb.
  exists (PyQ.round_half_even (x / 2 ^ (B64.ilog2 x - 52))),
         (B64.ilog2 x - 52)%Z.
  split; [reflexivity |].
  pose proof (ilog2_le x Hx) as Hl.
  pose proof (ilog2_lt x Hx) as Hu.
  pose proof (pow2_pos (B64.ilog2 x - 52)) as Hp.
  assert (Eu : 2 ^ B64.ilog2 x
               == 2 ^ (B64.ilog2 x - 52) * 4503599627370496).
  { replace (B64.ilog2 x) with (B64.ilog2 x - 52 + 52)%Z at 1 by lia.
    rewrite Qpower.Qpower_plus by discriminate.
    apply Qmult_comp; [reflexivity | vm_compute; reflexivity]. }
  assert (Ev : 2 ^ (B64.ilog2 x + 1)
               == 2 ^ (B64.ilog2 x - 52) * 9007199254740992).
  { replace (B64.ilog2 x + 1)%Z with (B64.ilog2 x - 52 + 53)%Z by lia.
    rewrite Qpower.Qpower_plus by discriminate.
    apply Qmult_comp; [reflexivity | vm_compute; reflexivity]. }
  rewrite Eu in Hl. rewrite Ev in Hu.
  set (ulp := 2 ^ (B64.ilog2 x - 52)) in *.
  assert (Y1 : 4503599627370496 <= x / ulp).
  { apply Qle_shift_div_l; [exact Hp | lra]. }
  assert (Y2 : x / ulp <= 9007199254740992).
  { apply Qle_shift_div_r; [exact Hp | lra]. }
  pose proof (round_half_even_mono _ _ Y1) as M1.
  pose proof (round_half_even_mono _ _ Y2) as M2.
  change (PyQ.round_half_even 4503599627370496) with (2 ^ 52)%Z in M1.
  change (PyQ.round_half_even 9007199254740992) with (2 ^ 53)%Z in M2.
  split; assumption.
Qed.

(** The relative error of one rounding is at most 2^-53. *)
Lemma B64_round_error (x : Q) :
  0 <= x ->
  x * (1 - (1 # 9007199254740992)) <= B64.round x
  <= x * (1 + (1 # 9007199254740992)).
Proof.
  intros Hx. unfold B64.round.
  destruct (Qeq_bool x 0) eqn:E0.
  - apply Qeq_bool_iff in E0. split; lra.
  - assert (Hpos : 0 < x).
    { destruct (Qlt_le_dec 0 x) as [L | G]; [exact L |].
      assert (Ez : x == 0) by lra.
      apply Qeq_bool_iff in Ez. congruence. }
    assert (Eb : Qle_bool 0 x = true) by (apply Qle_bool_iff; exact Hx).
    rewrite Eb.
    pose proof (ilog2_le x Hpos) as Hl.
    pose proof (pow2_pos (B64.ilog2 x - 52)) as Hu.
    assert (Eu : 2 ^ (B64.ilog2 x - 52)
                 == 2 ^ B64.ilog2 x * (1 # 4503599627370496)).
    { replace (B64.ilog2 x - 52)%Z with (B64.ilog2 x + - 52)%Z by lia.
      rewrite Qpower.Qpower_plus by discriminate.
      apply Qmult_comp; [reflexivity | vm_compute; reflexivity]. }
    set (ulp := 2 ^ (B64.ilog2 x - 52)) in *.
    pose proof (round_half_even_error (x / ulp)) as [Ml Mu].
    set (m := inject_Z (PyQ.round_half_even (x / ulp))) in *.
    assert (Ey : x / ulp * ulp == x) by (field; lra).
    set (y := x / ulp) in *.
    assert (Hul : ulp <= x * (1 # 4503599627370496)) by (rewrite Eu; lra).
    split; nra.
Qed.
End B64Facts.

Section WindProfile64.
Local Open Scope Q_scope.

(** At the reference height the two logarithms are one double [L], and
    the profile is [(u_ref * L) / L] with two roundings. *)
Lemma wind_profile64_at_reference (np_log : Q -> Q) (u z_ref z0 : Q) :
  z0 < z_ref -> 0 <= u ->
  0 < np_log (B64.div (B64.add z_ref z0) z0) ->
  u * (1 - (23 # 100000000000000000))
  <= WindSim64.calculate_wind_profile np_log z_ref u z_ref z0
  <= u * (1 + (23 # 100000000000000000)).
Proof.
  intros Hz Hu HL. unfold WindSim64.calculate_wind_profile.
  assert (Hg : PyQ.leb z_ref z0 = false).
  { unfold PyQ.leb. destruct (Qlt_le_dec z0 z_ref); [reflexivity | lra]. }
  rewrite Hg.
  set (L := np_log (B64.div (B64.add z_ref z0) z0)) in *.
  unfold B64.div, B64.mul.
  assert (H0 : 0 <= u * L) by nra.
  pose proof (B64_round_error (u * L) H0) as [T1 T2].
  set (t := B64.round (u * L)) in *.
  assert (Ht : 0 <= t) by nra.
  assert (Eq : t / L * L == t) by (field; lra).
  assert (Hq : 0 <= t / L).
  { apply Qle_shift_div_l; [exact HL | lra]. }
  pose proof (B64_round_error (t / L) Hq) as [W1 W2].
  set (q := t / L) in *.
  set (w := B64.round q) in *.
  assert (Q1 : u * (1 - (1 # 9007199254740992)) <= q) by nra.
  assert (Q2 : q <= u * (1 + (1 # 9007199254740992))) by nra.
  assert (B1 : u * (1 - (23 # 100000000000000000)) <= w) by nra.
  assert (B2 : w <= u * (1 + (23 # 100000000000000000))) by nra.
  split; q_cases; lra.
Qed.
End WindProfile64.

(** In binary64 the call does not always return the reference speed:
    for the double 0.99 it returns 0.9900000000000001, whichever of the
    three doubles next to ln(10.3 / 0.3) = 3.5361166995615263...
    numpy's logarithm gives. *)
Lemma wind_profile_reference_height_counterexample :
  let u_ref := B64.round 0.99 in
  (0 <= u_ref)%Q /\
  Forall
    (fun L : Q =>
       let speed :=
         WindSim64.calculate_wind_profile (fun _ => L)
           WindSim64.reference_height u_ref WindSim64.reference_height
           WindSim64.surface_roughness in
       (speed == 8917127262193583 # 9007199254740992)%Q /\
       ~ (speed == u_ref)%Q)
    [7962626925241938 # 2251799813685248;
     7962626925241939 # 2251799813685248;
     7962626925241940 # 2251799813685248]%Q.
Proof.
  split; [vm_compute; discriminate |].
  repeat constructor; vm_compute; try reflexivity;
    intros H; discriminate H.
Qed.

(** Claim C9, as amended.  At the simulator's own reference height,
    with the default roughness length and a reference speed that is not
    negative, the profile returns the reference speed up to rounding:
    the reference speed itself in exact arithmetic, and in binary64,
    whatever positive double numpy's logarithm returns, a speed within a
    relative error of 2.3e-16 of it. *)
Theorem wind_profile_reference_height_up_to_rounding (cfg : Config)
  (u_ref : R) (np_log : Q -> Q) (u_ref64 : Q) :
  let self := WindSim.init cfg in
  let z_ref := WindSim64.reference_height in
  let z0 := WindSim64.surface_roughness in
  (0 <= u_ref)%R ->
  (0 <= u_ref64)%Q ->
  (0 < np_log (B64.div (B64.add z_ref z0) z0))%Q ->
  WindSim.calculate_wind_profile self (WindSim.reference_height self)
    u_ref None None = u_ref /\
  (u_ref64 * (1 - (23 # 100000000000000000))
   <= WindSim64.calculate_wind_profile np_log z_ref u_ref64 z_ref z0
   <= u_ref64 * (1 + (23 # 100000000000000000)))%Q.
Proof.
  intros self z_ref z0 Hu Hu64 HL. split.
  - apply (wind_profile_reference_height cfg u_ref Hu).
  - apply wind_profile64_at_reference; [| exact Hu64 | exact HL].
    vm_compute. reflexivity.
Qed.

Lemma wind_profile_reference_height_up_to_rounding_witness :
  let np_log := fun _ : Q => (7962626925241939 # 2251799813685248)%Q in
  let u_ref64 := B64.round 0.99 in
  let z_ref := WindSim64.reference_height in
  let z0 := WindSim64.surface_roughness in
  (0 <= 5)%R /\ (0 <= u_ref64)%Q /\
  (0 < np_log (B64.div (B64.add z_ref z0) z0))%Q /\
  WindSim.calculate_wind_profile (WindSim.init test_config)
    (WindSim.reference_height (WindSim.init test_config)) 5 None None
  = 5%R /\
  (u_ref64 * (1 - (23 # 100000000000000000))
   <= WindSim64.calculate_wind_profile np_log z_ref u_ref64 z_ref z0
   <= u_ref64 * (1 + (23 # 100000000000000000)))%Q.
Proof.
  intros np_log u_ref64 z_ref z0.
  assert (H1 : (0 <= 5)%R) by lra.
  assert (H2 : (0 <= u_ref64)%Q) by (vm_compute; discriminate).
  assert (H3 : (0 < np_log (B64.div (B64.add z_ref z0) z0))%Q)
    by (vm_compute; reflexivity).
  exact (conj H1 (conj H2 (conj H3
           (wind_profile_reference_height_up_to_rounding test_config 5
              np_log u_ref64 H1 H2 H3)))).
Defined.
